(** * Youtube-Backend: the aggregation core, embedded and verified

    The handlers of [src/controllers/video.controller.js] and
    [src/controllers/user.controllers.js] build MongoDB aggregation
    pipelines and run them against the document store.  The development
    below embeds

    - the JavaScript helpers the handlers rely on (truthiness, [trim],
      [toLowerCase], [parseInt]),
    - BSON values and documents, and the aggregation stages the handlers use
      ([$match], [$search], [$sort], [$lookup], [$unwind], [$addFields],
      [$project]) with their expression language,
    - the handlers themselves, as computations in a small state-and-exception
      monad over the store, a clock and a trace of external calls,

    and then states and proves the properties of the specification. *)

From Stdlib Require Import String Ascii List ZArith Bool Lia Permutation Sorted.
Import ListNotations.
Open Scope string_scope.
Open Scope Z_scope.
Open Scope list_scope.

(* ===================================================================== *)
(** * JavaScript string helpers *)
(* ===================================================================== *)

Module Js.

(** [s.toLowerCase()] on the ASCII range. *)
Definition lower_ascii (c : ascii) : ascii :=
  let n := nat_of_ascii c in
  if ((65 <=? n) && (n <=? 90))%nat then ascii_of_nat (n + 32) else c.

Fixpoint toLowerCase (s : string) : string :=
  match s with
  | EmptyString => EmptyString
  | String c r => String (lower_ascii c) (toLowerCase r)
  end.

(** A string is kept as the UTF-8 bytes of the JavaScript string.  White
    space as [trim] and [parseInt] understand it: the ASCII ones (space,
    tab, LF, VT, FF, CR) ... *)
Definition is_space (c : ascii) : bool :=
  let n := nat_of_ascii c in
  ((n =? 32) || ((9 <=? n) && (n <=? 13)))%nat.

(** ... U+00A0, in two bytes ... *)
Definition is_space2 (c d : ascii) : bool :=
  ((nat_of_ascii c =? 194) && (nat_of_ascii d =? 160))%nat.

(** ... and, in three bytes, U+1680, U+2000 to U+200A, U+2028, U+2029,
    U+202F, U+205F, U+3000 and U+FEFF. *)
Definition is_space3 (c d e : ascii) : bool :=
  let c := nat_of_ascii c in
  let d := nat_of_ascii d in
  let e := nat_of_ascii e in
  ((c =? 225) && (d =? 154) && (e =? 128)
   || (c =? 226) && (d =? 128)
      && ((128 <=? e) && (e <=? 138) || (e =? 168) || (e =? 169) || (e =? 175))
   || (c =? 226) && (d =? 129) && (e =? 159)
   || (c =? 227) && (d =? 128) && (e =? 128)
   || (c =? 239) && (d =? 187) && (e =? 191))%nat.

Fixpoint trimStart (s : string) : string :=
  match s with
  | EmptyString => s
  | String c r =>
      if is_space c then trimStart r
      else
        match r with
        | EmptyString => s
        | String d r2 =>
            if is_space2 c d then trimStart r2
            else
              match r2 with
              | EmptyString => s
              | String e r3 => if is_space3 c d e then trimStart r3 else s
              end
        end
  end.

(** Is the string white space throughout? *)
Definition all_space (s : string) : bool :=
  match trimStart s with EmptyString => true | _ => false end.

(** [trimEnd]: cut where only white space follows. *)
Fixpoint trimEnd (s : string) : string :=
  match s with
  | EmptyString => EmptyString
  | String c r => if all_space s then EmptyString else String c (trimEnd r)
  end.

Definition trim (s : string) : string := trimEnd (trimStart s).

(** Truthiness of a string: every string but the empty one. *)
Definition truthy_str (s : string) : bool :=
  match s with EmptyString => false | _ => true end.

(** Truthiness of an optional string ([undefined] is falsy). *)
Definition truthy (o : option string) : bool :=
  match o with Some s => truthy_str s | None => false end.

Definition is_digit (c : ascii) : bool :=
  let n := nat_of_ascii c in ((48 <=? n) && (n <=? 57))%nat.

Definition digit_val (c : ascii) : Z := Z.of_nat (nat_of_ascii c) - 48.

(** The digits at the head of [s], accumulated in base ten; [None] when
    [s] does not start with a digit. *)
Fixpoint digits (acc : option Z) (s : string) : option Z :=
  match s with
  | EmptyString => acc
  | String c r =>
      if is_digit c
      then digits (Some (10 * match acc with Some a => a | None => 0 end
                         + digit_val c)) r
      else acc
  end.

(** [parseInt(s, 10)]: leading white space, an optional sign, then the
    longest run of digits; [None] stands for [NaN]. *)
Definition parseInt (s : string) : option Z :=
  match trimStart s with
  | String "-" r => option_map Z.opp (digits None r)
  | String "+" r => digits None r
  | r => digits None r
  end.

(** Split a dotted path at its dots. *)
Fixpoint split_dots (s : string) : list string :=
  match s with
  | EmptyString => [EmptyString]
  | String c r =>
      if Ascii.eqb c "."
      then EmptyString :: split_dots r
      else match split_dots r with
           | [] => [String c EmptyString]
           | h :: t => String c h :: t
           end
  end.

End Js.

(* ===================================================================== *)
(** * BSON values and documents *)
(* ===================================================================== *)

(** An ObjectId is kept as its canonical rendering, 24 lower-case
    hexadecimal digits: this is what [toString()] returns. *)
Definition ObjectId := string.

#[warnings="-register-all"]
Inductive value : Type :=
| VMissing                       (* absent field, JavaScript [undefined] *)
| VNull
| VBool (b : bool)
| VNum (n : Z)
| VStr (s : string)
| VId (o : ObjectId)
| VDate (t : Z)
| VArr (l : list value)
| VDoc (d : list (string * value)).

Definition doc := list (string * value).

Fixpoint value_eqb (a b : value) {struct a} : bool :=
  match a, b with
  | VMissing, VMissing => true
  | VNull, VNull => true
  | VBool x, VBool y => Bool.eqb x y
  | VNum x, VNum y => Z.eqb x y
  | VStr x, VStr y => String.eqb x y
  | VId x, VId y => String.eqb x y
  | VDate x, VDate y => Z.eqb x y
  | VArr x, VArr y =>
      (fix go (l1 l2 : list value) : bool :=
         match l1, l2 with
         | [], [] => true
         | u :: l1', v :: l2' => value_eqb u v && go l1' l2'
         | _, _ => false
         end) x y
  | VDoc x, VDoc y =>
      (fix go (l1 l2 : list (string * value)) : bool :=
         match l1, l2 with
         | [], [] => true
         | (k1, u) :: l1', (k2, v) :: l2' =>
             String.eqb k1 k2 && value_eqb u v && go l1' l2'
         | _, _ => false
         end) x y
  | _, _ => false
  end.

(** Field access, update and removal on a document. *)
Fixpoint get (k : string) (d : doc) : value :=
  match d with
  | [] => VMissing
  | (k', v) :: r => if String.eqb k k' then v else get k r
  end.

Fixpoint remove (k : string) (d : doc) : doc :=
  match d with
  | [] => []
  | (k', v) :: r => if String.eqb k k' then remove k r else (k', v) :: remove k r
  end.

Fixpoint put (k : string) (v : value) (d : doc) : doc :=
  match d with
  | [] => [(k, v)]
  | (k', v') :: r => if String.eqb k k' then (k, v) :: r else (k', v') :: put k v r
  end.

(** Setting a field to a missing value removes the field. *)
Definition set (k : string) (v : value) (d : doc) : doc :=
  match v with VMissing => remove k d | _ => put k v d end.

Definition is_missing (v : value) : bool :=
  match v with VMissing => true | _ => false end.

(** One step of a field path: into a document, or through an array of
    documents (elements without the field are skipped). *)
Definition step (k : string) (v : value) : value :=
  match v with
  | VDoc d => get k d
  | VArr l =>
      VArr (filter (fun x => negb (is_missing x))
              (map (fun x => match x with VDoc d => get k d | _ => VMissing end) l))
  | _ => VMissing
  end.

Definition get_path (p : list string) (v : value) : value :=
  fold_left (fun acc k => step k acc) p v.

Definition field (path : string) (d : doc) : value :=
  get_path (Js.split_dots path) (VDoc d).

(** Truthiness of a value inside [$cond]. *)
Definition truthy_value (v : value) : bool :=
  match v with
  | VMissing | VNull => false
  | VBool b => b
  | VNum n => negb (n =? 0)
  | _ => true
  end.

(* ===================================================================== *)
(** * Identifiers *)
(* ===================================================================== *)

Definition is_hex (c : ascii) : bool :=
  let n := nat_of_ascii c in
  (((48 <=? n) && (n <=? 57)) || ((97 <=? n) && (n <=? 102))
   || ((65 <=? n) && (n <=? 70)))%nat.

Definition is_lower_hex (c : ascii) : bool :=
  let n := nat_of_ascii c in
  (((48 <=? n) && (n <=? 57)) || ((97 <=? n) && (n <=? 102)))%nat.

(** mongoose's [isValidObjectId] on a string: 24 hexadecimal digits, in
    either case. *)
Definition isValidObjectId (s : string) : bool :=
  (String.length s =? 24)%nat && forallb is_hex (list_ascii_of_string s).

(** [new mongoose.Types.ObjectId(s)] for a valid [s]: the identifier whose
    rendering is [s] in lower case. *)
Definition castObjectId (s : string) : ObjectId := Js.toLowerCase s.

(** [o.toString()]. *)
Definition toString (o : ObjectId) : string := o.

(** The strings that are the rendering of an identifier. *)
Definition canonical (s : string) : bool :=
  (String.length s =? 24)%nat && forallb is_lower_hex (list_ascii_of_string s).

(* ===================================================================== *)
(** * The collections *)
(* ===================================================================== *)

Record Media := { fileId : string; url : string }.

(** A video, with the fields the controller writes and reads:
    [publishAVideo] creates [video] and [thumbnail] (each a file identifier
    and a URL), [duration], [title], [description], [isPublished] and
    [owner]; [views] and the two timestamps come from the schema, which
    has [timestamps: true] (the schema file among the sources predates the
    controller: it keeps the two media as plain strings). *)
Record Video := {
  v_id : ObjectId;
  v_video : Media;
  v_thumbnail : Media;
  v_title : string;
  v_description : string;
  v_duration : Z;
  v_views : Z;
  v_isPublished : bool;
  v_owner : ObjectId;
  v_createdAt : Z;
  v_updatedAt : Z
}.

Record HistoryEntry := { h_video : ObjectId; h_watchedAt : Z }.

(** Modelled from the spec: the User schema ([models/user.model.js]) is not
    among the sources.  A user has an identifier, a unique lower-case
    username, an email, the profile fields (full name, avatar, cover image)
    and the watch history, an ordered sequence of
    [{video reference, watched-at timestamp}]. *)
Record User := {
  u_id : ObjectId;
  u_username : string;
  u_email : string;
  u_fullName : string;
  u_avatar : Media;
  u_coverImage : Media;
  u_watchHistory : list HistoryEntry
}.

(** Modelled from the spec: the Like schema ([models/like.model.js]) is not
    among the sources.  A like has an identifier, a video reference and the
    reference of the user who likes. *)
Record Like := { l_id : ObjectId; l_video : ObjectId; l_likedBy : ObjectId }.

(** [subcriptionSchema]: who subscribes, and to which channel. *)
Record Subscription := {
  s_id : ObjectId;
  s_subscriber : ObjectId;
  s_channel : ObjectId
}.

(** Modelled from the spec: the Comment schema ([models/comment.model.js])
    is not among the sources.  A comment has an identifier, a video
    reference, an author reference, a body and a timestamp. *)
Record Comment := {
  c_id : ObjectId;
  c_video : ObjectId;
  c_owner : ObjectId;
  c_content : string;
  c_createdAt : Z
}.

Definition media_doc (m : Media) : value :=
  VDoc [("fileId", VStr (fileId m)); ("url", VStr (url m))].

Definition video_doc (v : Video) : doc :=
  [ ("_id", VId (v_id v));
    ("video", media_doc (v_video v));
    ("thumbnail", media_doc (v_thumbnail v));
    ("title", VStr (v_title v));
    ("description", VStr (v_description v));
    ("duration", VNum (v_duration v));
    ("views", VNum (v_views v));
    ("isPublished", VBool (v_isPublished v));
    ("owner", VId (v_owner v));
    ("createdAt", VDate (v_createdAt v));
    ("updatedAt", VDate (v_updatedAt v)) ].

Definition history_doc (h : HistoryEntry) : value :=
  VDoc [("video", VId (h_video h)); ("watchedAt", VDate (h_watchedAt h))].

Definition user_doc (u : User) : doc :=
  [ ("_id", VId (u_id u));
    ("username", VStr (u_username u));
    ("email", VStr (u_email u));
    ("fullName", VStr (u_fullName u));
    ("avatar", media_doc (u_avatar u));
    ("coverImage", media_doc (u_coverImage u));
    ("watchHistory", VArr (map history_doc (u_watchHistory u))) ].

Definition like_doc (l : Like) : doc :=
  [ ("_id", VId (l_id l)); ("video", VId (l_video l));
    ("likedBy", VId (l_likedBy l)) ].

Definition subscription_doc (s : Subscription) : doc :=
  [ ("_id", VId (s_id s)); ("subscriber", VId (s_subscriber s));
    ("channel", VId (s_channel s)) ].

Definition comment_doc (c : Comment) : doc :=
  [ ("_id", VId (c_id c)); ("video", VId (c_video c));
    ("owner", VId (c_owner c)); ("content", VStr (c_content c));
    ("createdAt", VDate (c_createdAt c)) ].

(** The document store: the five collections, and the relevance score of
    its full-text index ([$search] with an index name, a query and the
    paths to search; no score means no match), which belongs to the store
    and is left arbitrary. *)
Record Store := {
  users : list User;
  videos : list Video;
  likes : list Like;
  subscriptions : list Subscription;
  comments : list Comment;
  search_score : string -> string -> list string -> doc -> option Z
}.

(** The collections by name, as the pipelines of the video controller name
    them; any other name is a collection that does not exist, which is
    empty. *)
Definition collection (st : Store) (name : string) : list doc :=
  if String.eqb name "users" then map user_doc (users st)
  else if String.eqb name "videos" then map video_doc (videos st)
  else if String.eqb name "likes" then map like_doc (likes st)
  else if String.eqb name "subscriptions" then map subscription_doc (subscriptions st)
  else if String.eqb name "comments" then map comment_doc (comments st)
  else [].

(* ===================================================================== *)
(** * Failures and outcomes *)
(* ===================================================================== *)

(** What a handler can throw: the controller's own [ApiError] with its
    status code and message, and the failures raised below it. *)
Inductive error : Type :=
| ApiError (status : Z) (msg : string)
| CastError (path : string)            (* mongoose: value is not an ObjectId *)
| MongoServerError (msg : string)      (* the store rejects the command *)
| DocumentNotFoundError                (* mongoose: saved document is gone *)
| ReferenceError (name : string)       (* the identifier is not declared *)
| TypeError (msg : string).            (* a property of undefined is read *)

Inductive outcome (A : Type) : Type :=
| Ok (a : A)
| Throw (e : error).
Arguments Ok {A} a.
Arguments Throw {A} e.

Definition obind {A B} (x : outcome A) (f : A -> outcome B) : outcome B :=
  match x with Ok a => f a | Throw e => Throw e end.

Fixpoint omap {A B} (f : A -> outcome B) (l : list A) : outcome (list B) :=
  match l with
  | [] => Ok []
  | a :: r => obind (f a) (fun b => obind (omap f r) (fun bs => Ok (b :: bs)))
  end.

(* ===================================================================== *)
(** * The aggregation framework *)
(* ===================================================================== *)

Module Agg.

(** Expressions.  A string operand is a field path when it starts with a
    dollar sign and a string constant otherwise. *)
Inductive expr : Type :=
| EStr (s : string)
| ELit (v : value)
| ESize (e : expr)
| EIn (x arr : expr)
| ECond (c t f : expr)
| EFirst (e : expr).

#[warnings="-register-all"]
Inductive stage : Type :=
| SMatch (conds : list (string * value))
| SSearch (index query : string) (paths : list string)
| SSort (key : string) (dir : Z)
| SLookup (from localField foreignField as_ : string) (pipeline : list stage)
| SUnwind (path : string)
| SAddFields (fs : list (string * expr))
| SProject (paths : list string).

Definition eval_str (s : string) (d : doc) : value :=
  match s with
  | String "$" path => field path d
  | _ => VStr s
  end.

Fixpoint eval (e : expr) (d : doc) : outcome value :=
  match e with
  | EStr s => Ok (eval_str s d)
  | ELit v => Ok v
  | ESize a =>
      obind (eval a d) (fun v =>
        match v with
        | VArr l => Ok (VNum (Z.of_nat (List.length l)))
        | _ => Throw (MongoServerError "The argument to $size must be an array")
        end)
  | EIn x arr =>
      obind (eval x d) (fun vx =>
      obind (eval arr d) (fun va =>
        match va with
        | VArr l => Ok (VBool (existsb (value_eqb vx) l))
        | _ => Throw (MongoServerError "$in requires an array as a second argument")
        end))
  | ECond c t f =>
      obind (eval c d) (fun vc =>
        if truthy_value vc then eval t d else eval f d)
  | EFirst a =>
      obind (eval a d) (fun v =>
        match v with
        | VArr [] => Ok VMissing
        | VArr (x :: _) => Ok x
        | VNull | VMissing => Ok VNull
        | _ => Throw (MongoServerError "$first's argument must be an array")
        end)
  end.

(** Equality as a query condition and as the join condition of [$lookup]:
    a missing field counts as null, and an array field matches when one
    of its elements does. *)
Definition null_if_missing (v : value) : value :=
  match v with VMissing => VNull | _ => v end.

Definition field_matches (fv qv : value) : bool :=
  let fv := null_if_missing fv in
  value_eqb fv qv
  || match fv with VArr l => existsb (fun x => value_eqb x qv) l | _ => false end.

Definition matches (conds : list (string * value)) (d : doc) : bool :=
  forallb (fun c => field_matches (field (fst c) d) (snd c)) conds.

Definition joins (local foreign : value) : bool :=
  match null_if_missing local with
  | VArr ls => existsb (fun x => field_matches foreign x) ls
  | l => field_matches foreign l
  end.

(** The order of [$sort]: first the BSON type, then the order of the type
    (composite values are compared by their type only). *)
Definition bson_rank (v : value) : Z :=
  match v with
  | VMissing | VNull => 1
  | VNum _ => 2
  | VStr _ => 3
  | VDoc _ => 4
  | VArr _ => 5
  | VId _ => 7
  | VBool _ => 8
  | VDate _ => 9
  end.

Definition value_leb (a b : value) : bool :=
  match a, b with
  | VNum x, VNum y => x <=? y
  | VDate x, VDate y => x <=? y
  | VStr x, VStr y => String.leb x y
  | VId x, VId y => String.leb x y
  | VBool x, VBool y => implb x y
  | _, _ => bson_rank a <=? bson_rank b
  end.

(** Stable insertion sort. *)
Fixpoint insert {A} (before : A -> A -> bool) (x : A) (l : list A) : list A :=
  match l with
  | [] => [x]
  | y :: r => if before x y then x :: y :: r
              else y :: insert before x r
  end.

Definition isort {A} (before : A -> A -> bool) (l : list A) : list A :=
  fold_right (insert before) [] l.

(** [$sort] on one key; descending order reverses the comparison, not
    the list. *)
Definition before (key : string) (dir : Z) (a b : doc) : bool :=
  if 0 <? dir
  then value_leb (field key a) (field key b)
  else value_leb (field key b) (field key a).

Definition sort (key : string) (dir : Z) (l : list doc) : list doc :=
  isort (before key dir) l.

(** [$search]: the documents the index matches, best score first. *)
Definition score_of (st : Store) (index query : string) (paths : list string)
    (d : doc) : Z :=
  match search_score st index query paths d with
  | Some n => n
  | None => 0
  end.

Definition search (st : Store) (index query : string) (paths : list string)
    (docs : list doc) : list doc :=
  isort (fun a b => score_of st index query paths b
                    <=? score_of st index query paths a)
    (filter (fun d => match search_score st index query paths d with
                      | Some _ => true
                      | None => false
                      end) docs).

(** A sort key is a field path: not empty, no empty component, no
    component that starts with a dollar sign. *)
Definition valid_field_path (key : string) : bool :=
  forallb (fun c => match c with
                    | EmptyString | String "$" _ => false
                    | _ => true
                    end) (Js.split_dots key).

(** Inclusion projection.  [paths] are the included paths, already split;
    a field is kept whole when one of them ends at it, and projected inside
    when they go deeper. *)
Definition tails_of (k : string) (paths : list (list string)) : list (list string) :=
  flat_map (fun p => match p with
                     | h :: t => if String.eqb h k then [t] else []
                     | [] => []
                     end) paths.

Definition is_nil {A} (l : list A) : bool :=
  match l with [] => true | _ => false end.

Fixpoint project_value (paths : list (list string)) (v : value) {struct v} : value :=
  match v with
  | VDoc d =>
      VDoc ((fix go (fs : list (string * value)) : list (string * value) :=
               match fs with
               | [] => []
               | (k, x) :: r =>
                   match tails_of k paths with
                   | [] => go r
                   | subs =>
                       if existsb is_nil subs then (k, x) :: go r
                       else match project_value subs x with
                            | VMissing => go r
                            | x' => (k, x') :: go r
                            end
                   end
               end) d)
  | VArr l =>
      VArr ((fix go (xs : list value) : list value :=
               match xs with
               | [] => []
               | x :: r =>
                   match project_value paths x with
                   | VMissing => go r
                   | x' => x' :: go r
                   end
               end) l)
  | _ => VMissing
  end.

(** [$project] with inclusions only: [_id] is always kept. *)
Definition project (paths : list string) (d : doc) : doc :=
  match project_value (["_id"] :: map Js.split_dots paths) (VDoc d) with
  | VDoc d' => d'
  | _ => []
  end.

(** [$addFields]: every expression is evaluated on the incoming document,
    then the fields are set. *)
Fixpoint add_fields (fs : list (string * expr)) (src d : doc) : outcome doc :=
  match fs with
  | [] => Ok d
  | (k, e) :: r => obind (eval e src) (fun v => add_fields r src (set k v d))
  end.

(** [$unwind]: one document per element of the array at the path; a
    document whose array is empty, null or missing is dropped, and a
    value that is not an array counts as a single element. *)
Definition unwind (path : string) (d : doc) : list doc :=
  match field path d with
  | VArr l => map (fun x => set path x d) l
  | VMissing | VNull => []
  | _ => [d]
  end.

Fixpoint run_stage (st : Store) (s : stage) (docs : list doc) {struct s}
  : outcome (list doc) :=
  match s with
  | SMatch conds => Ok (filter (matches conds) docs)
  | SSearch index query paths => Ok (search st index query paths docs)
  | SSort key dir =>
      if valid_field_path key then Ok (sort key dir docs)
      else Throw (MongoServerError "invalid sort key")
  | SLookup from lf ff as_ pipeline =>
      omap (fun d =>
              obind
                ((fix go (p : list stage) (ds : list doc) : outcome (list doc) :=
                    match p with
                    | [] => Ok ds
                    | s' :: p' => obind (run_stage st s' ds) (go p')
                    end) pipeline
                   (filter (fun f => joins (field lf d) (field ff f))
                      (collection st from)))
                (fun r => Ok (set as_ (VArr (map VDoc r)) d)))
           docs
  | SUnwind path =>
      match path with
      | String "$" p => Ok (flat_map (unwind p) docs)
      | _ => Throw (MongoServerError "path option to $unwind stage should be prefixed with a '$'")
      end
  | SAddFields fs => omap (fun d => add_fields fs d d) docs
  | SProject paths => Ok (map (project paths) docs)
  end.

Fixpoint run (st : Store) (p : list stage) (docs : list doc) : outcome (list doc) :=
  match p with
  | [] => Ok docs
  | s :: p' => obind (run_stage st s docs) (run st p')
  end.

(** [Model.aggregate(pipeline)]: the pipeline on the model's collection. *)
Definition aggregate (st : Store) (coll : string) (p : list stage)
  : outcome (list doc) :=
  run st p (collection st coll).

End Agg.

(* ===================================================================== *)
(** * The world of a request: store, clock, trace *)
(* ===================================================================== *)

(** Calls that leave the process: a call on a mongoose model, and a removal
    request to the media provider. *)
Inductive event : Type :=
| DbCall (model method : string)
| CloudDestroy (file : string).

(** [env] is the schedule of the other requests: the writes they commit to
    the store, one entry per data-store call of this request, applied just
    before that call runs.  An empty schedule is a request running alone. *)
Record World := {
  store : Store;
  clock : Z;
  trace : list event;
  env : list (Store -> Store)
}.

Definition M (A : Type) : Type := World -> outcome A * World.

Definition ret {A} (a : A) : M A := fun w => (Ok a, w).

Definition throw {A} (e : error) : M A := fun w => (Throw e, w).

Definition bind {A B} (m : M A) (f : A -> M B) : M B :=
  fun w => match m w with
           | (Ok a, w') => f a w'
           | (Throw e, w') => (Throw e, w')
           end.

Notation "x <- m ;; k" := (bind m (fun x => k))
  (at level 61, m at next level, right associativity).
Notation "m ;;; k" := (bind m (fun _ => k))
  (at level 61, right associativity).

(** A call on the store: logged, run after the next scheduled write of the
    other requests, atomic. *)
Definition dbcall {A} (model method : string)
    (body : Store -> outcome A * Store) : M A :=
  fun w =>
    let seen := match env w with
                | [] => store w
                | write :: _ => write (store w)
                end in
    let (r, st') := body seen in
    (r, {| store := st'; clock := clock w;
           trace := trace w ++ [DbCall model method];
           env := tl (env w) |}).

Definition emit (e : event) : M unit :=
  fun w => (Ok tt, {| store := store w; clock := clock w;
                      trace := trace w ++ [e]; env := env w |}).

(** [new Date()]. *)
Definition now : M Z := fun w => (Ok (clock w), w).

(** A request that runs alone on store [st] at time [t]. *)
Definition alone (st : Store) (t : Z) : World :=
  {| store := st; clock := t; trace := []; env := [] |}.

(** [new ApiResponse(statusCode, data, message)]. *)
Record ApiResponse := {
  statusCode : Z;
  data : value;
  message : string
}.

(* ===================================================================== *)
(** * The mongoose models *)
(* ===================================================================== *)

Definition with_videos (st : Store) (vs : list Video) : Store :=
  {| users := users st; videos := vs; likes := likes st;
     subscriptions := subscriptions st; comments := comments st;
     search_score := search_score st |}.

Definition with_users (st : Store) (us : list User) : Store :=
  {| users := us; videos := videos st; likes := likes st;
     subscriptions := subscriptions st; comments := comments st;
     search_score := search_score st |}.

Definition with_likes (st : Store) (ls : list Like) : Store :=
  {| users := users st; videos := videos st; likes := ls;
     subscriptions := subscriptions st; comments := comments st;
     search_score := search_score st |}.

Definition with_comments (st : Store) (cs : list Comment) : Store :=
  {| users := users st; videos := videos st; likes := likes st;
     subscriptions := subscriptions st; comments := cs;
     search_score := search_score st |}.

Definition has_id (i : ObjectId) (v : Video) : bool := String.eqb (v_id v) i.

(** Drop the first element that satisfies [p]. *)
Fixpoint remove_first {A} (p : A -> bool) (l : list A) : list A :=
  match l with
  | [] => []
  | x :: r => if p x then r else x :: remove_first p r
  end.

(** Rewrite the first element that satisfies [p]. *)
Fixpoint update_first {A} (p : A -> bool) (f : A -> A) (l : list A) : list A :=
  match l with
  | [] => []
  | x :: r => if p x then f x :: r else x :: update_first p f r
  end.

Module VideoModel.

(** [Video.findById(id)]: the identifier is cast first. *)
Definition findById (id : string) : M (option Video) :=
  dbcall "Video" "findById" (fun st =>
    if isValidObjectId id
    then (Ok (find (has_id (castObjectId id)) (videos st)), st)
    else (Throw (CastError "_id"), st)).

(** [Video.findByIdAndDelete(id)]: the deleted document, or null. *)
Definition findByIdAndDelete (id : string) : M (option Video) :=
  dbcall "Video" "findByIdAndDelete" (fun st =>
    if isValidObjectId id
    then (Ok (find (has_id (castObjectId id)) (videos st)),
          with_videos st (remove_first (has_id (castObjectId id)) (videos st)))
    else (Throw (CastError "_id"), st)).

(** What [timestamps: true] adds to every update and to every save of a
    modified document: [updatedAt] becomes the time of the write. *)
Definition touch (t : Z) (v : Video) : Video :=
  {| v_id := v_id v; v_video := v_video v; v_thumbnail := v_thumbnail v;
     v_title := v_title v; v_description := v_description v;
     v_duration := v_duration v; v_views := v_views v;
     v_isPublished := v_isPublished v; v_owner := v_owner v;
     v_createdAt := v_createdAt v; v_updatedAt := t |}.

Definition inc_views (n : Z) (v : Video) : Video :=
  {| v_id := v_id v; v_video := v_video v; v_thumbnail := v_thumbnail v;
     v_title := v_title v; v_description := v_description v;
     v_duration := v_duration v; v_views := v_views v + n;
     v_isPublished := v_isPublished v; v_owner := v_owner v;
     v_createdAt := v_createdAt v; v_updatedAt := v_updatedAt v |}.

(** [Video.findByIdAndUpdate(id, { $inc: { views: n } })]: the document
    as it was before the update, or null. *)
Definition findByIdAndUpdate_inc_views (id : string) (n : Z) : M (option Video) :=
  t <- now ;;
  dbcall "Video" "findByIdAndUpdate" (fun st =>
    if isValidObjectId id
    then (Ok (find (has_id (castObjectId id)) (videos st)),
          with_videos st
            (update_first (has_id (castObjectId id))
               (fun v => touch t (inc_views n v)) (videos st)))
    else (Throw (CastError "_id"), st)).

Definition aggregate (p : list Agg.stage) : M (list doc) :=
  dbcall "Video" "aggregate" (fun st => (Agg.aggregate st "videos" p, st)).

End VideoModel.

Module UserModel.

Definition user_has_id (i : ObjectId) (u : User) : bool := String.eqb (u_id u) i.

(** [User.findById(id)] for the identity the session carries; an absent
    identity finds nothing. *)
Definition findById (id : option ObjectId) : M (option User) :=
  dbcall "User" "findById" (fun st =>
    (Ok match id with
        | Some i => find (user_has_id i) (users st)
        | None => None
        end, st)).

(** [user.save()]: the document in memory is written over the stored one;
    the call rejects when the stored one is gone. *)
Definition save (u : User) : M unit :=
  dbcall "User" "save" (fun st =>
    if existsb (user_has_id (u_id u)) (users st)
    then (Ok tt, with_users st
                   (update_first (user_has_id (u_id u)) (fun _ => u) (users st)))
    else (Throw DocumentNotFoundError, st)).

Definition aggregate (p : list Agg.stage) : M (list doc) :=
  dbcall "User" "aggregate" (fun st => (Agg.aggregate st "users" p, st)).

End UserModel.

Module LikeModel.

(** [Like.deleteMany({ video: id })]. *)
Definition deleteMany_video (id : string) : M unit :=
  dbcall "Like" "deleteMany" (fun st =>
    if isValidObjectId id
    then (Ok tt, with_likes st
                   (filter (fun l => negb (String.eqb (l_video l) (castObjectId id)))
                      (likes st)))
    else (Throw (CastError "video"), st)).

End LikeModel.

Module CommentModel.

(** [Comment.deleteMany({ video: id })]. *)
Definition deleteMany_video (id : string) : M unit :=
  dbcall "Comment" "deleteMany" (fun st =>
    if isValidObjectId id
    then (Ok tt, with_comments st
                   (filter (fun c => negb (String.eqb (c_video c) (castObjectId id)))
                      (comments st)))
    else (Throw (CastError "video"), st)).

End CommentModel.

(** [mongoose-aggregate-paginate-v2], which is a dependency and not part of
    the sources: a page that does not parse or is zero counts as 1, a limit
    that does not parse or is not positive counts as 10, and the documents
    of the page are those after the first [(page - 1) * limit]; the store
    rejects a negative skip. *)
Definition paginate (page limit : option Z) (all : list doc) : outcome value :=
  let page := match page with
              | Some p => if p =? 0 then 1 else p
              | None => 1
              end in
  let limit := match limit with
               | Some l => if 0 <? l then l else 10
               | None => 10
               end in
  let skip := (page - 1) * limit in
  if skip <? 0
  then Throw (MongoServerError "Argument to $skip cannot be negative")
  else Ok (VDoc [ ("docs", VArr (map VDoc (firstn (Z.to_nat limit)
                                             (skipn (Z.to_nat skip) all))));
                  ("totalDocs", VNum (Z.of_nat (List.length all)));
                  ("limit", VNum limit);
                  ("page", VNum page) ]).

Definition aggregatePaginate (p : list Agg.stage) (page limit : option Z) : M value :=
  dbcall "Video" "aggregatePaginate" (fun st =>
    (obind (Agg.aggregate st "videos" p) (paginate page limit), st)).

(* ===================================================================== *)
(** * The media provider ([utils/cloudinary.js]) *)
(* ===================================================================== *)

(** [deleteFromCloudinary(fileId)]: null at once for a falsy identifier;
    otherwise the removal is requested.  What follows inside the [try]
    (the provider failing, or [fs.unlinkSync] reading the undeclared
    [localFilePath] once the provider has answered) ends in the [catch],
    which returns null; no caller looks at the result. *)
Definition deleteFromCloudinary (file : string) : M value :=
  if negb (Js.truthy_str file) then ret VNull
  else emit (CloudDestroy file) ;;; ret VNull.

(* ===================================================================== *)
(** * The handlers of the video controller *)
(* ===================================================================== *)

Import Agg.

(** The string of a query parameter that has been tested truthy. *)
Definition str (o : option string) : string :=
  match o with Some s => s | None => "" end.

(** [req.query] of the listing. *)
Record ListQuery := {
  page : option string;
  limit : option string;
  query : option string;
  sortBy : option string;
  sortType : option string;
  userId : option string
}.

(** A destructuring default applies to [undefined] only. *)
Definition parseInt_or (default : Z) (o : option string) : option Z :=
  match o with
  | None => Some default
  | Some s => Js.parseInt s
  end.

Definition owner_lookup : list stage :=
  [ SLookup "users" "owner" "_id" "ownerDetails"
      [ SProject ["username"; "avatar.url"] ];
    SUnwind "$ownerDetails" ].

(** The pipeline [getAllVideos] pushes together, stage by stage. *)
Definition getAllVideos_pipeline (q : ListQuery) : outcome (list stage) :=
  let pipeline := [] in
  let pipeline :=
    if Js.truthy (query q)
    then pipeline ++ [SSearch "search-videos" (str (query q)) ["title"; "description"]]
    else pipeline in
  obind
    (if Js.truthy (userId q)
     then if negb (isValidObjectId (str (userId q)))
          then Throw (ApiError 400 "Invalid userId")
          else Ok (pipeline ++ [SMatch [("owner", VId (castObjectId (str (userId q))))]])
     else Ok pipeline)
    (fun pipeline =>
       let pipeline := pipeline ++ [SMatch [("isPublished", VBool true)]] in
       let pipeline :=
         if Js.truthy (sortBy q) && Js.truthy (sortType q)
         then pipeline ++ [SSort (str (sortBy q))
                             (if String.eqb (str (sortType q)) "asc" then 1 else -1)]
         else pipeline ++ [SSort "createdAt" (-1)] in
       Ok (pipeline ++ owner_lookup)).

Definition getAllVideos (q : ListQuery) : M ApiResponse :=
  match getAllVideos_pipeline q with
  | Throw e => throw e
  | Ok pipeline =>
      videos <- aggregatePaginate pipeline
                  (parseInt_or 1 (page q)) (parseInt_or 10 (limit q)) ;;
      ret {| statusCode := 200; data := videos;
             message := "Videos fetched successfully" |}
  end.

(** In JavaScript every array is truthy, the empty one too. *)
Definition array_truthy {A} (l : list A) : bool := true.

(** [a[0]]. *)
Definition first_or_undefined (l : list doc) : value :=
  match l with
  | [] => VMissing
  | d :: _ => VDoc d
  end.

Definition guest_pipeline (videoId : string) : list stage :=
  [ SMatch [("_id", VId (castObjectId videoId)); ("isPublished", VBool true)];
    SLookup "likes" "_id" "video" "likes" [];
    SLookup "users" "owner" "_id" "owner"
      [ SLookup "subscriptions" "_id" "channel" "subscribers" [];
        SAddFields [ ("subscribersCount", ESize (EStr "$subscribers"));
                     ("isSubscribed", ELit (VBool false)) ];
        SProject ["username"; "avatar.url"; "subscribersCount"] ];
    SAddFields [ ("likesCount", ESize (EStr "$likes"));
                 ("owner", EFirst (EStr "$owner"));
                 ("isLiked", ELit (VBool false)) ];
    SProject [ "video.url"; "title"; "description"; "views"; "createdAt";
               "duration"; "comments"; "owner"; "likesCount"; "isLiked";
               "isSubscribed" ] ].

Definition getVideoByIdForGuest (videoId : string) : M ApiResponse :=
  if negb (Js.truthy_str (Js.trim videoId))
  then throw (ApiError 400 "Video Id is missing")
  else if negb (isValidObjectId videoId)
  then throw (ApiError 400 "Invalid VideoID")
  else
    video <- VideoModel.aggregate (guest_pipeline videoId) ;;
    if negb (array_truthy video)
    then throw (ApiError 404 "Video not found")
    else ret {| statusCode := 200; data := first_or_undefined video;
                message := "Video found" |}.

(** [req.user?._id] inside a pipeline: the driver writes [undefined] as
    null. *)
Definition viewer_value (viewer : option ObjectId) : value :=
  match viewer with
  | Some i => VId i
  | None => VNull
  end.

Definition detail_pipeline (videoId : string) (isGuest : bool)
    (viewer : option ObjectId) : list stage :=
  [ SMatch [("_id", VId (castObjectId videoId))];
    SLookup "likes" "_id" "video" "likes" [];
    SLookup "users" "owner" "_id" "owner"
      [ SLookup "subscriptions" "_id" "channel" "subscribers" [];
        SAddFields
          [ ("subscribersCount", ESize (EStr "$subscribers"));
            ("isSubscribed",
             ECond (ELit (VBool isGuest)) (ELit (VBool false))
               (ECond (EIn (ELit (viewer_value viewer))
                         (EStr "$subscribers.subscriber"))
                  (ELit (VBool true)) (ELit (VBool false)))) ];
        SProject [ "username"; "fullName"; "avatar.url"; "subscribersCount";
                   "isSubscribed" ] ];
    SAddFields
      [ ("likesCount", ESize (EStr "$likes"));
        ("owner", EFirst (EStr "$owner"));
        ("isLiked",
         ECond (ELit (VBool isGuest)) (ELit (VBool false))
           (ECond (EIn (ELit (viewer_value viewer)) (EStr "$likes.likedBy"))
              (ELit (VBool true)) (ELit (VBool false)))) ];
    SProject [ "video.url"; "title"; "description"; "views"; "createdAt";
               "duration"; "comments"; "owner"; "likesCount"; "isLiked";
               "isSubscribed"; "subscribersCount" ] ].

(** [flag === "true"] on a query parameter. *)
Definition is_true (flag : option string) : bool :=
  match flag with
  | Some g => String.eqb g "true"
  | None => false
  end.

(** [guest] is [req.query.guest], [viewer] is [req.user?._id]. *)
Definition getVideoById (videoId : string) (guest : option string)
    (viewer : option ObjectId) : M ApiResponse :=
  let isGuest := is_true guest in
  if negb (Js.truthy_str (Js.trim videoId))
  then throw (ApiError 400 "Video Id is missing")
  else if negb (isValidObjectId videoId)
  then throw (ApiError 400 "Invalid VideoID")
  else
    video <- VideoModel.aggregate (detail_pipeline videoId isGuest viewer) ;;
    if (List.length video =? 0)%nat
    then throw (ApiError 404 "Video not found")
    else ret {| statusCode := 200; data := first_or_undefined video;
                message := "Video found" |}.

(** [deleteVideo].  The four removals of [Promise.all] run concurrently;
    the trace lists them in the order of the array. *)
Definition deleteVideo (videoId : string) : M ApiResponse :=
  currentVideo <- VideoModel.findById videoId ;;
  match currentVideo with
  | None => throw (ApiError 404 "Video not found")
  | Some current =>
      deleted <- VideoModel.findByIdAndDelete videoId ;;
      match deleted with
      | None => throw (ApiError 500 "Video deletion failed")
      | Some _ =>
          LikeModel.deleteMany_video videoId ;;;
          CommentModel.deleteMany_video videoId ;;;
          deleteFromCloudinary (fileId (v_video current)) ;;;
          deleteFromCloudinary (fileId (v_thumbnail current)) ;;;
          ret {| statusCode := 200; data := VNull;
                 message := "Video deleted successfully" |}
      end
  end.

Definition watched (videoId : string) (entry : HistoryEntry) : bool :=
  String.eqb (toString (h_video entry)) videoId.

Definition set_history (u : User) (h : list HistoryEntry) : User :=
  {| u_id := u_id u; u_username := u_username u; u_email := u_email u;
     u_fullName := u_fullName u; u_avatar := u_avatar u;
     u_coverImage := u_coverImage u; u_watchHistory := h |}.

Definition set_watchedAt (t : Z) (entry : HistoryEntry) : HistoryEntry :=
  {| h_video := h_video entry; h_watchedAt := t |}.

(** [userId] is [req.user?._id]. *)
Definition updateVideoViews (videoId : string) (userId : option ObjectId)
  : M ApiResponse :=
  if negb (isValidObjectId videoId)
  then throw (ApiError 400 "Invalid videoId")
  else
    video <- VideoModel.findById videoId ;;
    match video with
    | None => throw (ApiError 404 "Video not found")
    | Some video =>
        user <- UserModel.findById userId ;;
        match user with
        | None => throw (ApiError 404 "User not found")
        | Some user =>
            user' <-
              match find (watched videoId) (u_watchHistory user) with
              | None =>
                  VideoModel.findByIdAndUpdate_inc_views videoId 1 ;;;
                  t <- now ;;
                  let user' :=
                    set_history user
                      (u_watchHistory user
                       ++ [{| h_video := castObjectId videoId; h_watchedAt := t |}]) in
                  UserModel.save user' ;;;
                  ret user'
              | Some _ =>
                  t <- now ;;
                  let user' :=
                    set_history user
                      (update_first (watched videoId) (set_watchedAt t)
                         (u_watchHistory user)) in
                  UserModel.save user' ;;;
                  ret user'
              end ;;
            ret {| statusCode := 200;
                   data := VDoc [ ("video", VDoc (video_doc video));
                                  ("user", VDoc (user_doc user')) ];
                   message := "Video views updated successfully" |}
        end
    end.

(* ===================================================================== *)
(** * The channel profile of the user controller *)
(* ===================================================================== *)

Definition channel_pipeline (username : string) (viewer : option ObjectId)
  : list stage :=
  [ SMatch [("username", VStr (Js.toLowerCase username))];
    SLookup "subcription" "_id" "channel" "subcription" [];
    SLookup "subcription" "_id" "subscriber" "subscribedTo" [];
    SAddFields
      [ ("subscribersCount", ESize (EStr "$subscribers"));
        ("channelSubscribedToCount", ESize (EStr "subscribedTo"));
        ("isSubscribed",
         ECond (EIn (ELit (viewer_value viewer)) (EStr "subscribers.subscriber"))
           (ELit (VBool true)) (ELit (VBool false))) ];
    SProject [ "fullName"; "username"; "subscribersCount";
               "channelSubscribedToCount"; "isSubscribed"; "avatar";
               "coverImage"; "email" ] ].

Definition getUserChannelProfile (username : string) (viewer : option ObjectId)
  : M ApiResponse :=
  if negb (Js.truthy_str (Js.trim username))
  then throw (ApiError 400 "username is missing")
  else
    channel <- UserModel.aggregate (channel_pipeline username viewer) ;;
    if (List.length channel =? 0)%nat
    then throw (ApiError 404 "channel does not exists")
    else ret {| statusCode := 200; data := first_or_undefined channel;
                message := "User channel fetched succesfully" |}.

(* ===================================================================== *)
(** * The records the specification counts *)
(* ===================================================================== *)

(** The Like records whose video reference is [vid]. *)
Definition likes_of (st : Store) (vid : ObjectId) : list Like :=
  filter (fun l => String.eqb (l_video l) vid) (likes st).

(** The Subscription records whose channel is [uid]. *)
Definition subscribers_of (st : Store) (uid : ObjectId) : list Subscription :=
  filter (fun s => String.eqb (s_channel s) uid) (subscriptions st).

(** The Subscription records whose subscriber is [uid]. *)
Definition subscribed_to (st : Store) (uid : ObjectId) : list Subscription :=
  filter (fun s => String.eqb (s_subscriber s) uid) (subscriptions st).

(** The users a reference [uid] designates. *)
Definition owners_of (st : Store) (uid : ObjectId) : list User :=
  filter (UserModel.user_has_id uid) (users st).

(** Is the viewer one of [ids]?  Never, when there is no viewer. *)
Definition is_member (viewer : option ObjectId) (ids : list ObjectId) : bool :=
  match viewer with
  | Some i => existsb (String.eqb i) ids
  | None => false
  end.

Definition count {A} (l : list A) : value := VNum (Z.of_nat (List.length l)).

(** The owner summary of the authenticated detail. *)
Definition owner_summary (st : Store) (isGuest : bool) (viewer : option ObjectId)
    (u : User) : doc :=
  [ ("_id", VId (u_id u));
    ("username", VStr (u_username u));
    ("fullName", VStr (u_fullName u));
    ("avatar", VDoc [("url", VStr (url (u_avatar u)))]);
    ("subscribersCount", count (subscribers_of st (u_id u)));
    ("isSubscribed",
     VBool (if isGuest then false
            else is_member viewer (map s_subscriber (subscribers_of st (u_id u))))) ].

(** The owner summary of the guest detail. *)
Definition guest_owner_summary (st : Store) (u : User) : doc :=
  [ ("_id", VId (u_id u));
    ("username", VStr (u_username u));
    ("avatar", VDoc [("url", VStr (url (u_avatar u)))]);
    ("subscribersCount", count (subscribers_of st (u_id u))) ].

(** The owner field of a detail record: the first user the owner reference
    designates, and no field when there is none. *)
Definition owner_field (summary : User -> doc) (owners : list User) : doc :=
  match owners with
  | [] => []
  | u :: _ => [("owner", VDoc (summary u))]
  end.

(** The full detail record of a video, as [getVideoById] answers it. *)
Definition detail_view (st : Store) (isGuest : bool) (viewer : option ObjectId)
    (v : Video) : doc :=
  [ ("_id", VId (v_id v));
    ("video", VDoc [("url", VStr (url (v_video v)))]);
    ("title", VStr (v_title v));
    ("description", VStr (v_description v));
    ("duration", VNum (v_duration v));
    ("views", VNum (v_views v)) ]
  ++ owner_field (owner_summary st isGuest viewer) (owners_of st (v_owner v))
  ++ [ ("createdAt", VDate (v_createdAt v));
       ("likesCount", count (likes_of st (v_id v)));
       ("isLiked",
        VBool (if isGuest then false
               else is_member viewer (map l_likedBy (likes_of st (v_id v))))) ].

(** The detail record of a video, as [getVideoByIdForGuest] answers it. *)
Definition guest_view (st : Store) (v : Video) : doc :=
  [ ("_id", VId (v_id v));
    ("video", VDoc [("url", VStr (url (v_video v)))]);
    ("title", VStr (v_title v));
    ("description", VStr (v_description v));
    ("duration", VNum (v_duration v));
    ("views", VNum (v_views v)) ]
  ++ owner_field (guest_owner_summary st) (owners_of st (v_owner v))
  ++ [ ("createdAt", VDate (v_createdAt v));
       ("likesCount", count (likes_of st (v_id v)));
       ("isLiked", VBool false) ].

(* ===================================================================== *)
(** * Stages that work document by document *)
(* ===================================================================== *)

(** [$lookup], [$addFields] and [$project] turn each document into one
    document, whatever the others are. *)
Definition per_document (s : stage) : bool :=
  match s with
  | SLookup _ _ _ _ _ | SAddFields _ | SProject _ => true
  | _ => false
  end.

Definition stage_doc (st : Store) (s : stage) (d : doc) : outcome doc :=
  match s with
  | SLookup from lf ff as_ p =>
      obind (Agg.run st p
               (filter (fun f => joins (field lf d) (field ff f))
                  (collection st from)))
        (fun r => Ok (set as_ (VArr (map VDoc r)) d))
  | SAddFields fs => add_fields fs d d
  | SProject paths => Ok (project paths d)
  | _ => Ok d
  end.

Fixpoint run_doc (st : Store) (p : list stage) (d : doc) : outcome doc :=
  match p with
  | [] => Ok d
  | s :: p' => obind (stage_doc st s d) (run_doc st p')
  end.

(* ===================================================================== *)
(** * A small store to run the handlers on *)
(* ===================================================================== *)

Module Sample.

Definition alice_id : ObjectId := "aaaaaaaaaaaaaaaaaaaaaaaa".
Definition bob_id : ObjectId := "bbbbbbbbbbbbbbbbbbbbbbbb".

Definition public_id : ObjectId := "0123456789abcdef01234567".
Definition draft_id : ObjectId := "89abcdef0123456789abcdef".
Definition nobody_id : ObjectId := "ffffffffffffffffffffffff".

Definition media (f u : string) : Media := {| fileId := f; url := u |}.

Definition alice : User :=
  {| u_id := alice_id; u_username := "alice"; u_email := "alice@example.org";
     u_fullName := "Alice"; u_avatar := media "a1" "https://cdn/a1";
     u_coverImage := media "a2" "https://cdn/a2"; u_watchHistory := [] |}.

Definition bob : User :=
  {| u_id := bob_id; u_username := "bob"; u_email := "bob@example.org";
     u_fullName := "Bob"; u_avatar := media "b1" "https://cdn/b1";
     u_coverImage := media "b2" "https://cdn/b2"; u_watchHistory := [] |}.

(** A published video and an unpublished one, both owned by alice. *)
Definition public_video : Video :=
  {| v_id := public_id; v_video := media "v1" "https://cdn/v1";
     v_thumbnail := media "t1" "https://cdn/t1"; v_title := "Tides";
     v_description := "On tides"; v_duration := 120; v_views := 5;
     v_isPublished := true; v_owner := alice_id; v_createdAt := 1000;
     v_updatedAt := 1000 |}.

Definition draft_video : Video :=
  {| v_id := draft_id; v_video := media "v2" "https://cdn/v2";
     v_thumbnail := media "t2" "https://cdn/t2"; v_title := "Draft";
     v_description := "Not ready"; v_duration := 60; v_views := 0;
     v_isPublished := false; v_owner := alice_id; v_createdAt := 2000;
     v_updatedAt := 2000 |}.

(** Bob likes both videos, comments on both and subscribes to alice. *)
Definition store : Store :=
  {| users := [alice; bob];
     videos := [public_video; draft_video];
     likes := [ {| l_id := "111111111111111111111111"; l_video := public_id;
                   l_likedBy := bob_id |};
                {| l_id := "222222222222222222222222"; l_video := draft_id;
                   l_likedBy := bob_id |} ];
     subscriptions := [ {| s_id := "333333333333333333333333";
                           s_subscriber := bob_id; s_channel := alice_id |} ];
     comments := [ {| c_id := "444444444444444444444444"; c_video := public_id;
                      c_owner := bob_id; c_content := "nice";
                      c_createdAt := 1500 |};
                   {| c_id := "555555555555555555555555"; c_video := draft_id;
                      c_owner := bob_id; c_content := "soon?";
                      c_createdAt := 2500 |} ];
     search_score := fun _ _ _ _ => Some 1 |}.

End Sample.

(** What the specification expects of the channel profile when there is no
    viewer: a profile whose [isSubscribed] is false. *)
Definition answers_not_subscribed (r : outcome ApiResponse) : Prop :=
  exists (d : doc) (msg : string),
    r = Ok {| statusCode := 200; data := VDoc d; message := msg |}
    /\ get "isSubscribed" d = VBool false.

(** The membership test of the channel profile, for a viewer. *)
Definition membership_test (viewer : option ObjectId) : expr :=
  ECond (EIn (ELit (viewer_value viewer)) (EStr "subscribers.subscriber"))
    (ELit (VBool true)) (ELit (VBool false)).

(* ===================================================================== *)
(** * The listing, step by step as the specification words it *)
(* ===================================================================== *)

Module Listing.

(** (1) The optional full-text search over title and description. *)
Definition full_text_search (st : Store) (q : option string) (vs : list Video)
  : list Video :=
  if Js.truthy q
  then Agg.isort
         (fun a b =>
            score_of st "search-videos" (str q) ["title"; "description"] (video_doc b)
            <=? score_of st "search-videos" (str q) ["title"; "description"] (video_doc a))
         (filter (fun v => match search_score st "search-videos" (str q)
                                   ["title"; "description"] (video_doc v) with
                           | Some _ => true
                           | None => false
                           end) vs)
  else vs.

(** (2) The optional owner filter, a validation failure on a malformed
    identifier. *)
Definition owner_filter (uid : option string) (vs : list Video)
  : outcome (list Video) :=
  if Js.truthy uid
  then if isValidObjectId (str uid)
       then Ok (filter (fun v => String.eqb (v_owner v) (castObjectId (str uid))) vs)
       else Throw (ApiError 400 "Invalid userId")
  else Ok vs.

(** (3) The published videos only. *)
Definition published_only (vs : list Video) : list Video :=
  filter v_isPublished vs.

(** (4) The sort: the requested field and direction when both are given,
    the creation time, latest first, otherwise. *)
Definition sort_spec (by_ type_ : option string) : string * Z :=
  if Js.truthy by_ && Js.truthy type_
  then (str by_, if String.eqb (str type_) "asc" then 1 else -1)
  else ("createdAt", -1).

Definition sorted (by_ type_ : option string) (vs : list Video)
  : outcome (list Video) :=
  let (key, dir) := sort_spec by_ type_ in
  if valid_field_path key
  then Ok (Agg.isort (fun a b => before key dir (video_doc a) (video_doc b)) vs)
  else Throw (MongoServerError "invalid sort key").

(** (5) The owner join: username and avatar URL only (next to the
    identifier), as one object per video. *)
Definition owner_details (u : User) : value :=
  VDoc [ ("_id", VId (u_id u));
         ("username", VStr (u_username u));
         ("avatar", VDoc [("url", VStr (url (u_avatar u)))]) ].

Definition with_owner (v : Video) (u : User) : doc :=
  video_doc v ++ [("ownerDetails", owner_details u)].

Definition owner_join (st : Store) (vs : list Video) : list doc :=
  flat_map (fun v => map (with_owner v) (owners_of st (v_owner v))) vs.

(** (6) The page.  All six, in this order. *)
Definition listing (st : Store) (q : ListQuery) : outcome value :=
  obind (owner_filter (userId q) (full_text_search st (query q) (videos st)))
    (fun vs =>
       obind (sorted (sortBy q) (sortType q) (published_only vs))
         (fun vs => paginate (parseInt_or 1 (page q)) (parseInt_or 10 (limit q))
                      (owner_join st vs))).

End Listing.

(** The store a call sees: the stored one after the next write of the other
    requests. *)
Definition seen (w : World) : Store :=
  match env w with
  | [] => store w
  | write :: _ => write (store w)
  end.

(** The documents on the page a listing answers. *)
Definition listed (resp : ApiResponse) : list value :=
  match data resp with
  | VDoc r => match get "docs" r with
              | VArr l => l
              | _ => []
              end
  | _ => []
  end.

(** A request turned away with a validation failure before anything
    happened: the world is as it was, no call has left the process. *)
Definition rejected_before_store {A} (w : World) (r : outcome A * World) : Prop :=
  exists msg : string, r = (Throw (ApiError 400 msg), w).

(* ===================================================================== *)
(** * What the watch history and the deletion are observed by *)
(* ===================================================================== *)

(** The view counter of video [vid]. *)
Definition views_of (st : Store) (vid : ObjectId) : option Z :=
  option_map v_views (find (has_id vid) (videos st)).

(** The watch history of user [uid]. *)
Definition history_of (st : Store) (uid : ObjectId) : list HistoryEntry :=
  match find (UserModel.user_has_id uid) (users st) with
  | Some u => u_watchHistory u
  | None => []
  end.

(** The entries of a history that are about video [vid]. *)
Definition entries_for (vid : ObjectId) (h : list HistoryEntry) : list HistoryEntry :=
  filter (fun e => String.eqb (h_video e) vid) h.

(** The store after a handler has run alone at time [t], and its answer. *)
Definition store_after {A} (m : M A) (st : Store) (t : Z) : Store :=
  store (snd (m (alone st t))).

Definition answer {A} (m : M A) (st : Store) (t : Z) : outcome A :=
  fst (m (alone st t)).

(** The calls of an upsert, with and without the increment. *)
Definition upsert_trace (absent : bool) : list event :=
  [DbCall "Video" "findById"; DbCall "User" "findById"]
  ++ (if absent then [DbCall "Video" "findByIdAndUpdate"] else [])
  ++ [DbCall "User" "save"].

(** The store after the other requests have committed the first [n] writes
    of their schedule, and nobody else has written. *)
Definition others_wrote (n : nat) (w : World) : Store :=
  fold_left (fun s write => write s) (firstn n (env w)) (store w).

(** The calls of a deletion that goes through, before the cascade. *)
Definition primary_delete : list event :=
  [DbCall "Video" "findById"; DbCall "Video" "findByIdAndDelete"].

(* ===================================================================== *)
(** * Further observations on the store *)
(* ===================================================================== *)

(** The creation time a listed document carries. *)
Definition createdAt_of (x : value) : Z :=
  match x with
  | VDoc d => match get "createdAt" d with
              | VDate t => t
              | _ => 0
              end
  | _ => 0
  end.

(** The users other than [uid], and the videos other than [vid]. *)
Definition other_users (uid : ObjectId) (st : Store) : list User :=
  filter (fun u => negb (UserModel.user_has_id uid u)) (users st).

Definition other_videos (vid : ObjectId) (st : Store) : list Video :=
  filter (fun v => negb (has_id vid v)) (videos st).

(* ===================================================================== *)
(** * The publish toggle of the video controller *)
(* ===================================================================== *)

Definition set_isPublished (b : bool) (v : Video) : Video :=
  {| v_id := v_id v; v_video := v_video v; v_thumbnail := v_thumbnail v;
     v_title := v_title v; v_description := v_description v;
     v_duration := v_duration v; v_views := v_views v;
     v_isPublished := b; v_owner := v_owner v;
     v_createdAt := v_createdAt v; v_updatedAt := v_updatedAt v |}.

(** [video.save()] after [video.isPublished = b]: mongoose writes the
    modified path, with the time of the save as [updatedAt], to the
    document with this identifier, and rejects when the document is gone.
    The answer is the document in memory, with the new [updatedAt]. *)
Definition save_isPublished (video : Video) : M Video :=
  t <- now ;;
  dbcall "Video" "save" (fun st =>
    if existsb (has_id (v_id video)) (videos st)
    then (Ok (VideoModel.touch t video),
          with_videos st
            (update_first (has_id (v_id video))
               (fun x => VideoModel.touch t
                           (set_isPublished (v_isPublished video) x))
               (videos st)))
    else (Throw DocumentNotFoundError, st)).

(** [togglePublishStatus]: no test of the identifier and none of the
    caller. *)
Definition togglePublishStatus (videoId : string) : M ApiResponse :=
  video <- VideoModel.findById videoId ;;
  match video with
  | None => throw (ApiError 404 "Video not found")
  | Some video =>
      video <- save_isPublished
                 (set_isPublished (negb (v_isPublished video)) video) ;;
      ret {| statusCode := 200; data := VDoc (video_doc video);
             message := "Video publish status updated" |}
  end.

(* ===================================================================== *)
(** * More of the aggregation framework *)
(* ===================================================================== *)

Module AggX.

(** A condition of [$match] on one field: equality, or [$ne]. *)
Inductive cond : Type :=
| CEq (v : value)
| CNe (v : value).

(** The stages of [Agg], and those the remaining pipelines need:
    [$match] with [$ne], [$sample], [$addFields] on dotted paths, and
    [$project] with [_id: 0]. *)
Inductive xstage : Type :=
| Plain (s : stage)
| XMatch (conds : list (string * cond))
| XSample (size : nat)
| XAddFields (fs : list (string * expr))
| XProject (fields : list (string * bool)).

Definition cond_holds (fv : value) (c : cond) : bool :=
  match c with
  | CEq v => field_matches fv v
  | CNe v => negb (field_matches fv v)
  end.

Definition xmatches (conds : list (string * cond)) (d : doc) : bool :=
  forallb (fun c => cond_holds (field (fst c) d) (snd c)) conds.

(** [$sample]: the store picks the documents.  [rnd] stands for its
    choices, as positions in the incoming list; positions may repeat, as
    the store's documentation warns, and at most [size] documents come
    out. *)
Definition sample (rnd : list nat) (size : nat) (docs : list doc) : list doc :=
  firstn size
    (flat_map (fun i => match nth_error docs i with
                        | Some d => [d]
                        | None => []
                        end) rnd).

(** Setting the field at a dotted path, inside the documents on the way. *)
Fixpoint set_path (p : list string) (v : value) (d : doc) : doc :=
  match p with
  | [] => d
  | [k] => set k v d
  | k :: p' =>
      put k (VDoc (set_path p' v match get k d with
                                 | VDoc inner => inner
                                 | _ => []
                                 end)) d
  end.

Fixpoint add_fields (fs : list (string * expr)) (src d : doc) : outcome doc :=
  match fs with
  | [] => Ok d
  | (k, e) :: r =>
      obind (eval e src)
        (fun v => add_fields r src (set_path (Js.split_dots k) v d))
  end.

(** [$project] with flags: the paths flagged 1 are kept, [_id] too unless
    it is flagged 0; no other path may be flagged 0 next to inclusions. *)
Definition project (fields : list (string * bool)) (d : doc) : outcome doc :=
  let excluded := filter (fun f => negb (snd f)) fields in
  if forallb (fun f => String.eqb (fst f) "_id") excluded
  then
    match project_value
            ((if is_nil excluded then [["_id"]] else [])
             ++ map (fun f => Js.split_dots (fst f)) (filter snd fields))
            (VDoc d) with
    | VDoc d' => Ok d'
    | _ => Ok []
    end
  else Throw (MongoServerError "Cannot do exclusion in inclusion projection").

Definition run_stage (st : Store) (rnd : list nat) (s : xstage) (docs : list doc)
  : outcome (list doc) :=
  match s with
  | Plain s => Agg.run_stage st s docs
  | XMatch conds => Ok (filter (xmatches conds) docs)
  | XSample size => Ok (sample rnd size docs)
  | XAddFields fs => omap (fun d => add_fields fs d d) docs
  | XProject fields => omap (project fields) docs
  end.

Fixpoint run (st : Store) (rnd : list nat) (p : list xstage) (docs : list doc)
  : outcome (list doc) :=
  match p with
  | [] => Ok docs
  | s :: p' => obind (run_stage st rnd s docs) (run st rnd p')
  end.

End AggX.

(* ===================================================================== *)
(** * The suggestions of the video controller *)
(* ===================================================================== *)

Definition next_pipeline (videoId : string) : list AggX.xstage :=
  [ AggX.XMatch [ ("_id", AggX.CNe (VId (castObjectId videoId)));
                  ("isPublished", AggX.CEq (VBool true)) ];
    AggX.XSample 10;
    AggX.Plain (SLookup "users" "owner" "_id" "ownerDetails"
                  [ SProject ["username"; "avatar.url"] ]);
    AggX.Plain (SUnwind "$ownerDetails") ].

(** [getNextVideos]; [rnd] is what the store draws for [$sample]. *)
Definition getNextVideos (videoId : string) (rnd : list nat) : M ApiResponse :=
  if negb (isValidObjectId videoId)
  then throw (ApiError 400 "Invalid videoId")
  else
    video <- VideoModel.findById videoId ;;
    match video with
    | None => throw (ApiError 404 "Video not found")
    | Some _ =>
        nextVideos <-
          dbcall "Video" "aggregate" (fun st =>
            (AggX.run st rnd (next_pipeline videoId) (collection st "videos"), st)) ;;
        ret {| statusCode := 200; data := VArr (map VDoc nextVideos);
               message := "Next videos fetched successfully" |}
    end.

(* ===================================================================== *)
(** * The watch history of the user controller *)
(* ===================================================================== *)

(** [try { m } catch (error) { h error }]. *)
Definition try_catch {A} (m : M A) (h : error -> M A) : M A :=
  fun w => match m w with
           | (Ok a, w') => (Ok a, w')
           | (Throw e, w') => h e w'
           end.

Definition history_pipeline (uid : ObjectId) : list AggX.xstage :=
  [ AggX.Plain (SMatch [("_id", VId uid)]);
    AggX.Plain (SUnwind "$watchHistory");
    AggX.Plain (SSort "watchHistory.watchedAt" (-1));
    AggX.Plain (SLookup "videos" "watchHistory.video" "_id" "video" []);
    AggX.Plain (SUnwind "$video");
    AggX.Plain (SLookup "users" "video.owner" "_id" "ownerDetails"
                  [ SProject ["username"; "fullName"; "avatar"] ]);
    AggX.XAddFields [ ("video.ownerDetails", EFirst (EStr "$ownerDetails"));
                      ("video.watchedAt", EStr "$watchHistory.watchedAt") ];
    AggX.XProject [("_id", false); ("video", true)] ].

(** The names that are bound in the module of the user controller that
    declares [getWatchHistory]: its six imports and its own functions.
    [mongoose] is not among them. *)
Definition user_controller_scope : list string :=
  [ "asyncHandler"; "ApiError"; "User"; "uploadOnCloudinary"; "ApiResponse";
    "jwt"; "generateAccessAndRefreshTokens"; "registerUser"; "loginUser";
    "logoutUser"; "refreshAccessToken"; "changeCurrentPassword";
    "getCurrentUser"; "updateAccountDetails"; "updateUserAvatar";
    "updateUserCoverImage"; "getUserChannelProfile"; "getWatchHistory" ].

(** Reading an identifier: a ReferenceError when nothing binds it. *)
Definition reference (scope : list string) (name : string) : M unit :=
  if existsb (String.eqb name) scope then ret tt
  else throw (ReferenceError name).

(** [getWatchHistory].  The whole body is inside a [try].  The pipeline is
    built before [User.aggregate] is called, and building it reads
    [mongoose] and then [req.user._id]; whatever fails there or in the
    aggregation is caught and answered with the one ApiError. *)
Definition getWatchHistory (viewer : option ObjectId) : M ApiResponse :=
  try_catch
    (reference user_controller_scope "mongoose" ;;;
     match viewer with
     | None => throw (TypeError "Cannot read properties of undefined")
     | Some uid =>
         watchHistory <-
           dbcall "User" "aggregate" (fun st =>
             (AggX.run st [] (history_pipeline uid) (collection st "users"), st)) ;;
         ret {| statusCode := 200; data := VArr (map VDoc watchHistory);
                message := "Watch history fetched successfully" |}
     end)
    (fun _ => throw (ApiError 501 "Fetching watch history failed")).

(** The sample store after bob has watched the draft and then the
    published video. *)
Definition bob_watching : User :=
  set_history Sample.bob
    [ {| h_video := Sample.draft_id; h_watchedAt := 3 |};
      {| h_video := Sample.public_id; h_watchedAt := 9 |} ].

Definition watched_store : Store :=
  with_users Sample.store [Sample.alice; bob_watching].

(* ===================================================================== *)
(** * The update of a video *)
(* ===================================================================== *)

(** What the provider answers to an upload, as far as the controller reads
    it. *)
Record Uploaded := { public_id : string; secure_url : string }.

(** [uploadOnCloudinary(localFilePath)]: null at once for a falsy path;
    otherwise the answer of the provider, or null when the upload fails.
    The provider is the parameter [upload].  The temporary file is there
    (the request has just written it), so that its removal, in the [try]
    as in the [catch], goes through; the second argument the controller
    passes is not read. *)
Definition uploadOnCloudinary (upload : string -> option Uploaded)
    (localFilePath : string) : M (option Uploaded) :=
  if negb (Js.truthy_str localFilePath) then ret None
  else ret (upload localFilePath).

(** [field === undefined || field?.trim() === ""] on a field of the body
    that is a string when it is there. *)
Definition blank (field : option string) : bool :=
  match field with
  | None => true
  | Some s => String.eqb (Js.trim s) ""
  end.

(** [{ $set: { title, description } }], with [thumbnail] when there is a
    new one. *)
Definition set_details (title description : string) (thumbnail : option Media)
    (v : Video) : Video :=
  {| v_id := v_id v; v_video := v_video v;
     v_thumbnail := match thumbnail with
                    | Some m => m
                    | None => v_thumbnail v
                    end;
     v_title := title; v_description := description;
     v_duration := v_duration v; v_views := v_views v;
     v_isPublished := v_isPublished v; v_owner := v_owner v;
     v_createdAt := v_createdAt v; v_updatedAt := v_updatedAt v |}.

(** [Video.findByIdAndUpdate(id, update, { new: true })]: the document as
    it is after the update, or null. *)
Definition findByIdAndUpdate_set (id : string) (title description : string)
    (thumbnail : option Media) : M (option Video) :=
  t <- now ;;
  dbcall "Video" "findByIdAndUpdate" (fun st =>
    if isValidObjectId id
    then (Ok (option_map
                (fun v => VideoModel.touch t
                            (set_details title description thumbnail v))
                (find (has_id (castObjectId id)) (videos st))),
          with_videos st
            (update_first (has_id (castObjectId id))
               (fun v => VideoModel.touch t
                           (set_details title description thumbnail v))
               (videos st)))
    else (Throw (CastError "_id"), st)).

(** [updateVideo].  [title] and [description] are the fields of the body,
    [thumbnailLocalPath] is [req.file?.path] and [viewer] the identity of
    the session (the route is for signed-in users). *)
Definition updateVideo (upload : string -> option Uploaded) (videoId : string)
    (title description thumbnailLocalPath : option string) (viewer : ObjectId)
  : M ApiResponse :=
  if negb (isValidObjectId videoId)
  then throw (ApiError 400 "Invalid videoId")
  else
    currentVideo <- VideoModel.findById videoId ;;
    match currentVideo with
    | None => throw (ApiError 401 "Video cannot be found")
    | Some currentVideo =>
        if blank title || blank description
        then throw (ApiError 400 "All fields are required")
        else if negb (String.eqb (toString (v_owner currentVideo))
                        (toString viewer))
        then throw (ApiError 400
                      "You can't edit this video as you are not the owner")
        else
          thumbnail <-
            (if Js.truthy thumbnailLocalPath
             then
               thumbnailFile <-
                 uploadOnCloudinary upload (str thumbnailLocalPath) ;;
               match thumbnailFile with
               | None => throw (ApiError 501 "Thumbnail uploading failed")
               | Some thumbnailFile =>
                   deleteFromCloudinary (fileId (v_thumbnail currentVideo)) ;;;
                   ret (Some {| fileId := public_id thumbnailFile;
                                url := secure_url thumbnailFile |})
               end
             else ret None) ;;
          video <-
            findByIdAndUpdate_set videoId (str title) (str description)
              thumbnail ;;
          match video with
          | None => throw (ApiError 501 "Updating Video failed")
          | Some video =>
              ret {| statusCode := 200; data := VDoc (video_doc video);
                     message := "Video updated successfully" |}
          end
    end.

(** The removals a request has asked of the provider. *)
Definition destroyed (tr : list event) : list string :=
  flat_map (fun e => match e with
                     | CloudDestroy f => [f]
                     | DbCall _ _ => []
                     end) tr.

(** A no-break space (U+00A0), in its two bytes. *)
Definition nbsp : string :=
  String (ascii_of_nat 194) (String (ascii_of_nat 160) EmptyString).

(** The sample store with a third video, published by bob after the two
    of alice. *)
Definition later_video : Video :=
  {| v_id := "fedcba9876543210fedcba98";
     v_video := Sample.media "v3" "https://cdn/v3";
     v_thumbnail := Sample.media "t3" "https://cdn/t3"; v_title := "Knots";
     v_description := "On knots"; v_duration := 90; v_views := 1;
     v_isPublished := true; v_owner := Sample.bob_id; v_createdAt := 3000;
     v_updatedAt := 3000 |}.

Definition busy_store : Store :=
  with_videos Sample.store
    [Sample.public_video; Sample.draft_video; later_video].

(* ===================================================================== *)
(** * Lemmas: identifiers and strings *)
(* ===================================================================== *)

Ltac each_ascii c :=
  destruct c as [[] [] [] [] [] [] [] []]; vm_compute; try reflexivity;
  try discriminate.

Lemma lower_hex_is_hex (c : ascii) : is_lower_hex c = true -> is_hex c = true.
Proof. each_ascii c. Qed.

Lemma lower_hex_fixed (c : ascii) : is_lower_hex c = true -> Js.lower_ascii c = c.
Proof. each_ascii c. Qed.

Lemma hex_not_space (c : ascii) : is_hex c = true -> Js.is_space c = false.
Proof. each_ascii c. Qed.

Lemma lower_ascii_hex (c : ascii) : is_hex c = true -> is_lower_hex (Js.lower_ascii c) = true.
Proof. each_ascii c. Qed.

Lemma toLowerCase_length (s : string) :
  String.length (Js.toLowerCase s) = String.length s.
Proof. induction s as [|c r IH]; simpl; congruence. Qed.

Lemma toLowerCase_fixed (s : string) :
  forallb is_lower_hex (list_ascii_of_string s) = true -> Js.toLowerCase s = s.
Proof.
  induction s as [|c r IH]; simpl; intros H; [reflexivity|].
  apply andb_true_iff in H as [Hc Hr].
  now rewrite (lower_hex_fixed c Hc), IH.
Qed.

Lemma canonical_valid (s : string) : canonical s = true -> isValidObjectId s = true.
Proof.
  unfold canonical, isValidObjectId. intros H.
  apply andb_true_iff in H as [Hl Hh]. rewrite Hl. simpl.
  clear Hl. induction s as [|c r IH]; simpl in *; [reflexivity|].
  apply andb_true_iff in Hh as [Hc Hr].
  now rewrite (lower_hex_is_hex c Hc), IH.
Qed.

Lemma canonical_cast (s : string) : canonical s = true -> castObjectId s = s.
Proof.
  unfold canonical, castObjectId. intros H.
  apply andb_true_iff in H as [_ Hh]. now apply toLowerCase_fixed.
Qed.

(** A string that starts with a hexadecimal digit starts with no white
    space. *)
Lemma hex_first (c : ascii) (r : string) :
  is_hex c = true -> Js.trimStart (String c r) = String c r.
Proof.
  intros H. cbn [Js.trimStart]. rewrite (hex_not_space c H).
  assert (H2 : forall d, Js.is_space2 c d = false).
  { intros d. unfold Js.is_space2. revert H. each_ascii c. }
  assert (H3 : forall d e, Js.is_space3 c d e = false).
  { intros d e. unfold Js.is_space3. revert H. each_ascii c. }
  destruct r as [|d r2]; [reflexivity|]. rewrite H2.
  destruct r2 as [|e r3]; [reflexivity|]. now rewrite H3.
Qed.

(** A valid identifier is not blank. *)
Lemma valid_not_blank (s : string) :
  isValidObjectId s = true -> Js.truthy_str (Js.trim s) = true.
Proof.
  unfold isValidObjectId. intros H. apply andb_true_iff in H as [Hl Hh].
  destruct s as [|c r]; [discriminate|].
  simpl in Hh. apply andb_true_iff in Hh as [Hc _].
  unfold Js.trim. rewrite (hex_first c r Hc).
  cbn [Js.trimEnd]. unfold Js.all_space. now rewrite (hex_first c r Hc).
Qed.

(* ===================================================================== *)
(** * Lemmas: outcomes and stages *)
(* ===================================================================== *)

Lemma omap_ext {A B} (f g : A -> outcome B) (l : list A) :
  (forall a, In a l -> f a = g a) -> omap f l = omap g l.
Proof.
  induction l as [|a r IH]; simpl; intros H; [reflexivity|].
  rewrite (H a (or_introl eq_refl)), IH; [reflexivity|].
  intros b Hb. apply H. now right.
Qed.

Lemma omap_map_ok {X A B} (h : X -> A) (f : A -> outcome B) (g : X -> B)
    (l : list X) :
  (forall x, In x l -> f (h x) = Ok (g x)) ->
  omap f (map h l) = Ok (map g l).
Proof.
  induction l as [|a r IH]; simpl; intros H; [reflexivity|].
  rewrite (H a (or_introl eq_refl)). simpl.
  rewrite IH; [reflexivity|]. intros b Hb. apply H. now right.
Qed.

Lemma filter_map_swap {A B} (p : B -> bool) (f : A -> B) (l : list A) :
  filter p (map f l) = map f (filter (fun x => p (f x)) l).
Proof.
  induction l as [|a r IH]; simpl; [reflexivity|].
  destruct (p (f a)); simpl; now rewrite IH.
Qed.

Section Stages.

Variable st : Store.

(** The pipeline nested in a [$lookup] runs like any pipeline. *)
Lemma run_stage_lookup (from lf ff as_ : string) (p : list Agg.stage)
    (docs : list doc) :
  Agg.run_stage st (SLookup from lf ff as_ p) docs =
  omap (fun d =>
          obind (Agg.run st p
                   (filter (fun f => joins (field lf d) (field ff f))
                      (collection st from)))
            (fun r => Ok (set as_ (VArr (map VDoc r)) d)))
    docs.
Proof.
  simpl. apply omap_ext. intros d _. f_equal.
  generalize (filter (fun f => joins (field lf d) (field ff f))
                (collection st from)).
  induction p as [|s p' IH]; intros ds; [reflexivity|].
  simpl. destruct (Agg.run_stage st s ds); simpl; [apply IH|reflexivity].
Qed.

(** A [$lookup] without a nested pipeline, on documents of known shape. *)
Lemma lookup_plain {X} (h : X -> doc) (from lf ff as_ : string) (l : list X) :
  Agg.run_stage st (SLookup from lf ff as_ []) (map h l) =
  Ok (map (fun x =>
             set as_ (VArr (map VDoc
                             (filter (fun f => joins (field lf (h x)) (field ff f))
                                (collection st from)))) (h x)) l).
Proof.
  rewrite run_stage_lookup. apply omap_map_ok. intros x _. reflexivity.
Qed.

End Stages.

(** The join condition on two references. *)
Lemma joins_ids (a b : ObjectId) : joins (VId a) (VId b) = String.eqb b a.
Proof. unfold joins, field_matches. simpl. now rewrite orb_false_r. Qed.

(** Membership of the viewer in an array of references. *)
Lemma viewer_in_ids {X} (viewer : option ObjectId) (g : X -> ObjectId) (l : list X) :
  existsb (value_eqb (viewer_value viewer)) (map (fun x => VId (g x)) l)
  = is_member viewer (map g l).
Proof.
  destruct viewer as [i|]; simpl.
  - induction l as [|a r IH]; simpl; [reflexivity|]. now rewrite IH.
  - induction l as [|a r IH]; simpl; [reflexivity|]. exact IH.
Qed.

Lemma length_map2 {A B C} (f : A -> B) (g : B -> C) (l : list A) :
  List.length (map g (map f l)) = List.length l.
Proof. now rewrite !length_map. Qed.

Lemma omap_pure {A B} (g : A -> B) (l : list A) :
  omap (fun a => Ok (g a)) l = Ok (map g l).
Proof. induction l as [|a r IH]; simpl; [reflexivity|]. now rewrite IH. Qed.

Lemma run_stage_per_document (st : Store) (s : stage) (docs : list doc) :
  per_document s = true ->
  Agg.run_stage st s docs = omap (stage_doc st s) docs.
Proof.
  destruct s; try discriminate; intros _.
  - apply run_stage_lookup.
  - reflexivity.
  - simpl. symmetry. apply omap_pure.
Qed.

(** A pipeline of such stages, on documents of known shape. *)
Lemma run_per_document (st : Store) (p : list stage) :
  forallb per_document p = true ->
  forall {X} (h g : X -> doc) (l : list X),
    (forall x, In x l -> run_doc st p (h x) = Ok (g x)) ->
    Agg.run st p (map h l) = Ok (map g l).
Proof.
  induction p as [|s p' IH]; intros Hp X h g l H.
  - simpl. f_equal. apply map_ext_in. intros x Hx.
    specialize (H x Hx). simpl in H. congruence.
  - simpl in Hp. apply andb_true_iff in Hp as [Hs Hp'].
    simpl. rewrite (run_stage_per_document st s _ Hs).
    set (m := fun x => match stage_doc st s (h x) with
                       | Ok d => d
                       | Throw _ => []
                       end).
    rewrite (omap_map_ok h (stage_doc st s) m).
    + simpl. apply (IH Hp'). intros x Hx. specialize (H x Hx).
      simpl in H. unfold m. destruct (stage_doc st s (h x)); [exact H|discriminate].
    + intros x Hx. specialize (H x Hx). simpl in H. unfold m.
      destruct (stage_doc st s (h x)); [reflexivity|discriminate].
Qed.

Lemma run_cons (st : Store) (s : stage) (p : list stage) (docs : list doc) :
  Agg.run st (s :: p) docs = obind (Agg.run_stage st s docs) (Agg.run st p).
Proof. reflexivity. Qed.

Lemma run_stage_match (st : Store) (conds : list (string * value)) (docs : list doc) :
  Agg.run_stage st (SMatch conds) docs = Ok (filter (matches conds) docs).
Proof. reflexivity. Qed.

(* ===================================================================== *)
(** * Lemmas: the joins and the detail pipelines *)
(* ===================================================================== *)

(** The references found along a path through joined documents. *)
Lemma ids_through {X} (k : string) (f : X -> doc) (g : X -> ObjectId) (l : list X) :
  (forall x, get k (f x) = VId (g x)) ->
  filter (fun x => negb (is_missing x))
    (map (fun x => match x with VDoc d => get k d | _ => VMissing end)
       (map VDoc (map f l)))
  = map (fun x => VId (g x)) l.
Proof.
  intros H. induction l as [|a r IH]; simpl; [reflexivity|].
  rewrite H. simpl. now rewrite IH.
Qed.

Section Joins.

Variable st : Store.

Lemma join_subscribers (d : doc) (uid : ObjectId) :
  field "_id" d = VId uid ->
  filter (fun f => joins (field "_id" d) (field "channel" f))
    (collection st "subscriptions")
  = map subscription_doc (subscribers_of st uid).
Proof.
  intros H. rewrite H.
  change (collection st "subscriptions")
    with (map subscription_doc (subscriptions st)).
  rewrite filter_map_swap. unfold subscribers_of. f_equal.
  apply filter_ext. intros s. apply joins_ids.
Qed.

Lemma join_likes (d : doc) (vid : ObjectId) :
  field "_id" d = VId vid ->
  filter (fun f => joins (field "_id" d) (field "video" f))
    (collection st "likes")
  = map like_doc (likes_of st vid).
Proof.
  intros H. rewrite H.
  change (collection st "likes") with (map like_doc (likes st)).
  rewrite filter_map_swap. unfold likes_of. f_equal.
  apply filter_ext. intros l. apply joins_ids.
Qed.

Lemma join_owner (d : doc) (uid : ObjectId) :
  field "owner" d = VId uid ->
  filter (fun f => joins (field "owner" d) (field "_id" f))
    (collection st "users")
  = map user_doc (owners_of st uid).
Proof.
  intros H. rewrite H.
  change (collection st "users") with (map user_doc (users st)).
  rewrite filter_map_swap. unfold owners_of. f_equal.
  apply filter_ext. intros u. apply joins_ids.
Qed.

(** The pipeline nested in the owner join of [getVideoById]. *)
Lemma owner_summary_doc (isGuest : bool) (viewer : option ObjectId) (u : User) :
  run_doc st
    [ SLookup "subscriptions" "_id" "channel" "subscribers" [];
      SAddFields
        [ ("subscribersCount", ESize (EStr "$subscribers"));
          ("isSubscribed",
           ECond (ELit (VBool isGuest)) (ELit (VBool false))
             (ECond (EIn (ELit (viewer_value viewer))
                       (EStr "$subscribers.subscriber"))
                (ELit (VBool true)) (ELit (VBool false)))) ];
      SProject [ "username"; "fullName"; "avatar.url"; "subscribersCount";
                 "isSubscribed" ] ]
    (user_doc u)
  = Ok (owner_summary st isGuest viewer u).
Proof.
  unfold run_doc, stage_doc.
  rewrite (join_subscribers _ (u_id u)) by reflexivity.
  simpl.
  rewrite (ids_through "subscriber" subscription_doc s_subscriber) by reflexivity.
  rewrite viewer_in_ids, length_map2.
  unfold owner_summary, count.
  destruct isGuest; simpl; [reflexivity|].
  destruct (is_member _ _); reflexivity.
Qed.

(** The pipeline nested in the owner join of [getVideoByIdForGuest]: the
    [isSubscribed] it adds is not among the fields it projects. *)
Lemma guest_owner_summary_doc (u : User) :
  run_doc st
    [ SLookup "subscriptions" "_id" "channel" "subscribers" [];
      SAddFields [ ("subscribersCount", ESize (EStr "$subscribers"));
                   ("isSubscribed", ELit (VBool false)) ];
      SProject ["username"; "avatar.url"; "subscribersCount"] ]
    (user_doc u)
  = Ok (guest_owner_summary st u).
Proof.
  unfold run_doc, stage_doc.
  rewrite (join_subscribers _ (u_id u)) by reflexivity.
  simpl. rewrite length_map2. reflexivity.
Qed.

(** What follows the [$match] of [getVideoById], on one video. *)
Lemma detail_doc (videoId : string) (isGuest : bool) (viewer : option ObjectId)
    (v : Video) :
  run_doc st (tl (detail_pipeline videoId isGuest viewer)) (video_doc v)
  = Ok (detail_view st isGuest viewer v).
Proof.
  unfold detail_pipeline, tl.
  cbn [run_doc]. unfold stage_doc at 1.
  rewrite (join_likes _ (v_id v)) by reflexivity.
  cbn [Agg.run obind]. unfold stage_doc at 1.
  rewrite (join_owner _ (v_owner v)) by reflexivity.
  erewrite run_per_document;
    [ | reflexivity | intros u _; apply owner_summary_doc ].
  cbn [obind].
  unfold detail_view, count.
  destruct (owners_of st (v_owner v)) as [|u us]; simpl;
    rewrite (ids_through "likedBy" like_doc l_likedBy) by reflexivity;
    rewrite viewer_in_ids, length_map2;
    (destruct isGuest; simpl; [reflexivity|]);
    destruct (is_member _ _); reflexivity.
Qed.

(** What follows the [$match] of [getVideoByIdForGuest], on one video. *)
Lemma guest_doc (videoId : string) (v : Video) :
  run_doc st (tl (guest_pipeline videoId)) (video_doc v)
  = Ok (guest_view st v).
Proof.
  unfold guest_pipeline, tl.
  cbn [run_doc]. unfold stage_doc at 1.
  rewrite (join_likes _ (v_id v)) by reflexivity.
  cbn [Agg.run obind]. unfold stage_doc at 1.
  rewrite (join_owner _ (v_owner v)) by reflexivity.
  erewrite run_per_document;
    [ | reflexivity | intros u _; apply guest_owner_summary_doc ].
  cbn [obind].
  unfold guest_view, count.
  destruct (owners_of st (v_owner v)) as [|u us]; simpl;
    rewrite length_map2; reflexivity.
Qed.

(** [$match] on the identifier, and on the identifier and the flag. *)
Lemma match_id (i : ObjectId) (v : Video) :
  matches [("_id", VId i)] (video_doc v) = has_id i v.
Proof.
  unfold matches, field_matches, has_id. simpl.
  now rewrite orb_false_r, andb_true_r.
Qed.

Lemma match_id_published (i : ObjectId) (v : Video) :
  matches [("_id", VId i); ("isPublished", VBool true)] (video_doc v)
  = has_id i v && v_isPublished v.
Proof.
  unfold matches, field_matches, has_id. simpl.
  rewrite !orb_false_r, andb_true_r. f_equal.
  now destruct (v_isPublished v).
Qed.

(** The aggregation of [getVideoById]: one detail record per video with
    the identifier. *)
Lemma aggregate_detail (videoId : string) (isGuest : bool)
    (viewer : option ObjectId) :
  Agg.aggregate st "videos" (detail_pipeline videoId isGuest viewer)
  = Ok (map (detail_view st isGuest viewer)
          (filter (has_id (castObjectId videoId)) (videos st))).
Proof.
  unfold Agg.aggregate.
  change (collection st "videos") with (map video_doc (videos st)).
  change (detail_pipeline videoId isGuest viewer)
    with (SMatch [("_id", VId (castObjectId videoId))]
            :: tl (detail_pipeline videoId isGuest viewer)).
  cbn [Agg.run Agg.run_stage obind].
  rewrite filter_map_swap.
  rewrite (filter_ext _ _ (match_id (castObjectId videoId))).
  apply run_per_document; [reflexivity|].
  intros v _. apply detail_doc.
Qed.

(** The aggregation of [getVideoByIdForGuest]: one record per published
    video with the identifier. *)
Lemma aggregate_guest (videoId : string) :
  Agg.aggregate st "videos" (guest_pipeline videoId)
  = Ok (map (guest_view st)
          (filter (fun v => has_id (castObjectId videoId) v && v_isPublished v)
             (videos st))).
Proof.
  unfold Agg.aggregate.
  change (collection st "videos") with (map video_doc (videos st)).
  change (guest_pipeline videoId)
    with (SMatch [("_id", VId (castObjectId videoId));
                  ("isPublished", VBool true)]
            :: tl (guest_pipeline videoId)).
  cbn [Agg.run Agg.run_stage obind].
  rewrite filter_map_swap.
  rewrite (filter_ext _ _ (match_id_published (castObjectId videoId))).
  apply run_per_document; [reflexivity|].
  intros v _. apply guest_doc.
Qed.

End Joins.

Lemma find_filter_head {A} (p : A -> bool) (l : list A) (x : A) :
  find p l = Some x -> exists r, filter p l = x :: r.
Proof.
  induction l as [|a r IH]; simpl; [discriminate|].
  destruct (p a) eqn:E.
  - intros [= ->]. now exists (filter p r).
  - exact IH.
Qed.

Lemma filter_none {A} (p : A -> bool) (l : list A) :
  (forall x, In x l -> p x = false) -> filter p l = [].
Proof.
  induction l as [|a r IH]; simpl; intros H; [reflexivity|].
  rewrite (H a (or_introl eq_refl)). apply IH. intros x Hx. apply H. now right.
Qed.

(* ===================================================================== *)
(** * Lemmas: calls of a request that runs alone *)
(* ===================================================================== *)

Lemma dbcall_quiet {A} (model method : string) (body : Store -> outcome A * Store)
    (st : Store) (t : Z) (tr : list event) :
  dbcall model method body {| store := st; clock := t; trace := tr; env := [] |}
  = (fst (body st),
     {| store := snd (body st); clock := t;
        trace := tr ++ [DbCall model method]; env := [] |}).
Proof. unfold dbcall. simpl. now destruct (body st). Qed.

Lemma video_aggregate_alone (p : list stage) (st : Store) (t : Z) :
  VideoModel.aggregate p (alone st t)
  = (Agg.aggregate st "videos" p,
     {| store := st; clock := t; trace := [DbCall "Video" "aggregate"];
        env := [] |}).
Proof. apply dbcall_quiet. Qed.

Lemma user_aggregate_alone (p : list stage) (st : Store) (t : Z) :
  UserModel.aggregate p (alone st t)
  = (Agg.aggregate st "users" p,
     {| store := st; clock := t; trace := [DbCall "User" "aggregate"];
        env := [] |}).
Proof. apply dbcall_quiet. Qed.

Lemma bind_run {A B} (m : M A) (f : A -> M B) (w : World) :
  bind m f w = match m w with
               | (Ok a, w') => f a w'
               | (Throw e, w') => (Throw e, w')
               end.
Proof. reflexivity. Qed.

(* ===================================================================== *)
(** * Lemmas: sorting and the listing pipeline *)
(* ===================================================================== *)

Section Sorting.

Context {A B : Type}.

Lemma insert_map (f : A -> B) (b : B -> B -> bool) (x : A) (l : list A) :
  Agg.insert b (f x) (map f l)
  = map f (Agg.insert (fun a c => b (f a) (f c)) x l).
Proof.
  induction l as [|y r IH]; simpl; [reflexivity|].
  destruct (b (f x) (f y)); simpl; [reflexivity|]. now rewrite IH.
Qed.

Lemma isort_map (f : A -> B) (b : B -> B -> bool) (l : list A) :
  Agg.isort b (map f l) = map f (Agg.isort (fun a c => b (f a) (f c)) l).
Proof.
  induction l as [|x r IH]; simpl; [reflexivity|].
  unfold Agg.isort in *. simpl. rewrite IH. apply insert_map.
Qed.

Lemma insert_in (b : A -> A -> bool) (x y : A) (l : list A) :
  In y (Agg.insert b x l) -> y = x \/ In y l.
Proof.
  induction l as [|z r IH]; simpl.
  - intros [H|[]]; now left.
  - destruct (b x z); simpl.
    + intros [H|H]; [now left|now right].
    + intros [H|H]; [right; now left|].
      destruct (IH H) as [E|E]; [now left|right; now right].
Qed.

Lemma isort_in (b : A -> A -> bool) (y : A) (l : list A) :
  In y (Agg.isort b l) -> In y l.
Proof.
  induction l as [|x r IH]; simpl; [tauto|].
  intros H. destruct (insert_in _ _ _ _ H) as [E|E]; [now left|].
  right. now apply IH.
Qed.

End Sorting.

Section ListingStages.

Variable st : Store.

Lemma match_owner (i : ObjectId) (v : Video) :
  matches [("owner", VId i)] (video_doc v) = String.eqb (v_owner v) i.
Proof.
  unfold matches, field_matches. simpl. now rewrite orb_false_r, andb_true_r.
Qed.

Lemma match_published (v : Video) :
  matches [("isPublished", VBool true)] (video_doc v) = v_isPublished v.
Proof.
  unfold matches, field_matches. simpl. rewrite orb_false_r, andb_true_r.
  now destruct (v_isPublished v).
Qed.

Lemma run_stage_search (q : option string) (vs : list Video) :
  Js.truthy q = true ->
  Agg.run_stage st (SSearch "search-videos" (str q) ["title"; "description"])
    (map video_doc vs)
  = Ok (map video_doc (Listing.full_text_search st q vs)).
Proof.
  intros Hq. unfold Listing.full_text_search. rewrite Hq.
  cbn [Agg.run_stage]. unfold search.
  now rewrite filter_map_swap, isort_map.
Qed.

Lemma run_stage_sort (key : string) (dir : Z) (vs : list Video) :
  Agg.run_stage st (SSort key dir) (map video_doc vs)
  = if valid_field_path key
    then Ok (map video_doc
               (Agg.isort (fun a b => before key dir (video_doc a) (video_doc b)) vs))
    else Throw (MongoServerError "invalid sort key").
Proof.
  cbn [Agg.run_stage]. destruct (valid_field_path key); [|reflexivity].
  unfold sort. now rewrite isort_map.
Qed.

Lemma unwind_owner (v : Video) (us : list User) :
  unwind "ownerDetails"
    (set "ownerDetails"
       (VArr (map VDoc (map (project ["username"; "avatar.url"])
                          (map user_doc us))))
       (video_doc v))
  = map (Listing.with_owner v) us.
Proof.
  unfold unwind. simpl. rewrite !map_map. apply map_ext. intros u. reflexivity.
Qed.

Lemma run_owner_lookup (vs : list Video) :
  Agg.run st owner_lookup (map video_doc vs) = Ok (Listing.owner_join st vs).
Proof.
  unfold owner_lookup. rewrite run_cons, run_stage_lookup.
  rewrite (omap_map_ok video_doc _
             (fun v => set "ownerDetails"
                         (VArr (map VDoc (map (project ["username"; "avatar.url"])
                                            (map user_doc (owners_of st (v_owner v))))))
                         (video_doc v))).
  - cbn [obind Agg.run Agg.run_stage]. f_equal. unfold Listing.owner_join.
    induction vs as [|v r IH]; [reflexivity|].
    cbn [map flat_map]. now rewrite IH, unwind_owner.
  - intros v _. rewrite (join_owner st _ (v_owner v)) by reflexivity.
    reflexivity.
Qed.

(** The stages every listing ends with. *)
Lemma run_listing_tail (key : string) (dir : Z) (vs : list Video) :
  Agg.run st (SMatch [("isPublished", VBool true)] :: SSort key dir :: owner_lookup)
    (map video_doc vs)
  = if valid_field_path key
    then Ok (Listing.owner_join st
               (Agg.isort (fun a b => before key dir (video_doc a) (video_doc b))
                  (Listing.published_only vs)))
    else Throw (MongoServerError "invalid sort key").
Proof.
  rewrite run_cons, run_stage_match. cbn [obind].
  rewrite filter_map_swap, (filter_ext _ _ match_published).
  rewrite run_cons, run_stage_sort.
  destruct (valid_field_path key); [|reflexivity].
  cbn [obind]. apply run_owner_lookup.
Qed.

(** The whole pipeline of a listing is the six steps in their order. *)
Lemma aggregate_listing (q : ListQuery) :
  obind (getAllVideos_pipeline q)
    (fun p => obind (Agg.aggregate st "videos" p)
                (paginate (parseInt_or 1 (page q)) (parseInt_or 10 (limit q))))
  = Listing.listing st q.
Proof.
  unfold getAllVideos_pipeline, Listing.listing, Listing.owner_filter,
    Listing.sorted, Listing.sort_spec, Agg.aggregate.
  change (collection st "videos") with (map video_doc (videos st)).
  destruct (Js.truthy (query q)) eqn:Hq;
    destruct (Js.truthy (userId q)) eqn:Hu;
    try (destruct (isValidObjectId (str (userId q))) eqn:Hv);
    cbn [negb obind app];
    try reflexivity;
    destruct (Js.truthy (sortBy q) && Js.truthy (sortType q));
    cbn [app];
    repeat (rewrite run_cons;
            first [ rewrite (run_stage_search _ _ Hq)
                  | rewrite run_stage_match, filter_map_swap,
                      (filter_ext _ _ (match_owner _)) ];
            cbn [obind]);
    rewrite run_listing_tail;
    try (unfold Listing.full_text_search; rewrite Hq);
    match goal with
    | |- context [valid_field_path ?k] => destruct (valid_field_path k)
    end; reflexivity.
Qed.

End ListingStages.

Lemma getAllVideos_run (q : ListQuery) (w : World) :
  fst (getAllVideos q w)
  = obind (Listing.listing (seen w) q)
      (fun page => Ok {| statusCode := 200; data := page;
                         message := "Videos fetched successfully" |}).
Proof.
  rewrite <- aggregate_listing. unfold getAllVideos.
  destruct (getAllVideos_pipeline q) as [p|e]; [|reflexivity].
  cbn [obind]. rewrite bind_run.
  unfold aggregatePaginate, dbcall. fold (seen w).
  destruct (obind (Agg.aggregate (seen w) "videos" p) _); reflexivity.
Qed.

Lemma in_firstn {A} (n : nat) (l : list A) (x : A) : In x (firstn n l) -> In x l.
Proof.
  intros H. rewrite <- (firstn_skipn n l). apply in_or_app. now left.
Qed.

Lemma in_skipn {A} (n : nat) (l : list A) (x : A) : In x (skipn n l) -> In x l.
Proof.
  intros H. rewrite <- (firstn_skipn n l). apply in_or_app. now right.
Qed.

(** A page holds documents of the list it is cut from. *)
Lemma paginate_listed (p l : option Z) (all : list doc) (r : value) (msg : string)
    (x : value) :
  paginate p l all = Ok r ->
  In x (listed {| statusCode := 200; data := r; message := msg |}) ->
  exists d, x = VDoc d /\ In d all.
Proof.
  unfold paginate.
  destruct (_ <? 0); [discriminate|]. intros [= <-].
  unfold listed. cbn [data get String.eqb Ascii.eqb Bool.eqb].
  intros H. apply in_map_iff in H as (d & <- & Hd).
  exists d. split; [reflexivity|].
  eapply in_skipn, in_firstn, Hd.
Qed.

(** The videos of a listing are stored and published. *)
Lemma listing_published (st : Store) (q : ListQuery) (r : value) (msg : string)
    (x : value) :
  Listing.listing st q = Ok r ->
  In x (listed {| statusCode := 200; data := r; message := msg |}) ->
  exists (v : Video) (u : User),
    In v (videos st) /\ v_isPublished v = true
    /\ x = VDoc (Listing.with_owner v u).
Proof.
  unfold Listing.listing. intros H Hx.
  destruct (Listing.owner_filter _ _) as [vs2|] eqn:H2; [|discriminate].
  cbn [obind] in H.
  destruct (Listing.sorted _ _ _) as [vs4|] eqn:H4; [|discriminate].
  cbn [obind] in H.
  destruct (paginate_listed _ _ _ _ _ _ H Hx) as (d & -> & Hd).
  unfold Listing.owner_join in Hd.
  apply in_flat_map in Hd as (v & Hv & Hd).
  apply in_map_iff in Hd as (u & <- & _).
  exists v, u.
  assert (Hv3 : In v (Listing.published_only vs2)).
  { unfold Listing.sorted in H4. destruct (Listing.sort_spec _ _) as [key dir].
    destruct (valid_field_path key); [|discriminate].
    injection H4 as <-. eapply isort_in, Hv. }
  apply filter_In in Hv3 as [Hv2 Hpub].
  assert (Hv1 : In v (Listing.full_text_search st (query q) (videos st))).
  { unfold Listing.owner_filter in H2.
    destruct (Js.truthy (userId q)); [|now injection H2 as <-].
    destruct (isValidObjectId _); [|discriminate].
    injection H2 as <-. now apply filter_In in Hv2 as [Hv2 _]. }
  repeat split; [|exact Hpub].
  unfold Listing.full_text_search in Hv1.
  destruct (Js.truthy (query q)); [|exact Hv1].
  apply isort_in in Hv1. now apply filter_In in Hv1 as [Hv1 _].
Qed.

(* ===================================================================== *)
(** * Lemmas: finding and rewriting records *)
(* ===================================================================== *)

Section FirstMatch.

Context {A : Type} (p : A -> bool).

Lemma find_update_first (f : A -> A) (l : list A) (x : A) :
  find p l = Some x -> p (f x) = true ->
  find p (update_first p f l) = Some (f x).
Proof.
  induction l as [|a r IH]; simpl; [discriminate|].
  destruct (p a) eqn:E.
  - intros [= ->] Hf. simpl. now rewrite Hf.
  - intros H Hf. simpl. rewrite E. now apply IH.
Qed.

Lemma find_none_filter (l : list A) : filter p l = [] -> find p l = None.
Proof.
  induction l as [|a r IH]; simpl; [reflexivity|].
  destruct (p a); [discriminate|exact IH].
Qed.

Lemma find_skip (l r : list A) (x : A) :
  filter p l = [] -> p x = true -> find p (l ++ x :: r) = Some x.
Proof.
  induction l as [|a l' IH]; simpl; intros Hl Hx; [now rewrite Hx|].
  destruct (p a); [discriminate|]. now apply IH.
Qed.

Lemma update_first_skip (f : A -> A) (l r : list A) (x : A) :
  filter p l = [] -> p x = true ->
  update_first p f (l ++ x :: r) = l ++ f x :: r.
Proof.
  induction l as [|a l' IH]; simpl; intros Hl Hx; [now rewrite Hx|].
  destruct (p a); [discriminate|]. now rewrite IH.
Qed.

Lemma find_exists (l : list A) (x : A) : find p l = Some x -> existsb p l = true.
Proof.
  induction l as [|a r IH]; simpl; [discriminate|].
  destruct (p a); [reflexivity|exact IH].
Qed.

Lemma find_holds (l : list A) (x : A) : find p l = Some x -> p x = true.
Proof. intros H. now apply find_some in H. Qed.

Lemma remove_first_none (l : list A) : find p l = None -> remove_first p l = l.
Proof.
  induction l as [|a r IH]; simpl; [reflexivity|].
  destruct (p a); [discriminate|]. intros H. now rewrite IH.
Qed.

End FirstMatch.

Lemma with_videos_same (st : Store) : with_videos st (videos st) = st.
Proof. now destruct st. Qed.

Lemma filter_filter_none {A} (p q : A -> bool) (l : list A) :
  (forall a, p a && q a = false) -> filter p (filter q l) = [].
Proof.
  intros H. induction l as [|a r IH]; simpl; [reflexivity|].
  destruct (q a) eqn:Eq; [|exact IH].
  simpl. specialize (H a). rewrite Eq, andb_true_r in H. now rewrite H.
Qed.

Lemma filter_and {A} (p q : A -> bool) (l : list A) :
  filter (fun x => p x && q x) l = filter q (filter p l).
Proof.
  induction l as [|a r IH]; simpl; [reflexivity|].
  destruct (p a); simpl; [destruct (q a)|]; now rewrite IH.
Qed.

(* ===================================================================== *)
(** * Lemmas: the two branches of the watch-history upsert *)
(* ===================================================================== *)

Section Upsert.

Variables (st : Store) (t : Z) (vid uid : ObjectId) (v : Video) (u : User).
Hypothesis Hcanonical : canonical vid = true.
Hypothesis Hvideo : find (has_id vid) (videos st) = Some v.
Hypothesis Huser : find (UserModel.user_has_id uid) (users st) = Some u.

Lemma found_user_id : u_id u = uid.
Proof. apply String.eqb_eq. exact (find_holds _ _ _ Huser). Qed.

(** No entry yet: the counter goes up by one and an entry is appended. *)
Lemma upsert_absent :
  find (watched vid) (u_watchHistory u) = None ->
  let u' := set_history u (u_watchHistory u
                           ++ [{| h_video := vid; h_watchedAt := t |}]) in
  updateVideoViews vid (Some uid) (alone st t)
  = (Ok {| statusCode := 200;
           data := VDoc [ ("video", VDoc (video_doc v));
                          ("user", VDoc (user_doc u')) ];
           message := "Video views updated successfully" |},
     {| store :=
          with_users
            (with_videos st
               (update_first (has_id vid)
                  (fun x => VideoModel.touch t (VideoModel.inc_views 1 x))
                  (videos st)))
            (update_first (UserModel.user_has_id uid) (fun _ => u') (users st));
        clock := t; trace := upsert_trace true; env := [] |}).
Proof.
  intros Hnone u'. unfold updateVideoViews.
  rewrite (canonical_valid _ Hcanonical). cbn [negb]. unfold alone.
  rewrite bind_run. unfold VideoModel.findById. rewrite dbcall_quiet.
  rewrite (canonical_valid _ Hcanonical), (canonical_cast _ Hcanonical), Hvideo.
  cbn [fst snd].
  rewrite bind_run. unfold UserModel.findById. rewrite dbcall_quiet.
  cbn [fst snd]. rewrite Huser, Hnone.
  rewrite !bind_run. unfold VideoModel.findByIdAndUpdate_inc_views.
  rewrite bind_run. unfold now at 1. cbn [clock]. rewrite dbcall_quiet.
  rewrite (canonical_valid _ Hcanonical), (canonical_cast _ Hcanonical).
  cbn [fst snd].
  rewrite !bind_run. unfold now at 1. cbn [clock].
  rewrite !bind_run. unfold UserModel.save. rewrite dbcall_quiet.
  cbn [u_id set_history users with_videos].
  rewrite found_user_id, (find_exists _ _ _ Huser).
  reflexivity.
Qed.

(** An entry already: its [watchedAt] is set, nothing else is written. *)
Lemma upsert_present (e : HistoryEntry) :
  find (watched vid) (u_watchHistory u) = Some e ->
  let u' := set_history u (update_first (watched vid) (set_watchedAt t)
                             (u_watchHistory u)) in
  updateVideoViews vid (Some uid) (alone st t)
  = (Ok {| statusCode := 200;
           data := VDoc [ ("video", VDoc (video_doc v));
                          ("user", VDoc (user_doc u')) ];
           message := "Video views updated successfully" |},
     {| store :=
          with_users st
            (update_first (UserModel.user_has_id uid) (fun _ => u') (users st));
        clock := t; trace := upsert_trace false; env := [] |}).
Proof.
  intros Hsome u'. unfold updateVideoViews.
  rewrite (canonical_valid _ Hcanonical). cbn [negb]. unfold alone.
  rewrite bind_run. unfold VideoModel.findById. rewrite dbcall_quiet.
  rewrite (canonical_valid _ Hcanonical), (canonical_cast _ Hcanonical), Hvideo.
  cbn [fst snd].
  rewrite bind_run. unfold UserModel.findById. rewrite dbcall_quiet.
  cbn [fst snd]. rewrite Huser, Hsome.
  rewrite !bind_run. unfold now at 1. cbn [clock].
  rewrite !bind_run. unfold UserModel.save. rewrite dbcall_quiet.
  cbn [u_id set_history users].
  rewrite found_user_id, (find_exists _ _ _ Huser).
  reflexivity.
Qed.

End Upsert.

Lemma user_after_save (us : list User) (uid : ObjectId) (u : User)
    (h : list HistoryEntry) :
  find (UserModel.user_has_id uid) us = Some u ->
  find (UserModel.user_has_id uid)
    (update_first (UserModel.user_has_id uid) (fun _ => set_history u h) us)
  = Some (set_history u h).
Proof.
  intros H.
  rewrite (find_update_first _ (fun _ => set_history u h) _ _ H); [reflexivity|].
  exact (find_holds _ _ _ H).
Qed.

(** The upsert for any spelling of a valid identifier. *)
Lemma upsert_run (st : Store) (t : Z) (videoId : string) (uid : ObjectId)
    (v : Video) (u : User) :
  isValidObjectId videoId = true ->
  find (has_id (castObjectId videoId)) (videos st) = Some v ->
  find (UserModel.user_has_id uid) (users st) = Some u ->
  exists (resp : ApiResponse) (calls : list event),
    updateVideoViews videoId (Some uid) (alone st t)
    = (Ok resp,
       {| store :=
            match find (watched videoId) (u_watchHistory u) with
            | None =>
                with_users
                  (with_videos st
                     (update_first (has_id (castObjectId videoId))
                        (fun x => VideoModel.touch t (VideoModel.inc_views 1 x))
                        (videos st)))
                  (update_first (UserModel.user_has_id uid)
                     (fun _ => set_history u
                                 (u_watchHistory u
                                  ++ [{| h_video := castObjectId videoId;
                                         h_watchedAt := t |}]))
                     (users st))
            | Some _ =>
                with_users st
                  (update_first (UserModel.user_has_id uid)
                     (fun _ => set_history u
                                 (update_first (watched videoId) (set_watchedAt t)
                                    (u_watchHistory u)))
                     (users st))
            end;
          clock := t; trace := calls; env := [] |}).
Proof.
  intros Hvalid Hv Hu.
  assert (Hid : u_id u = uid)
    by (apply String.eqb_eq; exact (find_holds _ _ _ Hu)).
  unfold updateVideoViews. rewrite Hvalid. cbn [negb]. unfold alone.
  rewrite bind_run. unfold VideoModel.findById. rewrite dbcall_quiet.
  rewrite Hvalid, Hv. cbn [fst snd].
  rewrite bind_run. unfold UserModel.findById. rewrite dbcall_quiet.
  cbn [fst snd]. rewrite Hu.
  destruct (find (watched videoId) (u_watchHistory u)) as [e|].
  - rewrite !bind_run. unfold now at 1. cbn [clock].
    rewrite !bind_run. unfold UserModel.save. rewrite dbcall_quiet.
    cbn [u_id set_history users].
    rewrite Hid, (find_exists _ _ _ Hu). cbn [fst snd].
    do 2 eexists. reflexivity.
  - rewrite !bind_run. unfold VideoModel.findByIdAndUpdate_inc_views.
    rewrite bind_run. unfold now at 1. cbn [clock].
    rewrite dbcall_quiet, Hvalid. cbn [fst snd].
    rewrite !bind_run. unfold now at 1. cbn [clock].
    rewrite !bind_run. unfold UserModel.save. rewrite dbcall_quiet.
    cbn [u_id set_history users with_videos].
    rewrite Hid, (find_exists _ _ _ Hu). cbn [fst snd].
    do 2 eexists. reflexivity.
Qed.

(* ===================================================================== *)
(** * Lemmas: the deletion, alone and among other requests *)
(* ===================================================================== *)

Lemma filter_remove_first {A} (p : A -> bool) (l : list A) :
  filter p (remove_first p l) = tl (filter p l).
Proof.
  induction l as [|a r IH]; simpl; [reflexivity|].
  destruct (p a) eqn:E; simpl; [reflexivity|]. now rewrite E.
Qed.

Lemma delete_alone (st : Store) (t : Z) (videoId : string) (v : Video) :
  isValidObjectId videoId = true ->
  find (has_id (castObjectId videoId)) (videos st) = Some v ->
  Js.truthy_str (fileId (v_video v)) = true ->
  Js.truthy_str (fileId (v_thumbnail v)) = true ->
  deleteVideo videoId (alone st t)
  = (Ok {| statusCode := 200; data := VNull;
           message := "Video deleted successfully" |},
     {| store :=
          with_comments
            (with_likes
               (with_videos st
                  (remove_first (has_id (castObjectId videoId)) (videos st)))
               (filter (fun l => negb (String.eqb (l_video l) (castObjectId videoId)))
                  (likes st)))
            (filter (fun c => negb (String.eqb (c_video c) (castObjectId videoId)))
               (comments st));
        clock := t;
        trace := primary_delete
                 ++ [ DbCall "Like" "deleteMany"; DbCall "Comment" "deleteMany";
                      CloudDestroy (fileId (v_video v));
                      CloudDestroy (fileId (v_thumbnail v)) ];
        env := [] |}).
Proof.
  intros Hvalid Hfind Hf1 Hf2. unfold deleteVideo, alone.
  rewrite bind_run. unfold VideoModel.findById. rewrite dbcall_quiet.
  rewrite Hvalid, Hfind. cbn [fst snd].
  rewrite bind_run. unfold VideoModel.findByIdAndDelete. rewrite dbcall_quiet.
  rewrite Hvalid, Hfind. cbn [fst snd].
  rewrite bind_run. unfold LikeModel.deleteMany_video. rewrite dbcall_quiet.
  rewrite Hvalid. cbn [fst snd].
  rewrite bind_run. unfold CommentModel.deleteMany_video. rewrite dbcall_quiet.
  rewrite Hvalid. cbn [fst snd].
  unfold deleteFromCloudinary. rewrite Hf1, Hf2. cbn [negb].
  reflexivity.
Qed.

(** A deletion fails in two ways only, both before the cascade, and in
    both the store is as the other requests left it. *)
Lemma delete_failure (videoId : string) (w : World) (e : error) :
  isValidObjectId videoId = true ->
  fst (deleteVideo videoId w) = Throw e ->
  (e = ApiError 404 "Video not found"
   /\ trace (snd (deleteVideo videoId w)) = trace w ++ [DbCall "Video" "findById"]
   /\ store (snd (deleteVideo videoId w)) = others_wrote 1 w)
  \/ (e = ApiError 500 "Video deletion failed"
      /\ trace (snd (deleteVideo videoId w)) = trace w ++ primary_delete
      /\ store (snd (deleteVideo videoId w)) = others_wrote 2 w).
Proof.
  intros Hvalid.
  destruct (deleteVideo videoId w) as [r w'] eqn:E. cbn [fst snd]. intros ->.
  unfold deleteVideo in E.
  rewrite bind_run in E. unfold VideoModel.findById, dbcall in E.
  rewrite Hvalid in E.
  destruct (find _ _) as [cur|] eqn:H1 in E.
  - rewrite bind_run in E. unfold VideoModel.findByIdAndDelete, dbcall in E.
    rewrite Hvalid in E. cbn [env store trace clock] in E.
    destruct (find _ _) as [del|] eqn:H2 in E.
    + exfalso.
      rewrite bind_run in E. unfold LikeModel.deleteMany_video, dbcall in E.
      rewrite Hvalid in E.
      rewrite bind_run in E. unfold CommentModel.deleteMany_video, dbcall in E.
      rewrite Hvalid in E.
      unfold deleteFromCloudinary in E.
      destruct (negb _) in E; destruct (negb _) in E; cbn in E; discriminate E.
    + injection E as <- <-. right. cbn [trace store].
      split; [reflexivity|]. split; [now rewrite <- app_assoc|].
      rewrite (remove_first_none _ _ H2), with_videos_same.
      unfold others_wrote. destruct (env w) as [|f [|g r]]; reflexivity.
  - injection E as <- <-. left. cbn [trace store].
    split; [reflexivity|]. split; [reflexivity|].
    unfold others_wrote. destruct (env w) as [|f r]; reflexivity.
Qed.

(* ===================================================================== *)
(** * The video detail *)
(* ===================================================================== *)

(** C10.  [getVideoById] answers the full detail record of every video that
    carries the identifier, whoever asks and with or without the guest
    flag: the [$match] stage tests the identifier only, so neither the
    published flag nor the owner of the video plays a part. *)
Theorem getVideoById_any_video :
  forall (st : Store) (t : Z) (videoId : string) (guest : option string)
         (viewer : option ObjectId) (v : Video),
    isValidObjectId videoId = true ->
    find (has_id (castObjectId videoId)) (videos st) = Some v ->
    fst (getVideoById videoId guest viewer (alone st t))
    = Ok {| statusCode := 200;
            data := VDoc (detail_view st (is_true guest) viewer v);
            message := "Video found" |}.
Proof.
  intros st t videoId guest viewer v Hvalid Hfind.
  unfold getVideoById.
  rewrite (valid_not_blank _ Hvalid), Hvalid. cbn [negb].
  rewrite bind_run, video_aggregate_alone, aggregate_detail.
  destruct (find_filter_head _ _ _ Hfind) as [r ->].
  reflexivity.
Qed.

(** An unpublished video, asked for by a viewer who is not its owner, and
    asked for again with the guest flag. *)
Lemma getVideoById_any_video_witness :
  fst (getVideoById Sample.draft_id None (Some Sample.bob_id)
         (alone Sample.store 0))
  = Ok {| statusCode := 200;
          data := VDoc (detail_view Sample.store false (Some Sample.bob_id)
                          Sample.draft_video);
          message := "Video found" |}
  /\ fst (getVideoById Sample.draft_id (Some "true") None (alone Sample.store 0))
  = Ok {| statusCode := 200;
          data := VDoc (detail_view Sample.store true None Sample.draft_video);
          message := "Video found" |}.
Proof.
  split.
  - apply (getVideoById_any_video Sample.store 0 Sample.draft_id None
             (Some Sample.bob_id) Sample.draft_video); reflexivity.
  - apply (getVideoById_any_video Sample.store 0 Sample.draft_id (Some "true")
             None Sample.draft_video); reflexivity.
Defined.

(** C3.  What [getVideoByIdForGuest] answers for a published video: the
    like count and, under the owner, the subscriber count are the counts of
    the matching records and [isLiked] is false, but the record carries no
    [isSubscribed] at all, neither at the top nor under the owner: the
    nested pipeline adds it and then projects it away. *)
Theorem guest_detail_record :
  forall (st : Store) (t : Z) (videoId : string) (v : Video) (u : User),
    isValidObjectId videoId = true ->
    find (fun x => has_id (castObjectId videoId) x && v_isPublished x)
      (videos st) = Some v ->
    find (UserModel.user_has_id (v_owner v)) (users st) = Some u ->
    exists d : doc,
      fst (getVideoByIdForGuest videoId (alone st t))
      = Ok {| statusCode := 200; data := VDoc d; message := "Video found" |}
      /\ get "isLiked" d = VBool false
      /\ get "likesCount" d = count (likes_of st (v_id v))
      /\ field "owner.subscribersCount" d = count (subscribers_of st (u_id u))
      /\ get "isSubscribed" d = VMissing
      /\ field "owner.isSubscribed" d = VMissing.
Proof.
  intros st t videoId v u Hvalid Hfind Howner.
  exists (guest_view st v).
  unfold getVideoByIdForGuest.
  rewrite (valid_not_blank _ Hvalid), Hvalid. cbn [negb].
  rewrite bind_run, video_aggregate_alone, aggregate_guest.
  destruct (find_filter_head _ _ _ Hfind) as [r ->].
  split; [reflexivity|].
  unfold guest_view, owners_of.
  destruct (find_filter_head _ _ _ Howner) as [us ->].
  repeat split; reflexivity.
Qed.

Lemma guest_detail_record_witness :
  exists d : doc,
    fst (getVideoByIdForGuest Sample.public_id (alone Sample.store 0))
    = Ok {| statusCode := 200; data := VDoc d; message := "Video found" |}
    /\ get "isLiked" d = VBool false
    /\ get "likesCount" d = VNum 1
    /\ field "owner.subscribersCount" d = VNum 1
    /\ get "isSubscribed" d = VMissing
    /\ field "owner.isSubscribed" d = VMissing.
Proof.
  exact (guest_detail_record Sample.store 0 Sample.public_id
           Sample.public_video Sample.alice eq_refl eq_refl eq_refl).
Defined.

(** C2.  When no published video carries the identifier, whether there is
    no such video or only an unpublished one, [getVideoByIdForGuest] gives
    one and the same answer, but the answer is a success with status 200
    and no data, not a Not-Found failure: the test [!video] is made on an
    array, and an array is never falsy. *)
Theorem guest_detail_never_not_found :
  forall (st : Store) (t : Z) (videoId : string),
    isValidObjectId videoId = true ->
    (forall v, In v (videos st) ->
               v_id v = castObjectId videoId -> v_isPublished v = false) ->
    fst (getVideoByIdForGuest videoId (alone st t))
    = Ok {| statusCode := 200; data := VMissing; message := "Video found" |}.
Proof.
  intros st t videoId Hvalid Hnone.
  unfold getVideoByIdForGuest.
  rewrite (valid_not_blank _ Hvalid), Hvalid. cbn [negb].
  rewrite bind_run, video_aggregate_alone, aggregate_guest.
  rewrite filter_none; [reflexivity|].
  intros v Hin. unfold has_id.
  destruct (String.eqb_spec (v_id v) (castObjectId videoId)) as [E|E];
    [|reflexivity].
  now rewrite (Hnone v Hin E).
Qed.

(** The unpublished video of the sample, and an identifier no video has. *)
Lemma guest_detail_never_not_found_witness :
  fst (getVideoByIdForGuest Sample.draft_id (alone Sample.store 0))
  = Ok {| statusCode := 200; data := VMissing; message := "Video found" |}
  /\ fst (getVideoByIdForGuest Sample.nobody_id (alone Sample.store 0))
  = Ok {| statusCode := 200; data := VMissing; message := "Video found" |}.
Proof.
  split.
  - apply (guest_detail_never_not_found Sample.store 0 Sample.draft_id eq_refl).
    intros v [<-|[<-|[]]]; [discriminate|reflexivity].
  - apply (guest_detail_never_not_found Sample.store 0 Sample.nobody_id eq_refl).
    intros v [<-|[<-|[]]]; discriminate.
Defined.

(* ===================================================================== *)
(** * The channel profile *)
(* ===================================================================== *)

Lemma match_username (name : string) (u : User) :
  matches [("username", VStr name)] (user_doc u) = String.eqb (u_username u) name.
Proof.
  unfold matches, field_matches. simpl. now rewrite orb_false_r, andb_true_r.
Qed.

(** The aggregation of the channel profile stops at [$addFields] as soon as
    one user has the name: [$size] is asked of [subscribers], a field no
    stage has produced (the first [$lookup] writes to [subcription]). *)
Lemma aggregate_channel (st : Store) (username : string)
    (viewer : option ObjectId) (u : User) :
  find (fun x => String.eqb (u_username x) (Js.toLowerCase username)) (users st)
  = Some u ->
  Agg.aggregate st "users" (channel_pipeline username viewer)
  = Throw (MongoServerError "The argument to $size must be an array").
Proof.
  intros Hfind. unfold Agg.aggregate, channel_pipeline.
  change (collection st "users") with (map user_doc (users st)).
  rewrite run_cons, run_stage_match. cbn [obind].
  rewrite filter_map_swap.
  rewrite (filter_ext _ _ (match_username (Js.toLowerCase username))).
  destruct (find_filter_head _ _ _ Hfind) as [r ->].
  rewrite run_cons, lookup_plain. cbn [obind].
  rewrite run_cons, lookup_plain. cbn [obind].
  reflexivity.
Qed.

(** C4.  For every existing username, looked up in lower case,
    [getUserChannelProfile] answers no profile and so no count: the
    aggregation is rejected by the store, whatever Subscription records
    there are. *)
Theorem channel_profile_fails :
  forall (st : Store) (t : Z) (username : string) (viewer : option ObjectId)
         (u : User),
    Js.truthy_str (Js.trim username) = true ->
    find (fun x => String.eqb (u_username x) (Js.toLowerCase username)) (users st)
    = Some u ->
    fst (getUserChannelProfile username viewer (alone st t))
    = Throw (MongoServerError "The argument to $size must be an array").
Proof.
  intros st t username viewer u Hname Hfind.
  unfold getUserChannelProfile. rewrite Hname. cbn [negb].
  rewrite bind_run, user_aggregate_alone.
  now rewrite (aggregate_channel st username viewer u Hfind).
Qed.

(** Alice has one subscriber in the sample and follows nobody; her profile
    is asked for under the name "Alice". *)
Lemma channel_profile_fails_witness :
  List.length (subscribers_of Sample.store Sample.alice_id) = 1%nat
  /\ List.length (subscribed_to Sample.store Sample.alice_id) = 0%nat
  /\ fst (getUserChannelProfile "Alice" (Some Sample.bob_id)
            (alone Sample.store 0))
     = Throw (MongoServerError "The argument to $size must be an array").
Proof.
  split; [reflexivity|]. split; [reflexivity|].
  apply (channel_profile_fails Sample.store 0 "Alice" (Some Sample.bob_id)
           Sample.alice); reflexivity.
Defined.

(** C5.  The channel profile and an absent viewer.
    [getUserChannelProfile] has no guard for an absent viewer: whoever
    asks, its [$addFields] stage computes [isSubscribed] by the membership
    test, the absent identity entering as null.  The test names its array
    by the string "subscribers.subscriber", without the [$], so it is
    rejected on every document, for every viewer; and for an existing
    username asked for without a viewer the request answers no profile,
    hence none whose [isSubscribed] is false. *)
Theorem channel_profile_absent_viewer :
  forall (st : Store) (t : Z) (username : string) (u : User),
    Js.truthy_str (Js.trim username) = true ->
    find (fun x => String.eqb (u_username x) (Js.toLowerCase username)) (users st)
    = Some u ->
    (exists fs : list (string * expr),
        In (SAddFields fs) (channel_pipeline username None)
        /\ In ("isSubscribed", membership_test None) fs)
    /\ (forall (viewer : option ObjectId) (d : doc),
          eval (membership_test viewer) d
          = Throw (MongoServerError "$in requires an array as a second argument"))
    /\ (exists e : error,
          fst (getUserChannelProfile username None (alone st t)) = Throw e)
    /\ ~ answers_not_subscribed
          (fst (getUserChannelProfile username None (alone st t))).
Proof.
  intros st t username u Hname Hfind.
  assert (Hfails : fst (getUserChannelProfile username None (alone st t))
                   = Throw (MongoServerError
                              "The argument to $size must be an array")).
  { unfold getUserChannelProfile. rewrite Hname. cbn [negb].
    rewrite bind_run, user_aggregate_alone.
    now rewrite (aggregate_channel st username None u Hfind). }
  split; [|split; [|split]].
  - eexists. split.
    + unfold channel_pipeline. do 3 right. left. reflexivity.
    + do 2 right. left. reflexivity.
  - intros viewer d. destruct viewer; reflexivity.
  - eexists. exact Hfails.
  - rewrite Hfails. intros (d & msg & H & _). discriminate H.
Qed.

(** The profile of alice, asked for without a viewer. *)
Lemma channel_profile_absent_viewer_witness :
  (forall (viewer : option ObjectId) (d : doc),
      eval (membership_test viewer) d
      = Throw (MongoServerError "$in requires an array as a second argument"))
  /\ ~ answers_not_subscribed
        (fst (getUserChannelProfile "alice" None (alone Sample.store 0))).
Proof.
  destruct (channel_profile_absent_viewer Sample.store 0 "alice" Sample.alice
              eq_refl eq_refl) as (_ & Htest & _ & Hno).
  split; [exact Htest|exact Hno].
Defined.

(* ===================================================================== *)
(** * The listing *)
(* ===================================================================== *)

(** C6.  The pipeline of [getAllVideos] is made of the stages in their
    fixed order: the optional full-text search over title and description,
    the optional owner filter (a validation failure when the identifier is
    malformed, and then no pipeline at all), the published-only filter, the
    sort (requested field and direction when both are given, creation time
    descending otherwise) and the owner join that keeps username and avatar
    URL as one object.  Its answer is the page that the six steps of
    [Listing.listing] give when they are applied in that order, the slice
    of the page last. *)
Theorem getAllVideos_stage_order :
  forall (st : Store) (t : Z) (q : ListQuery),
    match getAllVideos_pipeline q with
    | Throw e =>
        e = ApiError 400 "Invalid userId"
        /\ Js.truthy (userId q) = true
        /\ isValidObjectId (str (userId q)) = false
    | Ok pipeline =>
        pipeline
        = (if Js.truthy (query q)
           then [SSearch "search-videos" (str (query q)) ["title"; "description"]]
           else [])
          ++ (if Js.truthy (userId q)
              then [SMatch [("owner", VId (castObjectId (str (userId q))))]]
              else [])
          ++ [SMatch [("isPublished", VBool true)]]
          ++ [SSort (fst (Listing.sort_spec (sortBy q) (sortType q)))
                (snd (Listing.sort_spec (sortBy q) (sortType q)))]
          ++ [ SLookup "users" "owner" "_id" "ownerDetails"
                 [SProject ["username"; "avatar.url"]];
               SUnwind "$ownerDetails" ]
    end
    /\ fst (getAllVideos q (alone st t))
       = obind (Listing.listing st q)
           (fun page => Ok {| statusCode := 200; data := page;
                              message := "Videos fetched successfully" |}).
Proof.
  intros st t q. split; [|apply getAllVideos_run].
  unfold getAllVideos_pipeline, Listing.sort_spec, owner_lookup.
  destruct (Js.truthy (query q)); destruct (Js.truthy (userId q));
    try destruct (isValidObjectId (str (userId q)));
    destruct (Js.truthy (sortBy q) && Js.truthy (sortType q));
    cbn [negb obind app fst snd]; auto.
Qed.

(** C7.  Whatever the search query, the sort, the owner filter and the
    page, and whatever the other requests write, every document that
    [getAllVideos] lists is a stored video whose published flag is true,
    with its owner attached, and carries [isPublished = true]. *)
Theorem getAllVideos_published_only :
  forall (q : ListQuery) (w : World) (resp : ApiResponse) (x : value),
    fst (getAllVideos q w) = Ok resp ->
    In x (listed resp) ->
    exists (v : Video) (u : User),
      In v (videos (seen w)) /\ v_isPublished v = true
      /\ x = VDoc (Listing.with_owner v u)
      /\ get "isPublished" (Listing.with_owner v u) = VBool true.
Proof.
  intros q w resp x H Hx. rewrite getAllVideos_run in H.
  destruct (Listing.listing (seen w) q) as [r|] eqn:Hl; [|discriminate].
  injection H as <-.
  destruct (listing_published _ _ _ _ _ Hl Hx) as (v & u & Hv & Hpub & ->).
  exists v, u. repeat split; try assumption.
  simpl. now rewrite Hpub.
Qed.

(** The sample holds a published video and an unpublished one of the same
    owner; the listing of that owner shows the published one. *)
Lemma getAllVideos_published_only_witness :
  exists (v : Video) (u : User),
    In v (videos Sample.store) /\ v_isPublished v = true
    /\ VDoc (Listing.with_owner Sample.public_video Sample.alice)
       = VDoc (Listing.with_owner v u)
    /\ get "isPublished" (Listing.with_owner v u) = VBool true.
Proof.
  refine (getAllVideos_published_only
            {| page := Some "1"; limit := Some "10"; query := Some "tides";
               sortBy := Some "views"; sortType := Some "asc";
               userId := Some Sample.alice_id |}
            (alone Sample.store 0) _ _ eq_refl _).
  simpl. left. reflexivity.
Defined.

(* ===================================================================== *)
(** * Validation before the store *)
(* ===================================================================== *)

Lemma snoc_neq {A} (l : list A) (x : A) : l ++ [x] <> l.
Proof.
  intros H. apply (f_equal (@List.length A)) in H.
  rewrite length_app in H. simpl in H. lia.
Qed.

(** A listing is turned away before the store exactly when an owner
    identifier is given and malformed; page and limit play no part. *)
Lemma getAllVideos_rejected_iff (q : ListQuery) (w : World) :
  rejected_before_store w (getAllVideos q w)
  <-> Js.truthy (userId q) = true /\ isValidObjectId (str (userId q)) = false.
Proof.
  unfold rejected_before_store, getAllVideos, getAllVideos_pipeline.
  destruct (Js.truthy (userId q)); [destruct (isValidObjectId _)|];
    cbn [negb obind]; split.
  - intros [msg H]. rewrite bind_run in H. unfold aggregatePaginate, dbcall in H.
    destruct (obind _ _) in H; injection H as _ H;
      apply (f_equal trace) in H; cbn [trace] in H; now apply snoc_neq in H.
  - intros [_ H]. discriminate H.
  - intros _. split; reflexivity.
  - intros _. now exists "Invalid userId".
  - intros [msg H]. rewrite bind_run in H. unfold aggregatePaginate, dbcall in H.
    destruct (obind _ _) in H; injection H as _ H;
      apply (f_equal trace) in H; cbn [trace] in H; now apply snoc_neq in H.
  - intros [H _]. discriminate H.
Qed.

(** C9, as the specification states it, fails on a listing whose page and
    limit are malformed: the request is not turned away, the store is
    called and a page is answered. *)
Lemma malformed_pagination_counterexample :
  Js.parseInt "abc" = None
  /\ ~ rejected_before_store (alone Sample.store 0)
         (getAllVideos {| page := Some "abc"; limit := Some "-5"; query := None;
                          sortBy := None; sortType := None; userId := None |}
            (alone Sample.store 0)).
Proof.
  split; [reflexivity|].
  intros [msg H]. vm_compute in H. discriminate H.
Qed.

(** C9, amended.  In [getVideoById], [getVideoByIdForGuest],
    [updateVideoViews] and, for the owner filter, [getAllVideos], a
    malformed identifier is turned away with a validation failure (status
    400) before any call on the store.  Pagination parameters are not
    validated: a listing is turned away before the store only for a
    malformed owner identifier, whatever page and limit are. *)
Theorem malformed_identifier_rejected_first :
  forall (w : World) (id : string),
    isValidObjectId id = false ->
    (forall guest viewer, rejected_before_store w (getVideoById id guest viewer w))
    /\ rejected_before_store w (getVideoByIdForGuest id w)
    /\ (forall viewer, rejected_before_store w (updateVideoViews id viewer w))
    /\ (forall q, userId q = Some id -> id <> "" ->
                  rejected_before_store w (getAllVideos q w))
    /\ (forall q, rejected_before_store w (getAllVideos q w)
                  <-> Js.truthy (userId q) = true
                      /\ isValidObjectId (str (userId q)) = false).
Proof.
  intros w id Hbad. split; [|split; [|split; [|split]]].
  - unfold rejected_before_store. intros guest viewer. unfold getVideoById. rewrite Hbad.
    destruct (Js.truthy_str (Js.trim id)); cbn [negb]; eexists; reflexivity.
  - unfold rejected_before_store, getVideoByIdForGuest. rewrite Hbad.
    destruct (Js.truthy_str (Js.trim id)); cbn [negb]; eexists; reflexivity.
  - unfold rejected_before_store. intros viewer. unfold updateVideoViews. rewrite Hbad. eexists; reflexivity.
  - intros q Hq Hne. apply getAllVideos_rejected_iff. rewrite Hq. cbn [str Js.truthy].
    split; [|exact Hbad]. destruct id; [now elim Hne|reflexivity].
  - intros q. apply getAllVideos_rejected_iff.
Qed.

Lemma malformed_identifier_rejected_first_witness :
  rejected_before_store (alone Sample.store 0)
    (getVideoById "not-an-id" None None (alone Sample.store 0))
  /\ rejected_before_store (alone Sample.store 0)
       (updateVideoViews "not-an-id" (Some Sample.bob_id) (alone Sample.store 0)).
Proof.
  destruct (malformed_identifier_rejected_first (alone Sample.store 0)
              "not-an-id" eq_refl) as (H1 & _ & H3 & _).
  split; [apply H1|apply H3].
Defined.

(** [deleteVideo], outside the core, has no such test: a malformed
    identifier reaches [Video.findById], which fails in the cast. *)
Example deleteVideo_malformed_identifier :
  deleteVideo "not-an-id" (alone Sample.store 0)
  = (Throw (CastError "_id"),
     {| store := Sample.store; clock := 0;
        trace := [DbCall "Video" "findById"]; env := [] |}).
Proof. reflexivity. Qed.

(* ===================================================================== *)
(** * The watch-history upsert *)
(* ===================================================================== *)

(** For a viewer and a video, named by its identifier as the service
    renders it: when the viewer's history has no entry for the video,
    [updateVideoViews] raises the video's view counter by exactly one and
    appends the entry [{video, watchedAt = now}]; when it has one, only the
    [watchedAt] of that entry is set to now and the videos are left as they
    are.  Hence two calls in a row, starting without an entry, raise the
    counter once and leave one entry for the video, whose [watchedAt] is the
    time of the second call. *)
Lemma upsert_rendered :
  forall (st : Store) (t1 t2 : Z) (vid uid : ObjectId) (v : Video) (u : User),
    canonical vid = true ->
    find (has_id vid) (videos st) = Some v ->
    find (UserModel.user_has_id uid) (users st) = Some u ->
    (entries_for vid (u_watchHistory u) = [] ->
       (exists r, answer (updateVideoViews vid (Some uid)) st t1 = Ok r)
       /\ views_of (store_after (updateVideoViews vid (Some uid)) st t1) vid
          = Some (v_views v + 1)
       /\ history_of (store_after (updateVideoViews vid (Some uid)) st t1) uid
          = u_watchHistory u ++ [{| h_video := vid; h_watchedAt := t1 |}]
       /\ (exists r,
              answer (updateVideoViews vid (Some uid))
                (store_after (updateVideoViews vid (Some uid)) st t1) t2 = Ok r)
       /\ views_of
            (store_after (updateVideoViews vid (Some uid))
               (store_after (updateVideoViews vid (Some uid)) st t1) t2) vid
          = Some (v_views v + 1)
       /\ entries_for vid
            (history_of
               (store_after (updateVideoViews vid (Some uid))
                  (store_after (updateVideoViews vid (Some uid)) st t1) t2) uid)
          = [{| h_video := vid; h_watchedAt := t2 |}]
       /\ history_of
            (store_after (updateVideoViews vid (Some uid))
               (store_after (updateVideoViews vid (Some uid)) st t1) t2) uid
          = u_watchHistory u ++ [{| h_video := vid; h_watchedAt := t2 |}])
    /\ (forall (h1 h2 : list HistoryEntry) (e : HistoryEntry),
          u_watchHistory u = h1 ++ e :: h2 ->
          h_video e = vid ->
          entries_for vid h1 = [] ->
          (exists r, answer (updateVideoViews vid (Some uid)) st t1 = Ok r)
          /\ videos (store_after (updateVideoViews vid (Some uid)) st t1)
             = videos st
          /\ views_of (store_after (updateVideoViews vid (Some uid)) st t1) vid
             = Some (v_views v)
          /\ history_of (store_after (updateVideoViews vid (Some uid)) st t1) uid
             = h1 ++ {| h_video := vid; h_watchedAt := t1 |} :: h2).
Proof.
  intros st t1 t2 vid uid v u Hc Hv Hu. split.
  - intros Hnone.
    assert (Hfind : find (watched vid) (u_watchHistory u) = None)
      by exact (find_none_filter _ _ Hnone).
    pose proof (upsert_absent st t1 vid uid v u Hc Hv Hu Hfind) as H1.
    cbv zeta in H1. unfold answer, store_after. rewrite H1. cbn [fst snd store].
    set (entry1 := {| h_video := vid; h_watchedAt := t1 |}) in *.
    set (u1 := set_history u (u_watchHistory u ++ [entry1])) in *.
    set (st1 := with_users _ _) in *.
    assert (Hv1 : find (has_id vid) (videos st1)
                  = Some (VideoModel.touch t1 (VideoModel.inc_views 1 v))).
    { unfold st1. cbn [videos with_users with_videos].
      apply (find_update_first _
               (fun x => VideoModel.touch t1 (VideoModel.inc_views 1 x)) _ _ Hv).
      exact (find_holds _ _ _ Hv). }
    assert (Hu1 : find (UserModel.user_has_id uid) (users st1) = Some u1).
    { unfold st1. cbn [users with_users]. now apply user_after_save. }
    assert (Hseen : find (watched vid) (u_watchHistory u1) = Some entry1).
    { unfold u1. cbn [u_watchHistory set_history].
      apply find_skip; [exact Hnone|]. unfold watched, toString. cbn [h_video entry1].
      apply String.eqb_refl. }
    pose proof (upsert_present st1 t2 vid uid _ u1 Hc Hv1 Hu1 entry1 Hseen) as H2.
    cbv zeta in H2. rewrite H2. cbn [fst snd store].
    assert (Hhist : update_first (watched vid) (set_watchedAt t2) (u_watchHistory u1)
                    = u_watchHistory u ++ [{| h_video := vid; h_watchedAt := t2 |}]).
    { unfold u1. cbn [u_watchHistory set_history].
      rewrite update_first_skip; [reflexivity|exact Hnone|].
      unfold watched, toString. cbn [h_video entry1]. apply String.eqb_refl. }
    rewrite Hhist.
    split; [eexists; reflexivity|]. split; [exact (f_equal (option_map v_views) Hv1)|].
    split; [unfold history_of; now rewrite Hu1|].
    split; [eexists; reflexivity|].
    split; [unfold views_of; cbn [videos with_users]; now rewrite Hv1|].
    unfold history_of. cbn [users with_users].
    rewrite (user_after_save _ _ _ _ Hu1). cbn [u_watchHistory set_history].
    split; [|reflexivity].
    unfold entries_for in *. rewrite filter_app, Hnone. cbn [filter h_video app].
    now rewrite String.eqb_refl.
  - intros h1 h2 e Hsplit He Hnone.
    assert (Hseen : find (watched vid) (u_watchHistory u) = Some e).
    { rewrite Hsplit. apply find_skip; [exact Hnone|].
      unfold watched, toString. rewrite He. apply String.eqb_refl. }
    pose proof (upsert_present st t1 vid uid v u Hc Hv Hu e Hseen) as H1.
    cbv zeta in H1. unfold answer, store_after. rewrite H1. cbn [fst snd store].
    split; [eexists; reflexivity|]. split; [reflexivity|].
    split; [unfold views_of; cbn [videos with_users]; now rewrite Hv|].
    unfold history_of. cbn [users with_users].
    rewrite (user_after_save _ _ _ _ Hu). cbn [u_watchHistory set_history].
    rewrite Hsplit, update_first_skip; [|exact Hnone|].
    + unfold set_watchedAt. now rewrite He.
    + unfold watched, toString. rewrite He. apply String.eqb_refl.
Qed.

(** The identifier a valid string is cast to is in the rendering of the
    service. *)
Lemma cast_canonical (s : string) :
  isValidObjectId s = true -> canonical (castObjectId s) = true.
Proof.
  unfold isValidObjectId, canonical, castObjectId. intros H.
  apply andb_true_iff in H as [Hl Hh].
  rewrite toLowerCase_length, Hl. cbn [andb]. clear Hl.
  induction s as [|c r IH]; simpl in *; [reflexivity|].
  apply andb_true_iff in Hh as [Hc Hr].
  now rewrite (lower_ascii_hex c Hc), IH.
Qed.

(** The test of [updateVideoViews] on a history of rendered references:
    a string that is not a rendering matches none of them. *)
Lemma watched_rendered (videoId : string) (h : list HistoryEntry) :
  canonical videoId = false ->
  forallb (fun e => canonical (h_video e)) h = true ->
  find (watched videoId) h = None.
Proof.
  intros Hn. induction h as [|e r IH]; simpl; intros H; [reflexivity|].
  apply andb_true_iff in H as [He Hr].
  unfold watched at 1. unfold toString.
  destruct (String.eqb (h_video e) videoId) eqn:E; [|now apply IH].
  apply String.eqb_eq in E. congruence.
Qed.

(** C1.  [updateVideoViews] called twice in a row for a stored viewer and
    a stored video the viewer's history has no entry for.  The first call
    raises the counter by one and appends the entry
    [{video, watchedAt = now}].  The second call depends on how the request
    spells the identifier: spelled as the service renders it, the counter
    stays and the one entry gets the time of the second call; spelled
    otherwise (a valid identifier with an upper-case digit), the entry of
    the first call is not recognised, so the counter is raised again and a
    second entry for the same video is appended. *)
Theorem updateVideoViews_upsert :
  forall (st : Store) (t1 t2 : Z) (videoId : string) (uid : ObjectId)
         (v : Video) (u : User),
    isValidObjectId videoId = true ->
    find (has_id (castObjectId videoId)) (videos st) = Some v ->
    find (UserModel.user_has_id uid) (users st) = Some u ->
    forallb (fun e => canonical (h_video e)) (u_watchHistory u) = true ->
    entries_for (castObjectId videoId) (u_watchHistory u) = [] ->
    let vid := castObjectId videoId in
    let once := store_after (updateVideoViews videoId (Some uid)) st t1 in
    let twice := store_after (updateVideoViews videoId (Some uid)) once t2 in
    (exists r, answer (updateVideoViews videoId (Some uid)) st t1 = Ok r)
    /\ (exists r, answer (updateVideoViews videoId (Some uid)) once t2 = Ok r)
    /\ views_of once vid = Some (v_views v + 1)
    /\ history_of once uid
       = u_watchHistory u ++ [{| h_video := vid; h_watchedAt := t1 |}]
    /\ if canonical videoId
       then views_of twice vid = Some (v_views v + 1)
            /\ history_of twice uid
               = u_watchHistory u ++ [{| h_video := vid; h_watchedAt := t2 |}]
       else views_of twice vid = Some (v_views v + 2)
            /\ history_of twice uid
               = u_watchHistory u
                 ++ [ {| h_video := vid; h_watchedAt := t1 |};
                      {| h_video := vid; h_watchedAt := t2 |} ].
Proof.
  intros st t1 t2 videoId uid v u Hvalid Hv Hu Hrendered Hnone vid once twice.
  destruct (canonical videoId) eqn:Hc.
  - (* the rendering: the claim's behaviour *)
    assert (Hcast : castObjectId videoId = videoId)
      by exact (canonical_cast _ Hc).
    unfold twice, once, vid. clear twice once vid. rewrite Hcast in *.
    destruct (upsert_rendered st t1 t2 videoId uid v u Hc Hv Hu) as [H _].
    destruct (H Hnone) as (A1 & V1 & H1 & A2 & V2 & _ & H2).
    repeat split; assumption.
  - (* another spelling: every call is a first view *)
    assert (Hfind : find (watched videoId) (u_watchHistory u) = None)
      by exact (watched_rendered _ _ Hc Hrendered).
    destruct (upsert_run st t1 videoId uid v u Hvalid Hv Hu)
      as (r1 & calls1 & Hrun1).
    rewrite Hfind in Hrun1. fold vid in Hrun1.
    set (entry1 := {| h_video := vid; h_watchedAt := t1 |}) in *.
    set (u1 := set_history u (u_watchHistory u ++ [entry1])) in *.
    set (v1 := VideoModel.touch t1 (VideoModel.inc_views 1 v)).
    assert (Honce : once
                    = with_users
                        (with_videos st
                           (update_first (has_id vid)
                              (fun x => VideoModel.touch t1 (VideoModel.inc_views 1 x))
                              (videos st)))
                        (update_first (UserModel.user_has_id uid)
                           (fun _ => u1) (users st)))
      by (unfold once, store_after; now rewrite Hrun1).
    assert (Hv1 : find (has_id vid) (videos once) = Some v1).
    { rewrite Honce. cbn [videos with_users with_videos].
      apply (find_update_first _
               (fun x => VideoModel.touch t1 (VideoModel.inc_views 1 x)) _ _ Hv).
      exact (find_holds _ _ _ Hv). }
    assert (Hu1 : find (UserModel.user_has_id uid) (users once) = Some u1).
    { rewrite Honce. cbn [users with_users]. now apply user_after_save. }
    assert (Hrendered1 : forallb (fun e => canonical (h_video e))
                           (u_watchHistory u1) = true).
    { unfold u1. cbn [u_watchHistory set_history].
      rewrite forallb_app, Hrendered. cbn [forallb h_video entry1 andb].
      unfold vid. now rewrite (cast_canonical _ Hvalid). }
    assert (Hfind1 : find (watched videoId) (u_watchHistory u1) = None)
      by exact (watched_rendered _ _ Hc Hrendered1).
    destruct (upsert_run once t2 videoId uid v1 u1 Hvalid Hv1 Hu1)
      as (r2 & calls2 & Hrun2).
    rewrite Hfind1 in Hrun2. fold vid in Hrun2.
    split; [exists r1; unfold answer; now rewrite Hrun1|].
    split; [exists r2; unfold answer; now rewrite Hrun2|].
    split; [unfold views_of; now rewrite Hv1|].
    split; [unfold history_of; now rewrite Hu1|].
    unfold twice, store_after. rewrite Hrun2. cbn [snd store]. split.
    + unfold views_of. cbn [videos with_users with_videos].
      rewrite (find_update_first _
                 (fun x => VideoModel.touch t2 (VideoModel.inc_views 1 x))
                 _ _ Hv1 (find_holds _ _ _ Hv1)).
      cbn [option_map v_views VideoModel.touch VideoModel.inc_views v1].
      f_equal. lia.
    + unfold history_of. cbn [users with_users].
      rewrite (user_after_save _ _ _ _ Hu1). cbn [u_watchHistory set_history].
      unfold u1. cbn [u_watchHistory set_history].
      now rewrite <- app_assoc.
Qed.

(** Bob, whose history is empty, watches the published video of the sample
    at time 10 and again at time 20, the identifier written in upper
    case. *)
Lemma updateVideoViews_upsert_witness :
  views_of
    (store_after (updateVideoViews "0123456789ABCDEF01234567" (Some Sample.bob_id))
       (store_after (updateVideoViews "0123456789ABCDEF01234567" (Some Sample.bob_id))
          Sample.store 10) 20) Sample.public_id
  = Some (5 + 2)
  /\ history_of
       (store_after (updateVideoViews "0123456789ABCDEF01234567" (Some Sample.bob_id))
          (store_after (updateVideoViews "0123456789ABCDEF01234567" (Some Sample.bob_id))
             Sample.store 10) 20) Sample.bob_id
     = [] ++ [ {| h_video := Sample.public_id; h_watchedAt := 10 |};
               {| h_video := Sample.public_id; h_watchedAt := 20 |} ].
Proof.
  exact (proj2 (proj2 (proj2 (proj2
    (updateVideoViews_upsert Sample.store 10 20 "0123456789ABCDEF01234567"
       Sample.bob_id Sample.public_video Sample.bob
       eq_refl eq_refl eq_refl eq_refl eq_refl))))).
Defined.

(* ===================================================================== *)
(** * The deletion of a video *)
(* ===================================================================== *)

(** C8.  For a stored video with its two media objects, [deleteVideo]
    running alone succeeds; afterwards no Like and no Comment refers to the
    video (the others are kept), the removal of both media objects has been
    requested, all of it after the two calls of the primary delete.  Of the
    two detail fetches, [getVideoById] then answers Not-Found for the
    identifier, while [getVideoByIdForGuest] answers 200 without data: its
    test for an empty result is a test on the array itself.  Whatever the
    other requests write meanwhile, a deletion that fails has failed at the
    lookup or at the primary delete: no call of the cascade has been made
    and the store is as the other requests left it. *)
Theorem deleteVideo_cascade :
  forall (st : Store) (t : Z) (videoId : string) (v : Video),
    isValidObjectId videoId = true ->
    find (has_id (castObjectId videoId)) (videos st) = Some v ->
    List.length (filter (has_id (castObjectId videoId)) (videos st)) = 1%nat ->
    Js.truthy_str (fileId (v_video v)) = true ->
    Js.truthy_str (fileId (v_thumbnail v)) = true ->
    (answer (deleteVideo videoId) st t
     = Ok {| statusCode := 200; data := VNull;
             message := "Video deleted successfully" |}
     /\ likes_of (store_after (deleteVideo videoId) st t) (castObjectId videoId) = []
     /\ likes (store_after (deleteVideo videoId) st t)
        = filter (fun l => negb (String.eqb (l_video l) (castObjectId videoId)))
            (likes st)
     /\ filter (fun c => String.eqb (c_video c) (castObjectId videoId))
          (comments (store_after (deleteVideo videoId) st t)) = []
     /\ comments (store_after (deleteVideo videoId) st t)
        = filter (fun c => negb (String.eqb (c_video c) (castObjectId videoId)))
            (comments st)
     /\ find (has_id (castObjectId videoId))
          (videos (store_after (deleteVideo videoId) st t)) = None
     /\ (exists cascade : list event,
            trace (snd (deleteVideo videoId (alone st t)))
            = primary_delete ++ cascade
            /\ Permutation cascade
                 [ DbCall "Like" "deleteMany"; DbCall "Comment" "deleteMany";
                   CloudDestroy (fileId (v_video v));
                   CloudDestroy (fileId (v_thumbnail v)) ])
     /\ (forall guest viewer t',
           answer (getVideoById videoId guest viewer)
             (store_after (deleteVideo videoId) st t) t'
           = Throw (ApiError 404 "Video not found"))
     /\ forall t',
          answer (getVideoByIdForGuest videoId)
            (store_after (deleteVideo videoId) st t) t'
          = Ok {| statusCode := 200; data := VMissing;
                  message := "Video found" |})
    /\ forall (w : World) (e : error),
         fst (deleteVideo videoId w) = Throw e ->
         (e = ApiError 404 "Video not found"
          /\ trace (snd (deleteVideo videoId w))
             = trace w ++ [DbCall "Video" "findById"]
          /\ store (snd (deleteVideo videoId w)) = others_wrote 1 w)
         \/ (e = ApiError 500 "Video deletion failed"
             /\ trace (snd (deleteVideo videoId w)) = trace w ++ primary_delete
             /\ store (snd (deleteVideo videoId w)) = others_wrote 2 w).
Proof.
  intros st t videoId v Hvalid Hfind Hone Hf1 Hf2.
  split; [|intros w e; now apply delete_failure].
  unfold answer, store_after.
  rewrite (delete_alone st t videoId v Hvalid Hfind Hf1 Hf2).
  unfold with_comments, with_likes, with_videos.
  cbn [fst snd store trace likes comments videos].
  assert (Hgone : filter (has_id (castObjectId videoId))
                    (remove_first (has_id (castObjectId videoId)) (videos st)) = []).
  { rewrite filter_remove_first.
    destruct (filter _ (videos st)) as [|a [|b r]]; try discriminate Hone.
    reflexivity. }
  split; [reflexivity|].
  split.
  { unfold likes_of. cbn [likes]. rewrite filter_filter_none; [reflexivity|].
    intros l. now destruct (String.eqb _ _). }
  split; [reflexivity|].
  split.
  { rewrite filter_filter_none; [reflexivity|].
    intros c. now destruct (String.eqb _ _). }
  split; [reflexivity|].
  split; [now apply find_none_filter|].
  split; [eexists; split; [reflexivity|apply Permutation_refl]|].
  split.
  - intros guest viewer t'.
    unfold getVideoById.
    rewrite (valid_not_blank _ Hvalid), Hvalid. cbn [negb].
    rewrite bind_run, video_aggregate_alone, aggregate_detail.
    cbn [videos]. now rewrite Hgone.
  - intros t'.
    unfold getVideoByIdForGuest.
    rewrite (valid_not_blank _ Hvalid), Hvalid. cbn [negb].
    rewrite bind_run, video_aggregate_alone, aggregate_guest.
    cbn [videos]. now rewrite filter_and, Hgone.
Qed.

(** The published video of the sample is deleted and then asked for in
    both ways; and it is deleted again while another request removes it
    between the lookup and the primary delete, which then fails and leaves
    the likes alone. *)
Lemma deleteVideo_cascade_witness :
  likes_of (store_after (deleteVideo Sample.public_id) Sample.store 0)
    Sample.public_id = []
  /\ answer (getVideoById Sample.public_id None None)
       (store_after (deleteVideo Sample.public_id) Sample.store 0) 1
     = Throw (ApiError 404 "Video not found")
  /\ answer (getVideoByIdForGuest Sample.public_id)
       (store_after (deleteVideo Sample.public_id) Sample.store 0) 1
     = Ok {| statusCode := 200; data := VMissing; message := "Video found" |}
  /\ trace (snd (deleteVideo Sample.public_id
                   {| store := Sample.store; clock := 0; trace := [];
                      env := [fun s => s; fun s => with_videos s []] |}))
     = primary_delete.
Proof.
  destruct (deleteVideo_cascade Sample.store 0 Sample.public_id
              Sample.public_video eq_refl eq_refl eq_refl eq_refl eq_refl)
    as [(_ & Hlikes & _ & _ & _ & _ & _ & Hfetch & Hguest) Hfail].
  split; [exact Hlikes|]. split; [apply Hfetch|]. split; [apply Hguest|].
  destruct (Hfail {| store := Sample.store; clock := 0; trace := [];
                     env := [fun s => s; fun s => with_videos s []] |}
              (ApiError 500 "Video deletion failed") eq_refl)
    as [(Habs & _)|(_ & Htrace & _)]; [discriminate Habs|exact Htrace].
Defined.

(* ===================================================================== *)
(** * Further properties: the video detail *)
(* ===================================================================== *)

Lemma filter_of_find_none {A} (p : A -> bool) (l : list A) :
  find p l = None -> filter p l = [].
Proof.
  induction l as [|a r IH]; simpl; [reflexivity|].
  destruct (p a); [discriminate|exact IH].
Qed.

(** X1.  [getVideoById] on a valid identifier that no stored video carries
    answers Not-Found (404), after the one aggregation and without a write. *)
Theorem getVideoById_not_found :
  forall (st : Store) (t : Z) (videoId : string) (guest : option string)
         (viewer : option ObjectId),
    isValidObjectId videoId = true ->
    find (has_id (castObjectId videoId)) (videos st) = None ->
    getVideoById videoId guest viewer (alone st t)
    = (Throw (ApiError 404 "Video not found"),
       {| store := st; clock := t; trace := [DbCall "Video" "aggregate"];
          env := [] |}).
Proof.
  intros st t videoId guest viewer Hvalid Hnone.
  unfold getVideoById.
  rewrite (valid_not_blank _ Hvalid), Hvalid. cbn [negb].
  rewrite bind_run, video_aggregate_alone, aggregate_detail.
  now rewrite (filter_of_find_none _ _ Hnone).
Qed.

(** The sample has no video under the identifier of nobody. *)
Lemma getVideoById_not_found_witness :
  fst (getVideoById Sample.nobody_id None (Some Sample.bob_id)
         (alone Sample.store 0))
  = Throw (ApiError 404 "Video not found").
Proof.
  exact (f_equal fst
           (getVideoById_not_found Sample.store 0 Sample.nobody_id None
              (Some Sample.bob_id) eq_refl eq_refl)).
Defined.

Lemma is_member_iff (i : ObjectId) (ids : list ObjectId) :
  is_member (Some i) ids = true <-> In i ids.
Proof.
  unfold is_member. rewrite existsb_exists. split.
  - intros (x & Hx & E). apply String.eqb_eq in E. now subst.
  - intros H. exists i. split; [exact H|apply String.eqb_refl].
Qed.

(** X2.  The viewer's flags in the detail [getVideoById] answers.  Without
    the guest flag, [isLiked] is true exactly when a Like of the video by
    the viewer is stored, and the owner's [isSubscribed] exactly when a
    Subscription of the viewer to the owner is stored; with the guest flag
    both are false whatever is stored. *)
Theorem getVideoById_viewer_flags :
  forall (st : Store) (t : Z) (videoId : string) (me : ObjectId)
         (v : Video) (u : User),
    isValidObjectId videoId = true ->
    find (has_id (castObjectId videoId)) (videos st) = Some v ->
    find (UserModel.user_has_id (v_owner v)) (users st) = Some u ->
    (exists d : doc,
        fst (getVideoById videoId None (Some me) (alone st t))
        = Ok {| statusCode := 200; data := VDoc d; message := "Video found" |}
        /\ (get "isLiked" d = VBool true
            <-> exists l, In l (likes st) /\ l_video l = v_id v /\ l_likedBy l = me)
        /\ (field "owner.isSubscribed" d = VBool true
            <-> exists s, In s (subscriptions st)
                          /\ s_channel s = u_id u /\ s_subscriber s = me))
    /\ (exists d : doc,
           fst (getVideoById videoId (Some "true") (Some me) (alone st t))
           = Ok {| statusCode := 200; data := VDoc d; message := "Video found" |}
           /\ get "isLiked" d = VBool false
           /\ field "owner.isSubscribed" d = VBool false).
Proof.
  intros st t videoId me v u Hvalid Hv Hu.
  assert (Hrun : forall guest,
             fst (getVideoById videoId guest (Some me) (alone st t))
             = Ok {| statusCode := 200;
                     data := VDoc (detail_view st (is_true guest) (Some me) v);
                     message := "Video found" |}).
  { intros guest. unfold getVideoById.
    rewrite (valid_not_blank _ Hvalid), Hvalid. cbn [negb].
    rewrite bind_run, video_aggregate_alone, aggregate_detail.
    destruct (find_filter_head _ _ _ Hv) as [r ->]. reflexivity. }
  destruct (find_filter_head _ _ _ Hu) as [us Hus].
  split.
  - exists (detail_view st false (Some me) v). split; [apply (Hrun None)|].
    unfold detail_view, owners_of. rewrite Hus.
    cbn [owner_field app get String.eqb Ascii.eqb Bool.eqb field Js.split_dots
         get_path fold_left step owner_summary].
    split.
    + split.
      * intros [= H]. apply is_member_iff, in_map_iff in H as (l & E & Hl).
        unfold likes_of in Hl. apply filter_In in Hl as [Hl Hvid].
        apply String.eqb_eq in Hvid. now exists l.
      * intros (l & Hl & Hvid & Hby). f_equal.
        apply is_member_iff, in_map_iff. exists l. split; [exact Hby|].
        unfold likes_of. apply filter_In. split; [exact Hl|].
        now apply String.eqb_eq.
    + split.
      * intros [= H]. apply is_member_iff, in_map_iff in H as (s & E & Hs).
        unfold subscribers_of in Hs. apply filter_In in Hs as [Hs Hch].
        apply String.eqb_eq in Hch. now exists s.
      * intros (s & Hs & Hch & Hby). f_equal.
        apply is_member_iff, in_map_iff. exists s. split; [exact Hby|].
        unfold subscribers_of. apply filter_In. split; [exact Hs|].
        now apply String.eqb_eq.
  - exists (detail_view st true (Some me) v). split; [apply (Hrun (Some "true"))|].
    unfold detail_view, owners_of. rewrite Hus. split; reflexivity.
Qed.

(** Bob likes the draft of the sample and subscribes to its owner; alice
    does neither. *)
Lemma getVideoById_viewer_flags_witness :
  (exists d : doc,
      fst (getVideoById Sample.draft_id None (Some Sample.bob_id)
             (alone Sample.store 0))
      = Ok {| statusCode := 200; data := VDoc d; message := "Video found" |}
      /\ get "isLiked" d = VBool true
      /\ field "owner.isSubscribed" d = VBool true)
  /\ (exists d : doc,
         fst (getVideoById Sample.draft_id (Some "true") (Some Sample.bob_id)
                (alone Sample.store 0))
         = Ok {| statusCode := 200; data := VDoc d; message := "Video found" |}
         /\ get "isLiked" d = VBool false
         /\ field "owner.isSubscribed" d = VBool false).
Proof.
  destruct (getVideoById_viewer_flags Sample.store 0 Sample.draft_id
              Sample.bob_id Sample.draft_video Sample.alice
              eq_refl eq_refl eq_refl) as [(d & Hd & Hliked & Hsub) Hguest].
  split; [|exact Hguest].
  exists d. split; [exact Hd|]. split.
  - apply Hliked. eexists. split; [right; left; reflexivity|]. split; reflexivity.
  - apply Hsub. eexists. split; [left; reflexivity|]. split; reflexivity.
Defined.

(* ===================================================================== *)
(** * Further properties: the listing *)
(* ===================================================================== *)

(** What a listed document is: a stored video that passed every filter,
    with a stored user that its owner reference designates. *)
Lemma listing_listed (st : Store) (q : ListQuery) (r : value) (msg : string)
    (x : value) :
  Listing.listing st q = Ok r ->
  In x (listed {| statusCode := 200; data := r; message := msg |}) ->
  exists (v : Video) (u : User),
    In v (videos st) /\ In u (users st) /\ u_id u = v_owner v
    /\ x = VDoc (Listing.with_owner v u)
    /\ (Js.truthy (userId q) = true ->
        v_owner v = castObjectId (str (userId q)))
    /\ (Js.truthy (query q) = true ->
        search_score st "search-videos" (str (query q)) ["title"; "description"]
          (video_doc v) <> None).
Proof.
  unfold Listing.listing. intros H Hx.
  destruct (Listing.owner_filter _ _) as [vs2|] eqn:H2; [|discriminate].
  cbn [obind] in H.
  destruct (Listing.sorted _ _ _) as [vs4|] eqn:H4; [|discriminate].
  cbn [obind] in H.
  destruct (paginate_listed _ _ _ _ _ _ H Hx) as (d & -> & Hd).
  unfold Listing.owner_join in Hd.
  apply in_flat_map in Hd as (v & Hv & Hd).
  apply in_map_iff in Hd as (u & <- & Hu).
  unfold owners_of in Hu. apply filter_In in Hu as [Hu Hid].
  apply String.eqb_eq in Hid.
  exists v, u.
  assert (Hv3 : In v (Listing.published_only vs2)).
  { unfold Listing.sorted in H4. destruct (Listing.sort_spec _ _) as [key dir].
    destruct (valid_field_path key); [|discriminate].
    injection H4 as <-. eapply isort_in, Hv. }
  apply filter_In in Hv3 as [Hv2 _].
  assert (Hv1 : In v (Listing.full_text_search st (query q) (videos st))
                /\ (Js.truthy (userId q) = true ->
                    v_owner v = castObjectId (str (userId q)))).
  { unfold Listing.owner_filter in H2.
    destruct (Js.truthy (userId q)); [|injection H2 as <-; now split].
    destruct (isValidObjectId _); [|discriminate].
    injection H2 as <-. apply filter_In in Hv2 as [Hv2 Ho].
    apply String.eqb_eq in Ho. now split. }
  destruct Hv1 as [Hv1 Howner].
  unfold Listing.full_text_search in Hv1.
  destruct (Js.truthy (query q)).
  - apply isort_in in Hv1. apply filter_In in Hv1 as [Hv1 Hs].
    repeat split; try assumption.
    intros _ E. now rewrite E in Hs.
  - repeat split; try assumption. discriminate.
Qed.

(** X3.  With an owner filter, every video [getAllVideos] lists is owned by
    the user the filter names; with a search query, every one is a video
    the full-text index matches for the query. *)
Theorem getAllVideos_filters_respected :
  forall (q : ListQuery) (w : World) (resp : ApiResponse) (x : value),
    fst (getAllVideos q w) = Ok resp ->
    In x (listed resp) ->
    exists (v : Video) (u : User),
      In v (videos (seen w))
      /\ x = VDoc (Listing.with_owner v u)
      /\ (Js.truthy (userId q) = true ->
          v_owner v = castObjectId (str (userId q)))
      /\ (Js.truthy (query q) = true ->
          search_score (seen w) "search-videos" (str (query q))
            ["title"; "description"] (video_doc v) <> None).
Proof.
  intros q w resp x H Hx. rewrite getAllVideos_run in H.
  destruct (Listing.listing (seen w) q) as [r|] eqn:Hl; [|discriminate].
  injection H as <-.
  destruct (listing_listed _ _ _ _ _ Hl Hx)
    as (v & u & Hv & _ & _ & -> & Ho & Hs).
  exists v, u. repeat split; assumption.
Qed.

Lemma getAllVideos_filters_respected_witness :
  exists (v : Video) (u : User),
    In v (videos Sample.store)
    /\ VDoc (Listing.with_owner Sample.public_video Sample.alice)
       = VDoc (Listing.with_owner v u)
    /\ (true = true -> v_owner v = Sample.alice_id)
    /\ (true = true ->
        search_score Sample.store "search-videos" "tides"
          ["title"; "description"] (video_doc v) <> None).
Proof.
  refine (getAllVideos_filters_respected
            {| page := None; limit := None; query := Some "tides";
               sortBy := None; sortType := None;
               userId := Some Sample.alice_id |}
            (alone Sample.store 0) _ _ eq_refl _).
  simpl. left. reflexivity.
Defined.

(** X4.  Every video [getAllVideos] lists carries, as [ownerDetails], the
    identifier, username and avatar URL of a stored user who is its owner;
    so a video whose owner is not stored is never listed. *)
Theorem getAllVideos_owner_attached :
  forall (q : ListQuery) (w : World) (resp : ApiResponse) (x : value),
    fst (getAllVideos q w) = Ok resp ->
    In x (listed resp) ->
    exists (v : Video) (u : User) (d : doc),
      x = VDoc d
      /\ In v (videos (seen w)) /\ get "_id" d = VId (v_id v)
      /\ In u (users (seen w)) /\ u_id u = v_owner v
      /\ get "ownerDetails" d
         = VDoc [ ("_id", VId (u_id u)); ("username", VStr (u_username u));
                  ("avatar", VDoc [("url", VStr (url (u_avatar u)))]) ].
Proof.
  intros q w resp x H Hx. rewrite getAllVideos_run in H.
  destruct (Listing.listing (seen w) q) as [r|] eqn:Hl; [|discriminate].
  injection H as <-.
  destruct (listing_listed _ _ _ _ _ Hl Hx)
    as (v & u & Hv & Hu & Hid & -> & _).
  exists v, u, (Listing.with_owner v u). repeat split; assumption.
Qed.

Lemma getAllVideos_owner_attached_witness :
  exists (v : Video) (u : User) (d : doc),
    VDoc (Listing.with_owner Sample.public_video Sample.alice) = VDoc d
    /\ In v (videos Sample.store) /\ get "_id" d = VId (v_id v)
    /\ In u (users Sample.store) /\ u_id u = v_owner v
    /\ get "ownerDetails" d
       = VDoc [ ("_id", VId (u_id u)); ("username", VStr (u_username u));
                ("avatar", VDoc [("url", VStr (url (u_avatar u)))]) ].
Proof.
  refine (getAllVideos_owner_attached
            {| page := None; limit := None; query := None;
               sortBy := None; sortType := None; userId := None |}
            (alone Sample.store 0) _ _ eq_refl _).
  simpl. left. reflexivity.
Defined.

Section Descending.

Context {A : Type} (key : A -> Z).

Let later_first (a b : A) : Prop := key b <= key a.

Lemma insert_descending (bf : A -> A -> bool) (x : A) (l : list A) :
  (forall a b, bf a b = (key b <=? key a)) ->
  StronglySorted later_first l ->
  StronglySorted later_first (Agg.insert bf x l).
Proof.
  intros Hbf. induction l as [|y r IH]; intros Hs; simpl.
  - constructor; constructor.
  - apply StronglySorted_inv in Hs as [Hr Hy].
    rewrite Hbf. destruct (Z.leb_spec (key y) (key x)) as [Hle|Hlt].
    + constructor; [now constructor|].
      constructor; [exact Hle|].
      eapply Forall_impl; [|exact Hy]. unfold later_first. intros z Hz. lia.
    + constructor; [now apply IH|].
      apply Forall_forall. intros z Hz.
      apply insert_in in Hz as [->|Hz]; [unfold later_first; lia|].
      rewrite Forall_forall in Hy. now apply Hy.
Qed.

Lemma isort_descending (bf : A -> A -> bool) (l : list A) :
  (forall a b, bf a b = (key b <=? key a)) ->
  StronglySorted later_first (Agg.isort bf l).
Proof.
  intros Hbf. induction l as [|x r IH]; [constructor|].
  apply insert_descending; assumption.
Qed.

Lemma descending_app (l1 l2 : list A) :
  StronglySorted later_first l1 -> StronglySorted later_first l2 ->
  (forall a b, In a l1 -> In b l2 -> later_first a b) ->
  StronglySorted later_first (l1 ++ l2).
Proof.
  induction l1 as [|x r IH]; intros H1 H2 H; [exact H2|].
  apply StronglySorted_inv in H1 as [Hr Hx]. simpl. constructor.
  - apply IH; [exact Hr|exact H2|]. intros a b Ha. apply H. now right.
  - apply Forall_app. split; [exact Hx|].
    apply Forall_forall. intros b Hb. apply H; [now left|exact Hb].
Qed.

Lemma descending_skipn (n : nat) (l : list A) :
  StronglySorted later_first l -> StronglySorted later_first (skipn n l).
Proof.
  revert l. induction n as [|n IH]; intros l H; [exact H|].
  destruct l as [|x r]; [constructor|].
  apply StronglySorted_inv in H as [Hr _]. now apply IH.
Qed.

Lemma descending_firstn (n : nat) (l : list A) :
  StronglySorted later_first l -> StronglySorted later_first (firstn n l).
Proof.
  revert l. induction n as [|n IH]; intros l H; [constructor|].
  destruct l as [|x r]; [constructor|].
  apply StronglySorted_inv in H as [Hr Hx]. simpl. constructor; [now apply IH|].
  apply Forall_forall. intros y Hy. rewrite Forall_forall in Hx.
  apply Hx. eapply in_firstn, Hy.
Qed.

End Descending.

Lemma descending_flat_map {A B} (ka : A -> Z) (kb : B -> Z) (f : A -> list B)
    (l : list A) :
  (forall a b, In b (f a) -> kb b = ka a) ->
  StronglySorted (fun x y => ka y <= ka x) l ->
  StronglySorted (fun x y => kb y <= kb x) (flat_map f l).
Proof.
  intros Hk. induction l as [|a r IH]; intros Hs; [constructor|].
  apply StronglySorted_inv in Hs as [Hr Ha]. simpl.
  apply descending_app.
  - assert (Hb : forall b, In b (f a) -> kb b = ka a) by (intros; now apply Hk).
    induction (f a) as [|b bs IHb]; [constructor|].
    constructor.
    + apply IHb. intros c Hc. apply Hb. now right.
    + apply Forall_forall. intros c Hc.
      rewrite (Hb b (or_introl eq_refl)), (Hb c (or_intror Hc)). lia.
  - now apply IH.
  - intros b c Hb Hc. apply in_flat_map in Hc as (a' & Ha' & Hc).
    rewrite (Hk _ _ Hb), (Hk _ _ Hc).
    rewrite Forall_forall in Ha. now apply Ha.
Qed.

Lemma descending_map {A B} (ka : A -> Z) (kb : B -> Z) (f : A -> B) (l : list A) :
  (forall a, kb (f a) = ka a) ->
  StronglySorted (fun x y => ka y <= ka x) l ->
  StronglySorted (fun x y => kb y <= kb x) (map f l).
Proof.
  intros Hk. induction l as [|a r IH]; intros Hs; [constructor|].
  apply StronglySorted_inv in Hs as [Hr Ha]. simpl. constructor; [now apply IH|].
  apply Forall_forall. intros b Hb. apply in_map_iff in Hb as (c & <- & Hc).
  rewrite !Hk. rewrite Forall_forall in Ha. now apply Ha.
Qed.

(** X5.  When no sort is requested (a sort needs both [sortBy] and
    [sortType]), the page [getAllVideos] answers is in the order of the
    creation times, latest first. *)
Theorem getAllVideos_latest_first :
  forall (q : ListQuery) (w : World) (resp : ApiResponse),
    Js.truthy (sortBy q) && Js.truthy (sortType q) = false ->
    fst (getAllVideos q w) = Ok resp ->
    StronglySorted (fun x y => createdAt_of y <= createdAt_of x) (listed resp).
Proof.
  intros q w resp Hsort H. rewrite getAllVideos_run in H.
  unfold Listing.listing in H.
  destruct (Listing.owner_filter _ _) as [vs2|]; [|discriminate].
  cbn [obind] in H.
  unfold Listing.sorted, Listing.sort_spec in H. rewrite Hsort in H.
  cbn [valid_field_path Js.split_dots forallb Ascii.eqb Bool.eqb andb obind] in H.
  unfold paginate in H. destruct (_ <? 0); [discriminate|].
  injection H as <-. unfold listed.
  cbn [data get String.eqb Ascii.eqb Bool.eqb].
  apply (descending_map (fun d => createdAt_of (VDoc d))); [reflexivity|].
  apply descending_firstn, descending_skipn.
  apply (descending_flat_map v_createdAt).
  - intros v d Hd. apply in_map_iff in Hd as (u & <- & _). reflexivity.
  - apply isort_descending. intros a b. reflexivity.
Qed.

(** The store holds the published video of alice, her draft and the later
    video of bob, in this order; the page lists bob's video first. *)
Lemma getAllVideos_latest_first_witness :
  map createdAt_of
    [ VDoc (Listing.with_owner later_video Sample.bob);
      VDoc (Listing.with_owner Sample.public_video Sample.alice) ]
  = [3000; 1000]
  /\ StronglySorted (fun x y => createdAt_of y <= createdAt_of x)
       [ VDoc (Listing.with_owner later_video Sample.bob);
         VDoc (Listing.with_owner Sample.public_video Sample.alice) ].
Proof.
  split; [reflexivity|].
  exact (getAllVideos_latest_first
           {| page := None; limit := None; query := None;
              sortBy := Some "views"; sortType := None; userId := None |}
           (alone busy_store 0) _ eq_refl eq_refl).
Defined.

(* ===================================================================== *)
(** * Further properties: the watch-history upsert *)
(* ===================================================================== *)

(** X6.  [updateVideoViews] fails with Not-Found (404) and writes nothing
    when no video carries the identifier, and likewise when the video
    exists but the viewer is absent or not stored: the view counter is not
    touched before the viewer is found. *)
Theorem updateVideoViews_not_found :
  forall (st : Store) (t : Z) (videoId : string) (viewer : option ObjectId),
    isValidObjectId videoId = true ->
    (find (has_id (castObjectId videoId)) (videos st) = None ->
     updateVideoViews videoId viewer (alone st t)
     = (Throw (ApiError 404 "Video not found"),
        {| store := st; clock := t; trace := [DbCall "Video" "findById"];
           env := [] |}))
    /\ (find (has_id (castObjectId videoId)) (videos st) <> None ->
        match viewer with
        | Some uid => find (UserModel.user_has_id uid) (users st) = None
        | None => True
        end ->
        updateVideoViews videoId viewer (alone st t)
        = (Throw (ApiError 404 "User not found"),
           {| store := st; clock := t;
              trace := [DbCall "Video" "findById"; DbCall "User" "findById"];
              env := [] |})).
Proof.
  intros st t videoId viewer Hvalid. split.
  - intros Hnone. unfold updateVideoViews. rewrite Hvalid. cbn [negb].
    unfold alone. rewrite bind_run. unfold VideoModel.findById.
    rewrite dbcall_quiet, Hvalid, Hnone. reflexivity.
  - intros Hsome Hviewer. unfold updateVideoViews. rewrite Hvalid. cbn [negb].
    unfold alone. rewrite bind_run. unfold VideoModel.findById.
    rewrite dbcall_quiet, Hvalid.
    destruct (find (has_id _) _) as [v|]; [|now elim Hsome]. cbn [fst snd].
    rewrite bind_run. unfold UserModel.findById. rewrite dbcall_quiet.
    cbn [fst snd].
    destruct viewer as [uid|]; [rewrite Hviewer|]; reflexivity.
Qed.

Lemma updateVideoViews_not_found_witness :
  fst (updateVideoViews Sample.nobody_id (Some Sample.bob_id)
         (alone Sample.store 0))
  = Throw (ApiError 404 "Video not found")
  /\ updateVideoViews Sample.public_id None (alone Sample.store 0)
     = (Throw (ApiError 404 "User not found"),
        {| store := Sample.store; clock := 0;
           trace := [DbCall "Video" "findById"; DbCall "User" "findById"];
           env := [] |}).
Proof.
  split.
  - destruct (updateVideoViews_not_found Sample.store 0 Sample.nobody_id
                (Some Sample.bob_id) eq_refl) as [H _].
    exact (f_equal fst (H eq_refl)).
  - destruct (updateVideoViews_not_found Sample.store 0 Sample.public_id
                None eq_refl) as [_ H].
    apply H; [discriminate|exact I].
Defined.

Lemma map_update_first {A B} (p : A -> bool) (f : A -> A) (g : A -> B)
    (l : list A) :
  (forall x, g (f x) = g x) -> map g (update_first p f l) = map g l.
Proof.
  intros H. induction l as [|a r IH]; simpl; [reflexivity|].
  destruct (p a); simpl; [now rewrite H|now rewrite IH].
Qed.

Lemma filter_update_first {A} (p q : A -> bool) (f : A -> A) (l : list A) :
  (forall x, p x = true -> q x = false) ->
  (forall x, p x = true -> q (f x) = false) ->
  filter q (update_first p f l) = filter q l.
Proof.
  intros H1 H2. induction l as [|a r IH]; simpl; [reflexivity|].
  destruct (p a) eqn:E; simpl.
  - now rewrite (H1 a E), (H2 a E).
  - now rewrite IH.
Qed.

(** X7.  The watch history only grows.  However the identifier is spelled,
    a call of [updateVideoViews] for a stored video and a stored viewer
    succeeds and leaves the videos of the viewer's history as they were, in
    their order, with at most one reference to the video appended; the
    other users are not touched, the other videos are not touched, and the
    view counter of the video goes up by one or stays. *)
Theorem updateVideoViews_history_grows :
  forall (st : Store) (t : Z) (videoId : string) (uid : ObjectId)
         (v : Video) (u : User),
    isValidObjectId videoId = true ->
    find (has_id (castObjectId videoId)) (videos st) = Some v ->
    find (UserModel.user_has_id uid) (users st) = Some u ->
    (exists resp, answer (updateVideoViews videoId (Some uid)) st t = Ok resp)
    /\ (exists grown : bool,
           map h_video
             (history_of (store_after (updateVideoViews videoId (Some uid)) st t) uid)
           = map h_video (u_watchHistory u)
             ++ (if grown then [castObjectId videoId] else [])
           /\ views_of (store_after (updateVideoViews videoId (Some uid)) st t)
                (castObjectId videoId)
              = Some (v_views v + (if grown then 1 else 0)))
    /\ other_users uid (store_after (updateVideoViews videoId (Some uid)) st t)
       = other_users uid st
    /\ other_videos (castObjectId videoId)
         (store_after (updateVideoViews videoId (Some uid)) st t)
       = other_videos (castObjectId videoId) st.
Proof.
  intros st t videoId uid v u Hvalid Hv Hu.
  destruct (upsert_run st t videoId uid v u Hvalid Hv Hu) as (resp & calls & Hrun).
  unfold answer, store_after. rewrite Hrun. clear Hrun. cbn [fst snd store].
  split; [now exists resp|].
  assert (Hothers : forall f,
             filter (fun x => negb (UserModel.user_has_id uid x))
               (update_first (UserModel.user_has_id uid)
                  (fun _ => set_history u f) (users st))
             = filter (fun x => negb (UserModel.user_has_id uid x)) (users st)).
  { intros f. apply filter_update_first.
    - intros x Hx. now rewrite Hx.
    - intros x _. unfold UserModel.user_has_id. cbn [u_id set_history].
      change (negb (UserModel.user_has_id uid u) = false).
      now rewrite (find_holds _ _ _ Hu). }
  destruct (find (watched videoId) (u_watchHistory u)) as [e|].
  - split; [exists false; split|split].
    + unfold history_of. cbn [users with_users].
      rewrite (user_after_save _ _ _ _ Hu). cbn [u_watchHistory set_history].
      rewrite app_nil_r. now apply map_update_first.
    + unfold views_of. cbn [videos with_users]. rewrite Hv. cbn [option_map].
      f_equal. lia.
    + unfold other_users. cbn [users with_users]. apply Hothers.
    + reflexivity.
  - split; [exists true; split|split].
    + unfold history_of. cbn [users with_users].
      rewrite (user_after_save _ _ _ _ Hu). cbn [u_watchHistory set_history].
      now rewrite map_app.
    + unfold views_of. cbn [videos with_users with_videos].
      rewrite (find_update_first _ _ _ _ Hv); [reflexivity|].
      exact (find_holds _ _ _ Hv).
    + unfold other_users. cbn [users with_users]. apply Hothers.
    + unfold other_videos. cbn [videos with_users with_videos].
      apply filter_update_first.
      * intros x Hx. now rewrite Hx.
      * intros x Hx. unfold has_id in *. cbn [v_id VideoModel.inc_views VideoModel.touch].
        now rewrite Hx.
Qed.

(** Bob watches the published video of the sample, named in upper case. *)
Lemma updateVideoViews_history_grows_witness :
  other_users Sample.bob_id
    (store_after (updateVideoViews "0123456789ABCDEF01234567" (Some Sample.bob_id))
       Sample.store 7)
  = other_users Sample.bob_id Sample.store
  /\ other_videos (castObjectId "0123456789ABCDEF01234567")
       (store_after (updateVideoViews "0123456789ABCDEF01234567" (Some Sample.bob_id))
          Sample.store 7)
     = other_videos (castObjectId "0123456789ABCDEF01234567") Sample.store.
Proof.
  exact (proj2 (proj2 (updateVideoViews_history_grows Sample.store 7
                         "0123456789ABCDEF01234567" Sample.bob_id
                         Sample.public_video Sample.bob
                         eq_refl eq_refl eq_refl))).
Defined.

(* ===================================================================== *)
(** * Further properties: the publish toggle *)
(* ===================================================================== *)

Lemma with_videos_twice (st : Store) (vs vs' : list Video) :
  with_videos (with_videos st vs) vs' = with_videos st vs'.
Proof. reflexivity. Qed.

Lemma update_first_twice {A} (p : A -> bool) (f g h : A -> A) (l : list A)
    (x : A) :
  find p l = Some x -> p (g x) = true -> f (g x) = h x ->
  update_first p f (update_first p g l) = update_first p h l.
Proof.
  induction l as [|a r IH]; simpl; [discriminate|].
  destruct (p a) eqn:E.
  - intros [= ->] Hp Hf. simpl. now rewrite Hp, Hf.
  - intros H Hp Hf. simpl. rewrite E. now rewrite IH.
Qed.

Lemma filter_update_first_hit {A} (p : A -> bool) (f : A -> A) (l : list A) :
  (forall x, p (f x) = p x) ->
  filter p (update_first p f l)
  = match filter p l with
    | [] => []
    | x :: r => f x :: r
    end.
Proof.
  intros Hp. induction l as [|a r IH]; simpl; [reflexivity|].
  destruct (p a) eqn:E; simpl.
  - now rewrite Hp, E.
  - now rewrite E.
Qed.

Lemma set_isPublished_back (t1 t2 : Z) (v : Video) :
  VideoModel.touch t2
    (set_isPublished (negb (negb (v_isPublished v)))
       (VideoModel.touch t1 (set_isPublished (negb (v_isPublished v)) v)))
  = VideoModel.touch t2 v.
Proof.
  destruct v. unfold set_isPublished, VideoModel.touch. cbn.
  now rewrite negb_involutive.
Qed.

(** One toggle, alone, of a stored video. *)
Lemma toggle_run (st : Store) (t : Z) (videoId : string) (v : Video) :
  isValidObjectId videoId = true ->
  find (has_id (castObjectId videoId)) (videos st) = Some v ->
  togglePublishStatus videoId (alone st t)
  = (Ok {| statusCode := 200;
           data := VDoc (video_doc
                           (VideoModel.touch t
                              (set_isPublished (negb (v_isPublished v)) v)));
           message := "Video publish status updated" |},
     {| store := with_videos st
                   (update_first (has_id (castObjectId videoId))
                      (fun x => VideoModel.touch t
                                  (set_isPublished (negb (v_isPublished v)) x))
                      (videos st));
        clock := t;
        trace := [DbCall "Video" "findById"; DbCall "Video" "save"];
        env := [] |}).
Proof.
  intros Hvalid Hv.
  assert (Hid : v_id v = castObjectId videoId)
    by (apply String.eqb_eq; exact (find_holds _ _ _ Hv)).
  unfold togglePublishStatus, alone.
  rewrite bind_run. unfold VideoModel.findById. rewrite dbcall_quiet.
  rewrite Hvalid, Hv. cbn [fst snd].
  rewrite bind_run. unfold save_isPublished.
  rewrite bind_run. unfold now at 1. cbn [clock]. rewrite dbcall_quiet.
  cbn [v_id v_isPublished set_isPublished].
  rewrite Hid, (find_exists _ _ _ Hv). reflexivity.
Qed.

(** X8.  [togglePublishStatus] flips the published flag of the video,
    stamps the video with the time of the write as [updatedAt], and
    changes nothing else; it answers the video as it is stored after the
    write.  Toggling twice gives the store back as it was but for the
    [updatedAt] of the video, which is the time of the second toggle. *)
Theorem togglePublishStatus_twice :
  forall (st : Store) (t1 t2 : Z) (videoId : string) (v : Video),
    isValidObjectId videoId = true ->
    find (has_id (castObjectId videoId)) (videos st) = Some v ->
    let flipped :=
      {| v_id := v_id v; v_video := v_video v; v_thumbnail := v_thumbnail v;
         v_title := v_title v; v_description := v_description v;
         v_duration := v_duration v; v_views := v_views v;
         v_isPublished := negb (v_isPublished v); v_owner := v_owner v;
         v_createdAt := v_createdAt v; v_updatedAt := t1 |} in
    let once := store_after (togglePublishStatus videoId) st t1 in
    answer (togglePublishStatus videoId) st t1
    = Ok {| statusCode := 200; data := VDoc (video_doc flipped);
            message := "Video publish status updated" |}
    /\ find (has_id (castObjectId videoId)) (videos once) = Some flipped
    /\ other_videos (castObjectId videoId) once
       = other_videos (castObjectId videoId) st
    /\ users once = users st
    /\ store_after (togglePublishStatus videoId) once t2
       = with_videos st
           (update_first (has_id (castObjectId videoId))
              (VideoModel.touch t2) (videos st)).
Proof.
  intros st t1 t2 videoId v Hvalid Hv flipped once.
  assert (Hp : has_id (castObjectId videoId) v = true)
    by exact (find_holds _ _ _ Hv).
  unfold once, answer, store_after.
  rewrite (toggle_run st t1 videoId v Hvalid Hv). cbn [fst snd store].
  assert (Hv1 : find (has_id (castObjectId videoId))
                  (videos (with_videos st
                             (update_first (has_id (castObjectId videoId))
                                (fun x => VideoModel.touch t1
                                            (set_isPublished
                                               (negb (v_isPublished v)) x))
                                (videos st))))
                = Some flipped).
  { cbn [videos with_videos].
    apply (find_update_first _
             (fun x => VideoModel.touch t1
                         (set_isPublished (negb (v_isPublished v)) x))
             _ _ Hv Hp). }
  split; [reflexivity|]. split; [exact Hv1|]. split; [|split; [reflexivity|]].
  - unfold other_videos. cbn [videos with_videos].
    apply filter_update_first; intros x Hx; unfold has_id in *;
      cbn [v_id set_isPublished VideoModel.touch]; now rewrite Hx.
  - rewrite (toggle_run _ t2 videoId _ Hvalid Hv1). cbn [snd store].
    rewrite with_videos_twice. unfold flipped.
    cbn [videos with_videos v_isPublished].
    now rewrite (update_first_twice (has_id (castObjectId videoId))
                   (fun x => VideoModel.touch t2
                               (set_isPublished
                                  (negb (negb (v_isPublished v))) x))
                   (fun x => VideoModel.touch t1
                               (set_isPublished (negb (v_isPublished v)) x))
                   (VideoModel.touch t2) (videos st) v Hv Hp
                   (set_isPublished_back t1 t2 v)).
Qed.

(** The draft of the sample is toggled at time 1 and again at time 2. *)
Lemma togglePublishStatus_twice_witness :
  store_after (togglePublishStatus Sample.draft_id)
    (store_after (togglePublishStatus Sample.draft_id) Sample.store 1) 2
  = with_videos Sample.store
      [Sample.public_video; VideoModel.touch 2 Sample.draft_video].
Proof.
  exact (proj2 (proj2 (proj2 (proj2
    (togglePublishStatus_twice Sample.store 1 2 Sample.draft_id
       Sample.draft_video eq_refl eq_refl))))).
Defined.

(** X9.  What a toggle does to the public views, for a video that is the
    only one with its identifier.  Once a published video is toggled,
    [getVideoByIdForGuest] answers no data for it and no listing of
    [getAllVideos] shows it; once an unpublished video is toggled,
    [getVideoByIdForGuest] answers its record. *)
Theorem togglePublishStatus_visibility :
  forall (st : Store) (t t' : Z) (videoId : string) (v : Video),
    isValidObjectId videoId = true ->
    find (has_id (castObjectId videoId)) (videos st) = Some v ->
    List.length (filter (has_id (castObjectId videoId)) (videos st)) = 1%nat ->
    (v_isPublished v = true ->
     answer (getVideoByIdForGuest videoId)
       (store_after (togglePublishStatus videoId) st t) t'
     = Ok {| statusCode := 200; data := VMissing; message := "Video found" |}
     /\ forall (q : ListQuery) (resp : ApiResponse) (d : doc),
          answer (getAllVideos q)
            (store_after (togglePublishStatus videoId) st t) t' = Ok resp ->
          In (VDoc d) (listed resp) ->
          get "_id" d <> VId (v_id v))
    /\ (v_isPublished v = false ->
        exists d : doc,
          answer (getVideoByIdForGuest videoId)
            (store_after (togglePublishStatus videoId) st t) t'
          = Ok {| statusCode := 200; data := VDoc d; message := "Video found" |}
          /\ get "_id" d = VId (v_id v)).
Proof.
  intros st t t' videoId v Hvalid Hv Hone.
  assert (Hid : v_id v = castObjectId videoId)
    by (apply String.eqb_eq; exact (find_holds _ _ _ Hv)).
  unfold answer, store_after.
  rewrite (toggle_run st t videoId v Hvalid Hv). cbn [fst snd store].
  set (v' := fun x => VideoModel.touch t (set_isPublished (negb (v_isPublished v)) x)) in *.
  set (st1 := with_videos st _).
  assert (Hsame : filter (has_id (castObjectId videoId)) (videos st1) = [v' v]).
  { unfold st1. cbn [videos with_videos].
    rewrite filter_update_first_hit by reflexivity.
    destruct (find_filter_head _ _ _ Hv) as [r Hr]. rewrite Hr in *.
    destruct r; [reflexivity|discriminate Hone]. }
  assert (Hguest : fst (getVideoByIdForGuest videoId (alone st1 t'))
                   = Ok {| statusCode := 200;
                           data := first_or_undefined
                                     (map (guest_view st1)
                                        (filter v_isPublished [v' v]));
                           message := "Video found" |}).
  { unfold getVideoByIdForGuest.
    rewrite (valid_not_blank _ Hvalid), Hvalid. cbn [negb].
    rewrite bind_run, video_aggregate_alone, aggregate_guest.
    now rewrite filter_and, Hsame. }
  split.
  - intros Hpub. split.
    + rewrite Hguest. unfold v'.
      cbn [filter v_isPublished set_isPublished VideoModel.touch].
      now rewrite Hpub.
    + intros q resp d Hq Hd Hget.
      rewrite getAllVideos_run in Hq. change (seen (alone st1 t')) with st1 in Hq.
      destruct (Listing.listing st1 q) as [r|] eqn:Hl; [|discriminate].
      injection Hq as <-.
      destruct (listing_published _ _ _ _ _ Hl Hd) as (v0 & u & Hv0 & Hpub0 & E).
      injection E as ->. cbn in Hget. injection Hget as Hget.
      assert (Hin : In v0 (filter (has_id (castObjectId videoId)) (videos st1))).
      { apply filter_In. split; [exact Hv0|].
        unfold has_id. rewrite Hget, Hid. apply String.eqb_refl. }
      rewrite Hsame in Hin. destruct Hin as [<-|[]].
      unfold v' in Hpub0. cbn in Hpub0. now rewrite Hpub in Hpub0.
  - intros Hdraft. rewrite Hguest. unfold v'.
    cbn [filter v_isPublished set_isPublished VideoModel.touch]. rewrite Hdraft.
    eexists. split; [reflexivity|]. reflexivity.
Qed.

(** The published video of the sample is toggled, then its draft. *)
Lemma togglePublishStatus_visibility_witness :
  answer (getVideoByIdForGuest Sample.public_id)
    (store_after (togglePublishStatus Sample.public_id) Sample.store 1) 2
  = Ok {| statusCode := 200; data := VMissing; message := "Video found" |}
  /\ exists d : doc,
       answer (getVideoByIdForGuest Sample.draft_id)
         (store_after (togglePublishStatus Sample.draft_id) Sample.store 1) 2
       = Ok {| statusCode := 200; data := VDoc d; message := "Video found" |}
       /\ get "_id" d = VId Sample.draft_id.
Proof.
  split.
  - destruct (togglePublishStatus_visibility Sample.store 1 2 Sample.public_id
                Sample.public_video eq_refl eq_refl eq_refl) as [H _].
    exact (proj1 (H eq_refl)).
  - destruct (togglePublishStatus_visibility Sample.store 1 2 Sample.draft_id
                Sample.draft_video eq_refl eq_refl eq_refl) as [_ H].
    exact (H eq_refl).
Defined.

(** X10.  [togglePublishStatus] does not test the identifier: a malformed
    one reaches [Video.findById] and fails there in the cast, not with a
    validation failure; a valid one that no video carries gives Not-Found.
    Neither writes. *)
Theorem togglePublishStatus_failures :
  forall (st : Store) (t : Z) (videoId : string),
    (isValidObjectId videoId = false ->
     togglePublishStatus videoId (alone st t)
     = (Throw (CastError "_id"),
        {| store := st; clock := t; trace := [DbCall "Video" "findById"];
           env := [] |}))
    /\ (isValidObjectId videoId = true ->
        find (has_id (castObjectId videoId)) (videos st) = None ->
        togglePublishStatus videoId (alone st t)
        = (Throw (ApiError 404 "Video not found"),
           {| store := st; clock := t; trace := [DbCall "Video" "findById"];
              env := [] |})).
Proof.
  intros st t videoId. split.
  - intros Hbad. unfold togglePublishStatus, alone.
    rewrite bind_run. unfold VideoModel.findById.
    now rewrite dbcall_quiet, Hbad.
  - intros Hvalid Hnone. unfold togglePublishStatus, alone.
    rewrite bind_run. unfold VideoModel.findById.
    now rewrite dbcall_quiet, Hvalid, Hnone.
Qed.

Lemma togglePublishStatus_failures_witness :
  fst (togglePublishStatus "not-an-id" (alone Sample.store 0))
  = Throw (CastError "_id")
  /\ fst (togglePublishStatus Sample.nobody_id (alone Sample.store 0))
     = Throw (ApiError 404 "Video not found").
Proof.
  destruct (togglePublishStatus_failures Sample.store 0 "not-an-id") as [H1 _].
  destruct (togglePublishStatus_failures Sample.store 0 Sample.nobody_id) as [_ H2].
  split; [exact (f_equal fst (H1 eq_refl))|exact (f_equal fst (H2 eq_refl eq_refl))].
Defined.

(* ===================================================================== *)
(** * Further properties: the suggestions *)
(* ===================================================================== *)

(** Whatever is drawn, a sample of encoded records is the encoding of
    records of the list, no more of them than asked for. *)
Lemma sample_map {X} (f : X -> doc) (rnd : list nat) (size : nat) (l : list X) :
  exists l' : list X,
    AggX.sample rnd size (map f l) = map f l'
    /\ incl l' l /\ (List.length l' <= size)%nat.
Proof.
  unfold AggX.sample.
  exists (firstn size
            (flat_map (fun i => match nth_error l i with
                                | Some x => [x]
                                | None => []
                                end) rnd)).
  split; [|split].
  - rewrite <- firstn_map. f_equal.
    induction rnd as [|i r IH]; [reflexivity|].
    cbn [flat_map]. rewrite map_app, <- IH. f_equal.
    rewrite nth_error_map. now destruct (nth_error l i).
  - intros x Hx. apply in_firstn in Hx. apply in_flat_map in Hx as (i & _ & Hx).
    destruct (nth_error l i) eqn:E; [|destruct Hx].
    destruct Hx as [<-|[]]. eapply nth_error_In, E.
  - apply firstn_le_length.
Qed.

Lemma match_other_published (i : ObjectId) (v : Video) :
  AggX.xmatches [("_id", AggX.CNe (VId i)); ("isPublished", AggX.CEq (VBool true))]
    (video_doc v)
  = negb (has_id i v) && v_isPublished v.
Proof.
  unfold AggX.xmatches, AggX.cond_holds, field_matches, has_id. simpl.
  rewrite !orb_false_r, andb_true_r. f_equal.
  now destruct (v_isPublished v).
Qed.

Lemma owners_unique (st : Store) (o : ObjectId) :
  NoDup (map u_id (users st)) -> (List.length (owners_of st o) <= 1)%nat.
Proof.
  unfold owners_of. induction (users st) as [|u r IH]; intros Hnd; [apply le_0_n|].
  inversion Hnd as [|? ? Hnotin Hnd']; subst. cbn [filter].
  destruct (UserModel.user_has_id o u) eqn:E; [|now apply IH].
  rewrite filter_none; [apply le_n|].
  intros x Hx. unfold UserModel.user_has_id in *.
  apply String.eqb_eq in E.
  destruct (String.eqb_spec (u_id x) o) as [Ex|]; [|reflexivity].
  exfalso. apply Hnotin. rewrite E, <- Ex. now apply in_map.
Qed.

Lemma owner_join_length (st : Store) (vs : list Video) :
  NoDup (map u_id (users st)) ->
  (List.length (Listing.owner_join st vs) <= List.length vs)%nat.
Proof.
  intros Hnd. assert (Hu := fun o => owners_unique st o Hnd).
  unfold Listing.owner_join.
  induction vs as [|v r IH]; [apply le_n|].
  cbn [flat_map List.length]. rewrite length_app, length_map.
  specialize (Hu (v_owner v)). lia.
Qed.

(** X11.  [getNextVideos], for a stored video, answers suggestions that
    are all stored published videos other than that video, each with the
    summary of its stored owner, whatever the store draws; there are at
    most ten of them when user identifiers are unique. *)
Theorem getNextVideos_suggestions :
  forall (st : Store) (t : Z) (videoId : string) (rnd : list nat) (cur : Video),
    isValidObjectId videoId = true ->
    find (has_id (castObjectId videoId)) (videos st) = Some cur ->
    exists items : list doc,
      fst (getNextVideos videoId rnd (alone st t))
      = Ok {| statusCode := 200; data := VArr (map VDoc items);
              message := "Next videos fetched successfully" |}
      /\ (forall d, In d items ->
            exists (v : Video) (u : User),
              d = Listing.with_owner v u
              /\ In v (videos st) /\ v_isPublished v = true
              /\ v_id v <> castObjectId videoId
              /\ In u (users st) /\ u_id u = v_owner v)
      /\ (NoDup (map u_id (users st)) -> (List.length items <= 10)%nat).
Proof.
  intros st t videoId rnd cur Hvalid Hcur.
  unfold getNextVideos. rewrite Hvalid. cbn [negb]. unfold alone.
  rewrite bind_run. unfold VideoModel.findById. rewrite dbcall_quiet.
  rewrite Hvalid, Hcur. cbn [fst snd].
  rewrite bind_run, dbcall_quiet. cbn [fst snd].
  change (collection st "videos") with (map video_doc (videos st)).
  unfold next_pipeline. cbn [AggX.run AggX.run_stage obind].
  rewrite filter_map_swap,
    (filter_ext _ _ (match_other_published (castObjectId videoId))).
  destruct (sample_map video_doc rnd 10
              (filter (fun v => negb (has_id (castObjectId videoId) v)
                                && v_isPublished v) (videos st)))
    as (vs & -> & Hincl & Hlen).
  pose proof (run_owner_lookup st vs) as Hjoin.
  unfold owner_lookup in Hjoin. rewrite !run_cons in Hjoin.
  destruct (Agg.run_stage st (SLookup _ _ _ _ _) _) as [joined|];
    [|discriminate Hjoin].
  cbn [obind Agg.run] in Hjoin |- *.
  destruct (Agg.run_stage st (SUnwind _) joined) as [items|];
    [|discriminate Hjoin].
  cbn [obind] in Hjoin |- *. injection Hjoin as ->.
  exists (Listing.owner_join st vs). split; [reflexivity|]. split.
  - intros d Hd. unfold Listing.owner_join in Hd.
    apply in_flat_map in Hd as (v & Hv & Hd).
    apply in_map_iff in Hd as (u & <- & Hu).
    unfold owners_of in Hu. apply filter_In in Hu as [Hu Hid].
    apply String.eqb_eq in Hid.
    apply Hincl, filter_In in Hv as [Hv Hc].
    apply andb_true_iff in Hc as [Hne Hpub].
    exists v, u. repeat split; try assumption.
    intros E. unfold has_id in Hne. rewrite E, String.eqb_refl in Hne.
    discriminate Hne.
  - intros Hunique. pose proof (owner_join_length st vs Hunique). lia.
Qed.

Lemma getNextVideos_suggestions_witness :
  exists items : list doc,
    fst (getNextVideos Sample.draft_id [0; 0; 3]%nat (alone Sample.store 0))
    = Ok {| statusCode := 200; data := VArr (map VDoc items);
            message := "Next videos fetched successfully" |}
    /\ (List.length items <= 10)%nat.
Proof.
  destruct (getNextVideos_suggestions Sample.store 0 Sample.draft_id
              [0; 0; 3]%nat Sample.draft_video eq_refl eq_refl)
    as (items & H & _ & Hlen).
  exists items. split; [exact H|]. apply Hlen.
  constructor; [intros [E|[]]; discriminate E|].
  constructor; [intros []|constructor].
Defined.

(* ===================================================================== *)
(** * Further properties: the watch history *)
(* ===================================================================== *)

(** X12.  [getWatchHistory] answers no history.  The module that declares
    it does not bind [mongoose], which the handler reads to build its
    pipeline; the failure is caught by the handler's own [catch].  So for
    every viewer, every store and every schedule of the other requests the
    answer is the ApiError 501, and the request has called nothing: the
    store, the trace and the schedule are as they were. *)
Theorem getWatchHistory_never_answers :
  forall (viewer : option ObjectId) (w : World),
    getWatchHistory viewer w
    = (Throw (ApiError 501 "Fetching watch history failed"), w).
Proof. intros viewer w. reflexivity. Qed.

(* ===================================================================== *)
(** * Further properties: the update of a video *)
(* ===================================================================== *)

Lemma filter_update_first_others {A} (p : A -> bool) (f : A -> A) (l : list A) :
  (forall x, p (f x) = p x) ->
  filter (fun x => negb (p x)) (update_first p f l)
  = filter (fun x => negb (p x)) l.
Proof.
  intros Hp. apply filter_update_first.
  - intros x Hx. now rewrite Hx.
  - intros x Hx. now rewrite Hp, Hx.
Qed.

Lemma not_blank (s : string) : Js.trim s <> "" -> blank (Some s) = false.
Proof. intros H. unfold blank. now apply String.eqb_neq. Qed.

(** An update by the owner, running alone. *)
Lemma update_run (upload : string -> option Uploaded) (st : Store) (t : Z)
    (videoId title description : string) (path : option string) (v : Video) :
  isValidObjectId videoId = true ->
  find (has_id (castObjectId videoId)) (videos st) = Some v ->
  Js.trim title <> "" ->
  Js.trim description <> "" ->
  updateVideo upload videoId (Some title) (Some description) path (v_owner v)
    (alone st t)
  = match (if Js.truthy path then upload (str path) else None),
          Js.truthy path with
    | None, true =>
        (Throw (ApiError 501 "Thumbnail uploading failed"),
         {| store := st; clock := t; trace := [DbCall "Video" "findById"];
            env := [] |})
    | f, _ =>
        let thumbnail :=
          option_map (fun f => {| fileId := public_id f; url := secure_url f |}) f in
        (Ok {| statusCode := 200;
               data := VDoc (video_doc
                               (VideoModel.touch t
                                  (set_details title description thumbnail v)));
               message := "Video updated successfully" |},
         {| store :=
              with_videos st
                (update_first (has_id (castObjectId videoId))
                   (fun x => VideoModel.touch t
                               (set_details title description thumbnail x))
                   (videos st));
            clock := t;
            trace := [DbCall "Video" "findById"]
                     ++ match f with
                        | Some _ =>
                            if Js.truthy_str (fileId (v_thumbnail v))
                            then [CloudDestroy (fileId (v_thumbnail v))]
                            else []
                        | None => []
                        end
                     ++ [DbCall "Video" "findByIdAndUpdate"];
            env := [] |})
    end.
Proof.
  intros Hvalid Hv Ht Hd. unfold updateVideo. rewrite Hvalid. cbn [negb].
  unfold alone. rewrite bind_run. unfold VideoModel.findById.
  rewrite dbcall_quiet, Hvalid, Hv. cbn [fst snd].
  rewrite (not_blank _ Ht), (not_blank _ Hd). cbn [orb].
  unfold toString. rewrite String.eqb_refl. cbn [negb].
  destruct (Js.truthy path) eqn:Hp.
  - assert (Hs : Js.truthy_str (str path) = true)
      by (destruct path; [exact Hp|discriminate Hp]).
    rewrite !bind_run. unfold uploadOnCloudinary. rewrite Hs. cbn [negb].
    unfold ret at 1. destruct (upload (str path)) as [f|]; [|reflexivity].
    rewrite !bind_run. unfold deleteFromCloudinary.
    destruct (Js.truthy_str (fileId (v_thumbnail v))); cbn [negb].
    + rewrite !bind_run. unfold emit. cbn [fst snd store clock trace env].
      unfold ret at 1. unfold ret at 1. rewrite bind_run.
      unfold findByIdAndUpdate_set.
      rewrite bind_run. unfold now at 1. cbn [clock].
      rewrite dbcall_quiet, Hvalid, Hv. reflexivity.
    + unfold ret at 1. unfold ret at 1. rewrite bind_run.
      unfold findByIdAndUpdate_set.
      rewrite bind_run. unfold now at 1. cbn [clock].
      rewrite dbcall_quiet, Hvalid, Hv. reflexivity.
  - rewrite bind_run. unfold ret at 1. rewrite bind_run.
    unfold findByIdAndUpdate_set.
    rewrite bind_run. unfold now at 1. cbn [clock].
    rewrite dbcall_quiet, Hvalid, Hv. reflexivity.
Qed.

Lemma set_details_id (i : ObjectId) (t : Z) (title description : string)
    (thumbnail : option Media) (v : Video) :
  has_id i (VideoModel.touch t (set_details title description thumbnail v))
  = has_id i v.
Proof. reflexivity. Qed.

(** X15.  Only the owner edits.  For a stored video and a caller who is
    not its owner, [updateVideo] answers 400, with the message of the
    missing fields when the title or the description is missing or is
    white space throughout (as [trim] understands white space) and the
    message of the ownership otherwise; it has read the video and
    done nothing else: the store is as it was and the provider has not
    been asked for anything, whatever file comes with the request. *)
Theorem updateVideo_owner_only :
  forall (upload : string -> option Uploaded) (st : Store) (t : Z)
         (videoId : string) (title description path : option string)
         (viewer : ObjectId) (v : Video),
    isValidObjectId videoId = true ->
    find (has_id (castObjectId videoId)) (videos st) = Some v ->
    v_owner v <> viewer ->
    updateVideo upload videoId title description path viewer (alone st t)
    = (Throw (ApiError 400
                (if blank title || blank description
                 then "All fields are required"
                 else "You can't edit this video as you are not the owner")),
       {| store := st; clock := t; trace := [DbCall "Video" "findById"];
          env := [] |}).
Proof.
  intros upload st t videoId title description path viewer v Hvalid Hv Hne.
  unfold updateVideo. rewrite Hvalid. cbn [negb]. unfold alone.
  rewrite bind_run. unfold VideoModel.findById.
  rewrite dbcall_quiet, Hvalid, Hv. cbn [fst snd].
  destruct (blank title || blank description); [reflexivity|].
  unfold toString. apply String.eqb_neq in Hne. now rewrite Hne.
Qed.

(** Bob tries to rename the published video of alice, with a new
    thumbnail and a title that is a no-break space. *)
Lemma updateVideo_owner_only_witness :
  updateVideo (fun _ => Some {| public_id := "t9"; secure_url := "https://cdn/t9" |})
    Sample.public_id (Some nbsp) (Some "now") (Some "/tmp/t9.png")
    Sample.bob_id (alone Sample.store 4)
  = (Throw (ApiError 400 "All fields are required"),
     {| store := Sample.store; clock := 4;
        trace := [DbCall "Video" "findById"]; env := [] |}).
Proof.
  apply (updateVideo_owner_only _ Sample.store 4 Sample.public_id
           (Some nbsp) (Some "now") (Some "/tmp/t9.png") Sample.bob_id
           Sample.public_video); [reflexivity|reflexivity|discriminate].
Defined.

(** X16.  An update without a file.  When the owner of a stored video
    sends a title and a description that [trim] does not empty and no
    thumbnail, [updateVideo] running alone answers the video with the two
    texts as they were sent and the time of the write as [updatedAt], and
    that is the video the store holds afterwards: identifier, media,
    duration, views, publish flag, owner and creation time are the old
    ones.  The other videos, the users, the likes and the comments are
    untouched, and the provider is not asked for anything. *)
Theorem updateVideo_details :
  forall (upload : string -> option Uploaded) (st : Store) (t : Z)
         (videoId title description : string) (path : option string)
         (v : Video),
    isValidObjectId videoId = true ->
    find (has_id (castObjectId videoId)) (videos st) = Some v ->
    Js.trim title <> "" ->
    Js.trim description <> "" ->
    Js.truthy path = false ->
    let request :=
      updateVideo upload videoId (Some title) (Some description) path (v_owner v) in
    let v' :=
      {| v_id := v_id v; v_video := v_video v; v_thumbnail := v_thumbnail v;
         v_title := title; v_description := description;
         v_duration := v_duration v; v_views := v_views v;
         v_isPublished := v_isPublished v; v_owner := v_owner v;
         v_createdAt := v_createdAt v; v_updatedAt := t |} in
    answer request st t
    = Ok {| statusCode := 200; data := VDoc (video_doc v');
            message := "Video updated successfully" |}
    /\ find (has_id (castObjectId videoId)) (videos (store_after request st t))
       = Some v'
    /\ other_videos (castObjectId videoId) (store_after request st t)
       = other_videos (castObjectId videoId) st
    /\ users (store_after request st t) = users st
    /\ likes (store_after request st t) = likes st
    /\ comments (store_after request st t) = comments st
    /\ destroyed (trace (snd (request (alone st t)))) = [].
Proof.
  intros upload st t videoId title description path v Hvalid Hv Ht Hd Hp
         request v'.
  unfold answer, store_after, request.
  rewrite (update_run upload st t videoId title description path v
             Hvalid Hv Ht Hd), Hp.
  cbn [fst snd store trace option_map]. repeat split.
  - cbn [videos with_videos].
    apply (find_update_first _
             (fun x => VideoModel.touch t (set_details title description None x))
             _ _ Hv).
    rewrite set_details_id. exact (find_holds _ _ _ Hv).
  - unfold other_videos. cbn [videos with_videos].
    apply filter_update_first_others. intros x. apply set_details_id.
Qed.

(** Alice renames her published video. *)
Lemma updateVideo_details_witness :
  answer (updateVideo (fun _ => None) Sample.public_id (Some "Ebb and flow")
            (Some " On tides, again ") None Sample.alice_id) Sample.store 4
  = Ok {| statusCode := 200;
          data := VDoc (video_doc
                          {| v_id := Sample.public_id;
                             v_video := Sample.media "v1" "https://cdn/v1";
                             v_thumbnail := Sample.media "t1" "https://cdn/t1";
                             v_title := "Ebb and flow";
                             v_description := " On tides, again ";
                             v_duration := 120; v_views := 5;
                             v_isPublished := true; v_owner := Sample.alice_id;
                             v_createdAt := 1000; v_updatedAt := 4 |});
          message := "Video updated successfully" |}.
Proof.
  exact (proj1 (updateVideo_details (fun _ => None) Sample.store 4
                 Sample.public_id "Ebb and flow" " On tides, again " None
                 Sample.public_video eq_refl eq_refl
                 ltac:(vm_compute; discriminate) ltac:(vm_compute; discriminate)
                 eq_refl)).
Defined.

(** X17.  An update with a file.  When the owner sends a thumbnail with
    texts that [trim] does not empty, the answer depends on the provider.  If the
    upload fails, [updateVideo] answers 501 and nothing has changed: the
    store is as it was and the old thumbnail has not been asked to be
    removed.  If the upload goes through, the video of the store carries
    the identifier and the URL the provider answered, with the new texts
    and the time of the write as [updatedAt], the removal of the old
    thumbnail (when it has a file identifier) is the one removal asked of the
    provider, and the other videos are untouched. *)
Theorem updateVideo_thumbnail :
  forall (upload : string -> option Uploaded) (st : Store) (t : Z)
         (videoId title description path : string) (v : Video),
    isValidObjectId videoId = true ->
    find (has_id (castObjectId videoId)) (videos st) = Some v ->
    Js.trim title <> "" ->
    Js.trim description <> "" ->
    path <> "" ->
    let request :=
      updateVideo upload videoId (Some title) (Some description) (Some path)
        (v_owner v) in
    match upload path with
    | None =>
        request (alone st t)
        = (Throw (ApiError 501 "Thumbnail uploading failed"),
           {| store := st; clock := t; trace := [DbCall "Video" "findById"];
              env := [] |})
    | Some f =>
        let v' :=
          {| v_id := v_id v; v_video := v_video v;
             v_thumbnail := {| fileId := public_id f; url := secure_url f |};
             v_title := title; v_description := description;
             v_duration := v_duration v; v_views := v_views v;
             v_isPublished := v_isPublished v; v_owner := v_owner v;
             v_createdAt := v_createdAt v; v_updatedAt := t |} in
        answer request st t
        = Ok {| statusCode := 200; data := VDoc (video_doc v');
                message := "Video updated successfully" |}
        /\ find (has_id (castObjectId videoId)) (videos (store_after request st t))
           = Some v'
        /\ other_videos (castObjectId videoId) (store_after request st t)
           = other_videos (castObjectId videoId) st
        /\ destroyed (trace (snd (request (alone st t))))
           = (if Js.truthy_str (fileId (v_thumbnail v))
              then [fileId (v_thumbnail v)] else [])
    end.
Proof.
  intros upload st t videoId title description path v Hvalid Hv Ht Hd Hp
         request.
  assert (Hpath : Js.truthy (Some path) = true)
    by (destruct path; [contradiction|reflexivity]).
  unfold answer, store_after, request.
  rewrite (update_run upload st t videoId title description (Some path) v
             Hvalid Hv Ht Hd), Hpath.
  cbn [str]. destruct (upload path) as [f|]; [|reflexivity].
  cbn [fst snd store trace option_map]. repeat split.
  - cbn [videos with_videos].
    apply (find_update_first _
             (fun x => VideoModel.touch t
                         (set_details title description
                            (Some {| fileId := public_id f; url := secure_url f |})
                            x))
             _ _ Hv).
    rewrite set_details_id. exact (find_holds _ _ _ Hv).
  - unfold other_videos. cbn [videos with_videos].
    apply filter_update_first_others. intros x. apply set_details_id.
  - now destruct (Js.truthy_str (fileId (v_thumbnail v))).
Qed.

(** Alice sends a new thumbnail for her draft; the provider takes it. *)
Lemma updateVideo_thumbnail_witness :
  destroyed
    (trace (snd (updateVideo
                   (fun _ => Some {| public_id := "t9";
                                     secure_url := "https://cdn/t9" |})
                   Sample.draft_id (Some "Draft") (Some "Ready")
                   (Some "/tmp/t9.png") Sample.alice_id
                   (alone Sample.store 4))))
  = ["t2"].
Proof.
  exact (proj2 (proj2 (proj2
    (updateVideo_thumbnail
       (fun _ => Some {| public_id := "t9"; secure_url := "https://cdn/t9" |})
       Sample.store 4 Sample.draft_id "Draft" "Ready" "/tmp/t9.png"
       Sample.draft_video eq_refl eq_refl
       ltac:(vm_compute; discriminate) ltac:(vm_compute; discriminate)
       ltac:(discriminate))))).
Defined.

(* ===================================================================== *)
(** * Further properties: the channel profile and the deleted video *)
(* ===================================================================== *)

Lemma filter_find_none {A} (p : A -> bool) (l : list A) :
  find p l = None -> filter p l = [].
Proof.
  induction l as [|a r IH]; simpl; [reflexivity|].
  destruct (p a); [discriminate|exact IH].
Qed.

(** With no user of the name, the aggregation of the channel profile has
    nothing to compute on and answers no document. *)
Lemma aggregate_channel_unknown (st : Store) (username : string)
    (viewer : option ObjectId) :
  find (fun x => String.eqb (u_username x) (Js.toLowerCase username)) (users st)
  = None ->
  Agg.aggregate st "users" (channel_pipeline username viewer) = Ok [].
Proof.
  intros Hnone. unfold Agg.aggregate, channel_pipeline.
  change (collection st "users") with (map user_doc (users st)).
  rewrite run_cons, run_stage_match. cbn [obind].
  rewrite filter_map_swap.
  rewrite (filter_ext _ _ (match_username (Js.toLowerCase username))).
  rewrite (filter_find_none _ _ Hnone). reflexivity.
Qed.

(** X18.  [getUserChannelProfile] answers no profile to anybody.  A name
    that [trim] empties is refused with the ApiError 400 before anything is
    called.  For every other name, whoever asks, whatever the store holds
    and whatever the other requests write meanwhile, the request ends in a
    failure: the ApiError 404 of the unknown channel or the rejection of
    the aggregation by the store. *)
Theorem channel_profile_never_answers :
  forall (username : string) (viewer : option ObjectId) (w : World),
    (Js.trim username = "" ->
     getUserChannelProfile username viewer w
     = (Throw (ApiError 400 "username is missing"), w))
    /\ (Js.trim username <> "" ->
        exists e : error,
          fst (getUserChannelProfile username viewer w) = Throw e
          /\ (e = ApiError 404 "channel does not exists"
              \/ e = MongoServerError "The argument to $size must be an array")).
Proof.
  intros username viewer w. unfold getUserChannelProfile. split.
  - intros Hblank. now rewrite Hblank.
  - intros Hname.
    destruct (Js.trim username) as [|c r] eqn:E; [contradiction|].
    cbn [Js.truthy_str negb].
    rewrite bind_run. unfold UserModel.aggregate, dbcall.
    set (seen := match env w with [] => store w | write :: _ => write (store w) end).
    destruct (find (fun x => String.eqb (u_username x) (Js.toLowerCase username))
                (users seen)) as [u|] eqn:Hfind.
    + rewrite (aggregate_channel seen username viewer u Hfind).
      eexists. split; [reflexivity|now right].
    + rewrite (aggregate_channel_unknown seen username viewer Hfind).
      eexists. split; [reflexivity|now left].
Qed.

(** A name of white space, and the name of alice, asked for by bob. *)
Lemma channel_profile_never_answers_witness :
  getUserChannelProfile (" " ++ nbsp) (Some Sample.bob_id) (alone Sample.store 0)
  = (Throw (ApiError 400 "username is missing"), alone Sample.store 0)
  /\ exists e : error,
       fst (getUserChannelProfile "alice" (Some Sample.bob_id)
              (alone Sample.store 0)) = Throw e
       /\ (e = ApiError 404 "channel does not exists"
           \/ e = MongoServerError "The argument to $size must be an array").
Proof.
  split.
  - exact (proj1 (channel_profile_never_answers (" " ++ nbsp)
                    (Some Sample.bob_id) (alone Sample.store 0)) eq_refl).
  - apply (proj2 (channel_profile_never_answers "alice"
                    (Some Sample.bob_id) (alone Sample.store 0))).
    discriminate.
Defined.

(** The store a deletion leaves, whatever the media of the video are. *)
Lemma delete_store (st : Store) (t : Z) (videoId : string) (v : Video) :
  isValidObjectId videoId = true ->
  find (has_id (castObjectId videoId)) (videos st) = Some v ->
  fst (deleteVideo videoId (alone st t))
  = Ok {| statusCode := 200; data := VNull;
          message := "Video deleted successfully" |}
  /\ store (snd (deleteVideo videoId (alone st t)))
     = with_comments
         (with_likes
            (with_videos st
               (remove_first (has_id (castObjectId videoId)) (videos st)))
            (filter (fun l => negb (String.eqb (l_video l) (castObjectId videoId)))
               (likes st)))
         (filter (fun c => negb (String.eqb (c_video c) (castObjectId videoId)))
            (comments st)).
Proof.
  intros Hvalid Hfind. unfold deleteVideo, alone.
  rewrite bind_run. unfold VideoModel.findById. rewrite dbcall_quiet.
  rewrite Hvalid, Hfind. cbn [fst snd].
  rewrite bind_run. unfold VideoModel.findByIdAndDelete. rewrite dbcall_quiet.
  rewrite Hvalid, Hfind. cbn [fst snd].
  rewrite bind_run. unfold LikeModel.deleteMany_video. rewrite dbcall_quiet.
  rewrite Hvalid. cbn [fst snd].
  rewrite bind_run. unfold CommentModel.deleteMany_video. rewrite dbcall_quiet.
  rewrite Hvalid. cbn [fst snd].
  unfold deleteFromCloudinary.
  destruct (Js.truthy_str (fileId (v_video v))),
           (Js.truthy_str (fileId (v_thumbnail v))); split; reflexivity.
Qed.

(** X19.  A deleted video leaves the watch histories.  [deleteVideo] of
    a stored video, the only one with its identifier, succeeds and touches
    no user and no subscription: every watch history is as it was, so the
    entries that refer to the video stay, while no stored video carries
    the identifier any more. *)
Theorem deleted_video_leaves_history :
  forall (st : Store) (t : Z) (videoId : string) (v : Video),
    isValidObjectId videoId = true ->
    find (has_id (castObjectId videoId)) (videos st) = Some v ->
    List.length (filter (has_id (castObjectId videoId)) (videos st)) = 1%nat ->
    let after := store_after (deleteVideo videoId) st t in
    users after = users st
    /\ subscriptions after = subscriptions st
    /\ (forall uid : ObjectId,
          entries_for (castObjectId videoId) (history_of after uid)
          = entries_for (castObjectId videoId) (history_of st uid))
    /\ filter (has_id (castObjectId videoId)) (videos after) = [].
Proof.
  intros st t videoId v Hvalid Hv Hone after.
  unfold after, store_after.
  rewrite (proj2 (delete_store st t videoId v Hvalid Hv)).
  split; [reflexivity|]. split; [reflexivity|]. split; [reflexivity|].
  cbn [videos with_comments with_likes with_videos].
  rewrite filter_remove_first.
  destruct (filter (has_id (castObjectId videoId)) (videos st)) as [|a [|b r]];
    [reflexivity|reflexivity|discriminate Hone].
Qed.

(** The published video of the sample is deleted after bob has watched
    it: his history still refers to it. *)
Lemma deleted_video_leaves_history_witness :
  entries_for Sample.public_id
    (history_of (store_after (deleteVideo Sample.public_id) watched_store 5)
       Sample.bob_id)
  = [ {| h_video := Sample.public_id; h_watchedAt := 9 |} ]
  /\ filter (has_id Sample.public_id)
       (videos (store_after (deleteVideo Sample.public_id) watched_store 5))
     = [].
Proof.
  destruct (deleted_video_leaves_history watched_store 5 Sample.public_id
              Sample.public_video eq_refl eq_refl eq_refl)
    as (_ & _ & H & Hgone).
  split; [exact (H Sample.bob_id)|exact Hgone].
Defined.
